(** * Affectation: employee location assignments over an embedded SQL store

    A shallow embedding of the model and controller layer of the
    application (src/src/models, src/src/controllers): the three tables
    LIEU, EMPLOYE and AFFECTER, the sqlite3 connection with its
    transaction, and the create / update / delete operations that keep an
    employee's current location next to the assignment history.

    Conventions.
    - Python [str] values are [string]s whose characters are the code points
      below 256; among them the decimal digits are "0" to "9".
    - A table is the list of its rows in rowid order; INSERT appends.
    - [None] stands for SQL NULL and for Python [None].
    - The columns [dateAffect] and [datePriseService] are declared DATE,
      which gives them NUMERIC affinity: a text that reads as a number is
      stored as that number, any other text as it is. A row keeps the two
      texts that were bound to the statement; [Sql.stored] gives what the
      column holds of them, and the ORDER BY of the history queries compares
      those stored values.
    - A real number is taken with its exact decimal value; its rounding to
      a 64-bit float is left out. *)

From Stdlib Require Import List String Ascii ZArith Lia Bool Permutation.
From Stdlib Require QArith Qcanon.
Import ListNotations.
Open Scope string_scope.
Open Scope Z_scope.

(** ** Python string primitives used by the sources *)

Module Py.

(** [str.isspace] on one character: TAB, LF, VT, FF, CR, FS, GS, RS, US,
    SPACE, NEL and NBSP. *)
Definition is_space (c : ascii) : bool :=
  let n := nat_of_ascii c in
  ((9 <=? n) && (n <=? 13) || (28 <=? n) && (n <=? 32)
   || (n =? 133) || (n =? 160))%nat.

(** The white space that [int] skips around a literal: TAB, LF, VT, FF, CR,
    SPACE, NEL and NBSP. *)
Definition is_int_space (c : ascii) : bool :=
  let n := nat_of_ascii c in
  ((9 <=? n) && (n <=? 13) || (n =? 32) || (n =? 133) || (n =? 160))%nat.

Definition is_digit (c : ascii) : bool :=
  let n := nat_of_ascii c in ((48 <=? n) && (n <=? 57))%nat.

Definition digit_val (c : ascii) : Z := Z.of_nat (nat_of_ascii c) - 48.

Definition digit_char (d : Z) : ascii := ascii_of_nat (Z.to_nat (48 + d)).

Fixpoint lstrip_by (sp : ascii -> bool) (s : string) : string :=
  match s with
  | String c s' => if sp c then lstrip_by sp s' else s
  | EmptyString => EmptyString
  end.

Fixpoint rstrip_by (sp : ascii -> bool) (s : string) : string :=
  match s with
  | String c s' =>
      match rstrip_by sp s' with
      | EmptyString => if sp c then EmptyString else String c EmptyString
      | r => String c r
      end
  | EmptyString => EmptyString
  end.

(** [s.strip()] *)
Definition strip (s : string) : string := rstrip_by is_space (lstrip_by is_space s).

(** Truth value of a string: [not s] is [negb (truthy s)]. *)
Definition truthy (s : string) : bool :=
  match s with EmptyString => false | _ => true end.

(** [s[n:]] *)
Fixpoint drop (n : nat) (s : string) : string :=
  match n, s with
  | O, _ => s
  | S n', String _ s' => drop n' s'
  | S _, EmptyString => EmptyString
  end.

(** [s.startswith(p)] *)
Definition startswith (s p : string) : bool := String.prefix p s.

(** [c in s] for a one-character [c]. *)
Fixpoint contains_char (c : ascii) (s : string) : bool :=
  match s with
  | String d s' => Ascii.eqb c d || contains_char c s'
  | EmptyString => false
  end.

(** The digit part of [int(s)] in base 10: decimal digits, single
    underscores allowed between two digits only. [prev] tells whether the
    previous character was a digit. *)
Fixpoint int_digits (acc : Z) (prev : bool) (s : string) : option Z :=
  match s with
  | EmptyString => if prev then Some acc else None
  | String c s' =>
      if is_digit c then int_digits (10 * acc + digit_val c) true s'
      else if Ascii.eqb c "_"
           then if prev then int_digits acc false s' else None
           else None
  end.

(** [int(s)]: [Some n] for the value, [None] for ValueError. White space
    around the literal is skipped, then an optional sign, then the digits.
    (The interpreter's bound of 4300 digits on a literal is not modelled.) *)
Definition int (s : string) : option Z :=
  match rstrip_by is_int_space (lstrip_by is_int_space s) with
  | String "-" s' => option_map Z.opp (int_digits 0 false s')
  | String "+" s' => int_digits 0 false s'
  | s' => int_digits 0 false s'
  end.

(** Decimal digits of a non-negative number, most significant first, put in
    front of [acc]. *)
Fixpoint digits_fuel (fuel : nat) (n : Z) (acc : string) : string :=
  match fuel with
  | O => acc
  | S f =>
      let acc' := String (digit_char (n mod 10)) acc in
      if n <? 10 then acc' else digits_fuel f (n / 10) acc'
  end.

Definition str_of_nonneg (n : Z) : string :=
  digits_fuel (S (Z.to_nat (Z.log2 n))) n EmptyString.

Fixpoint zeros (k : nat) : string :=
  match k with O => EmptyString | S k' => String "0" (zeros k') end.

(** [s.zfill(w)] for a digit string. *)
Definition zfill (w : nat) (s : string) : string :=
  zeros (w - String.length s) ++ s.

(** [f"{n:03d}"]: sign-aware zero padding to a total width of 3. *)
Definition format_03d (n : Z) : string :=
  if n <? 0 then String "-" (zfill 2 (str_of_nonneg (- n)))
  else zfill 3 (str_of_nonneg n).

(** [max(l)] for a non-empty list given as head and tail. *)
Definition max_list (x : Z) (l : list Z) : Z := fold_left Z.max l x.

(** [", ".join(l)] *)
Definition join (sep : string) (l : list string) : string := String.concat sep l.

(** [c.lower()] on a code point below 256: the letters A to Z and the
    capital letters of Latin-1 (192 to 222, the multiplication sign 215
    apart) move up by 32; every other character stays. *)
Definition lower_char (c : ascii) : ascii :=
  let n := nat_of_ascii c in
  if ((65 <=? n) && (n <=? 90)
      || (192 <=? n) && (n <=? 222) && negb (n =? 215))%nat
  then ascii_of_nat (n + 32) else c.

(** [s.lower()] *)
Fixpoint lower (s : string) : string :=
  match s with
  | String c s' => String (lower_char c) (lower s')
  | EmptyString => EmptyString
  end.

(** [s[:n]] for [n >= 0] *)
Fixpoint take (n : nat) (s : string) : string :=
  match n, s with
  | S n', String c s' => String c (take n' s')
  | _, _ => EmptyString
  end.

(** [s[:k]] for any integer [k]: a negative [k] counts from the end. *)
Definition slice_to (k : Z) (s : string) : string :=
  if k <? 0 then take (Z.to_nat (Z.of_nat (String.length s) + k)) s
  else take (Z.to_nat k) s.

End Py.

(** ** BaseController (src/src/controllers/base_controller.py) *)

Module BaseController.

(** The [numbers] list built by the loop of [_get_next_id]: for each
    identifier that is non-empty and starts with [prefix], the integer read
    from what follows the prefix, when [int] accepts it. *)
Definition numbers_of (prefix : string) (existing_ids : list string) : list Z :=
  flat_map (fun id_str =>
    if Py.truthy id_str && Py.startswith id_str prefix
    then match Py.int (Py.drop (String.length prefix) id_str) with
         | Some num => [num]
         | None => []
         end
    else []) existing_ids.

Definition _get_next_id (prefix : string) (existing_ids : list string) : string :=
  match existing_ids with
  | [] => prefix ++ "001"
  | _ =>
      match numbers_of prefix existing_ids with
      | [] => prefix ++ "001"
      | n :: ns => prefix ++ Py.format_03d (Py.max_list n ns + 1)
      end
  end.

(** [_validate_required_fields]: the names of the fields that are absent or
    falsy, in the order of [required_fields]; [data] is the lookup
    [data.get]. *)
Definition missing_fields (data : string -> option string)
    (required_fields : list string) : list string :=
  filter (fun field =>
    match data field with
    | Some v => negb (Py.truthy v)
    | None => true
    end) required_fields.

Definition _validate_required_fields (data : string -> option string)
    (required_fields : list string) : bool * string :=
  match missing_fields data required_fields with
  | [] => (true, "")
  | missing => (false, "Missing required fields: " ++ Py.join ", " missing)
  end.

End BaseController.

(** ** Dates: [datetime.strptime(s, '%Y-%m-%d').date()] and [date.today()] *)

Module PyDate.

Record date := mk { year : Z; month : Z; day : Z }.

Definition is_leap (y : Z) : bool :=
  ((y mod 4 =? 0) && negb (y mod 100 =? 0)) || (y mod 400 =? 0).

Definition days_in_month (y m : Z) : Z :=
  if m =? 2 then (if is_leap y then 29 else 28)
  else if (m =? 4) || (m =? 6) || (m =? 9) || (m =? 11) then 30
  else 31.

Definition two_digits (c1 c2 : ascii) : option Z :=
  if Py.is_digit c1 && Py.is_digit c2
  then Some (10 * Py.digit_val c1 + Py.digit_val c2) else None.

Definition one_digit (c : ascii) : option Z :=
  if Py.is_digit c then Some (Py.digit_val c) else None.

(** The [%d] field, which must reach the end of the text:
    [3[0-1]|[1-2]\d|0[1-9]|[1-9]| [1-9]]. *)
Definition parse_day (s : string) : option Z :=
  match s with
  | String c EmptyString =>
      match one_digit c with
      | Some d => if 1 <=? d then Some d else None
      | None => None
      end
  | String c1 (String c2 EmptyString) =>
      if Ascii.eqb c1 " "
      then match one_digit c2 with
           | Some d => if 1 <=? d then Some d else None
           | None => None
           end
      else match two_digits c1 c2 with
           | Some d => if (1 <=? d) && (d <=? 31) then Some d else None
           | None => None
           end
  | _ => None
  end.

(** The [%m] field followed by the literal dash:
    [1[0-2]|0[1-9]|[1-9]]. *)
Definition parse_month (s : string) : option (Z * string) :=
  match s with
  | String c (String "-" rest) =>
      match one_digit c with
      | Some m => if 1 <=? m then Some (m, rest) else None
      | None => None
      end
  | String c1 (String c2 (String "-" rest)) =>
      match two_digits c1 c2 with
      | Some m => if (1 <=? m) && (m <=? 12) then Some (m, rest) else None
      | None => None
      end
  | _ => None
  end.

(** The [%Y] field, exactly four digits, followed by the literal dash. *)
Definition parse_year (s : string) : option (Z * string) :=
  match s with
  | String a (String b (String c (String d (String "-" rest)))) =>
      match two_digits a b, two_digits c d with
      | Some hi, Some lo => Some (100 * hi + lo, rest)
      | _, _ => None
      end
  | _ => None
  end.

(** [None] is ValueError: no match, text left over, year 0, or a day that
    the month does not have. *)
Definition strptime (s : string) : option date :=
  match parse_year s with
  | Some (y, s1) =>
      match parse_month s1 with
      | Some (m, s2) =>
          match parse_day s2 with
          | Some d =>
              if (1 <=? y) && (d <=? days_in_month y m)
              then Some (mk y m d) else None
          | None => None
          end
      | None => None
      end
  | None => None
  end.

(** [a < b] on [datetime.date]. *)
Definition ltb (a b : date) : bool :=
  (year a <? year b)
  || ((year a =? year b)
      && ((month a <? month b)
          || ((month a =? month b) && (day a <? day b)))).

End PyDate.

(** ** Entity records (src/src/models)

    The attributes that the controllers fill are texts; the current
    location of an employee alone may be [None]. *)

Module Location.

Record t := mk { idlieu : string; design : string; province : string }.

Definition validate (self : t) : bool * string :=
  if negb (Py.truthy (idlieu self)) || negb (Py.truthy (Py.strip (idlieu self)))
  then (false, "Location ID is required.")
  else if negb (Py.truthy (design self)) || negb (Py.truthy (Py.strip (design self)))
  then (false, "Location designation is required.")
  else if negb (Py.truthy (province self)) || negb (Py.truthy (Py.strip (province self)))
  then (false, "Province is required.")
  else (true, "").

End Location.

Module Employee.

Record t := mk {
  numEmp : string;
  civilite : string;
  nom : string;
  prenom : string;
  mail : string;
  poste : string;
  idlieu : option string
}.

Definition CIVILITE_OPTIONS : list string := ["Mr"; "Mme"; "Mlle"].

Definition validate (self : t) : bool * string :=
  if negb (Py.truthy (numEmp self)) || negb (Py.truthy (Py.strip (numEmp self)))
  then (false, "Employee ID is required.")
  else if negb (Py.truthy (civilite self))
          || negb (existsb (String.eqb (civilite self)) CIVILITE_OPTIONS)
  then (false, "Valid title is required. Must be one of: "
                 ++ Py.join ", " CIVILITE_OPTIONS)
  else if negb (Py.truthy (nom self)) || negb (Py.truthy (Py.strip (nom self)))
  then (false, "Last name is required.")
  else if negb (Py.truthy (prenom self)) || negb (Py.truthy (Py.strip (prenom self)))
  then (false, "First name is required.")
  else if negb (Py.truthy (mail self)) || negb (Py.contains_char "@" (mail self))
  then (false, "Valid email address is required.")
  else if negb (Py.truthy (poste self)) || negb (Py.truthy (Py.strip (poste self)))
  then (false, "Job position is required.")
  else (true, "").

(** [UPDATE EMPLOYE SET idlieu = v] on one row. *)
Definition set_idlieu (v : option string) (self : t) : t :=
  mk (numEmp self) (civilite self) (nom self) (prenom self) (mail self)
     (poste self) v.

End Employee.

Module Assignment.

Record t := mk {
  numAffect : string;
  numEmp : string;
  AncienLieu : string;
  NouveauLieu : string;
  dateAffect : string;
  datePriseService : string
}.

(** The checks that [validate] makes before it reads the dates. *)
Definition identifiers_valid (self : t) : bool :=
  Py.truthy (numAffect self) && Py.truthy (Py.strip (numAffect self))
  && Py.truthy (numEmp self) && Py.truthy (Py.strip (numEmp self))
  && Py.truthy (AncienLieu self) && Py.truthy (Py.strip (AncienLieu self))
  && Py.truthy (NouveauLieu self) && Py.truthy (Py.strip (NouveauLieu self))
  && negb (String.eqb (AncienLieu self) (NouveauLieu self)).

(** [today] is the value of [date.today()] at the time of the call. The
    dates are texts, as a form gives them. The text of the ValueError, which the source appends after the colon of the
    date-format message, is left out. *)
Definition validate (today : PyDate.date) (self : t) : bool * string :=
  if negb (Py.truthy (numAffect self)) || negb (Py.truthy (Py.strip (numAffect self)))
  then (false, "Assignment ID is required.")
  else if negb (Py.truthy (numEmp self)) || negb (Py.truthy (Py.strip (numEmp self)))
  then (false, "Employee is required.")
  else if negb (Py.truthy (AncienLieu self))
          || negb (Py.truthy (Py.strip (AncienLieu self)))
  then (false, "Previous location is required.")
  else if negb (Py.truthy (NouveauLieu self))
          || negb (Py.truthy (Py.strip (NouveauLieu self)))
  then (false, "New location is required.")
  else if String.eqb (AncienLieu self) (NouveauLieu self)
  then (false, "Previous and new locations must be different.")
  else
    match PyDate.strptime (dateAffect self) with
    | None => (false, "Invalid date format. Please use YYYY-MM-DD: ")
    | Some affect_date =>
        match PyDate.strptime (datePriseService self) with
        | None => (false, "Invalid date format. Please use YYYY-MM-DD: ")
        | Some service_date =>
            if PyDate.ltb service_date affect_date
            then (false, "Service start date cannot be before assignment date.")
            else if PyDate.ltb today affect_date
            then (false, "Assignment date cannot be in the future.")
            else (true, "")
        end
    end.

End Assignment.

(** ** The store: three tables behind one sqlite3 connection *)

Record DB := mkDB {
  LIEU : list Location.t;
  EMPLOYE : list Employee.t;
  AFFECTER : list Assignment.t
}.

(** [committed] is what the database file holds, [current] what the
    connection sees, [in_transaction] whether a transaction is open.

    The last two fields are the environment of the connection. They say,
    statement after statement, whether the next SELECT ([read_faults]) and
    the next writing statement ([write_faults]: BEGIN, INSERT, UPDATE,
    DELETE, COMMIT) runs ([None]) or fails with an error of that message
    ([Some msg]: a locked database, a failing disk). Past the end of a list
    every statement runs. *)
Record Conn := mkConn {
  committed : DB;
  current : DB;
  in_transaction : bool;
  read_faults : list (option string);
  write_faults : list (option string)
}.

(** [sqlite3.connect] on a file holding [db], in an environment where no
    statement fails for a reason of its own. *)
Definition connect (db : DB) : Conn := mkConn db db false [] [].

(** [sqlite3.connect] on a file holding [db], in the environment given by
    the two schedules. *)
Definition connect_in (reads writes : list (option string)) (db : DB) : Conn :=
  mkConn db db false reads writes.

Inductive exn : Type :=
| IntegrityError (msg : string)
| OperationalError (msg : string)
| TypeError (msg : string).

(** [str(e)] *)
Definition str_of_exn (e : exn) : string :=
  match e with
  | IntegrityError m => m
  | OperationalError m => m
  | TypeError m => m
  end.

Inductive outcome (A : Type) : Type :=
| Ok (a : A)
| Raise (e : exn).
Arguments Ok {A} a.
Arguments Raise {A} e.

(** Statements run against the connection and may raise. *)
Definition M (A : Type) : Type := Conn -> outcome A * Conn.

Definition ret {A} (a : A) : M A := fun c => (Ok a, c).

Definition bind {A B} (m : M A) (k : A -> M B) : M B :=
  fun c => match m c with
           | (Ok a, c') => k a c'
           | (Raise e, c') => (Raise e, c')
           end.

Definition raise {A} (e : exn) : M A := fun c => (Raise e, c).

(** [try: body  except Exception as e: handler e] *)
Definition try_except {A} (body : M A) (handler : exn -> M A) : M A :=
  fun c => match body c with
           | (Ok a, c') => (Ok a, c')
           | (Raise e, c') => handler e c'
           end.

Notation "x <- m ;; k" := (bind m (fun x => k))
  (at level 61, m at next level, right associativity).
Notation "m ;;; k" := (bind m (fun _ => k))
  (at level 61, right associativity).

Module Sql.

(** What the environment holds for the next statement, and the rest of the
    schedule. *)
Definition next_fault (fs : list (option string))
  : option string * list (option string) :=
  match fs with
  | [] => (None, [])
  | f :: fs' => (f, fs')
  end.

(** A SELECT: reads what the connection sees. *)
Definition query {A} (f : DB -> A) : M A :=
  fun c =>
    let (fault, rs) := next_fault (read_faults c) in
    let c' := mkConn (committed c) (current c) (in_transaction c)
                     rs (write_faults c) in
    match fault with
    | Some msg => (Raise (OperationalError msg), c')
    | None => (Ok (f (current c)), c')
    end.

(** An explicit [BEGIN TRANSACTION]. *)
Definition begin_transaction : M unit :=
  fun c =>
    let (fault, ws) := next_fault (write_faults c) in
    match fault with
    | Some msg =>
        (Raise (OperationalError msg),
         mkConn (committed c) (current c) (in_transaction c) (read_faults c) ws)
    | None =>
        if in_transaction c
        then (Raise (OperationalError
                       "cannot start a transaction within a transaction"),
              mkConn (committed c) (current c) true (read_faults c) ws)
        else (Ok tt, mkConn (committed c) (current c) true (read_faults c) ws)
    end.

(** INSERT, UPDATE and DELETE: the sqlite3 module opens a transaction first
    when none is open; a failing statement changes no row. *)
Definition dml {A} (f : DB -> outcome (A * DB)) : M A :=
  fun c =>
    let (fault, ws) := next_fault (write_faults c) in
    match fault with
    | Some msg =>
        (Raise (OperationalError msg),
         mkConn (committed c) (current c) true (read_faults c) ws)
    | None =>
        match f (current c) with
        | Ok (a, db') => (Ok a, mkConn (committed c) db' true (read_faults c) ws)
        | Raise e =>
            (Raise e, mkConn (committed c) (current c) true (read_faults c) ws)
        end
    end.

(** [conn.commit()]: a commit that fails leaves the transaction open. *)
Definition commit : M unit :=
  fun c =>
    let (fault, ws) := next_fault (write_faults c) in
    match fault with
    | Some msg =>
        (Raise (OperationalError msg),
         mkConn (committed c) (current c) (in_transaction c) (read_faults c) ws)
    | None => (Ok tt, mkConn (current c) (current c) false (read_faults c) ws)
    end.

(** [conn.rollback()]: drops what the transaction wrote; it is taken never
    to fail. *)
Definition rollback : M unit :=
  fun c => (Ok tt, mkConn (committed c) (committed c) false
                          (read_faults c) (write_faults c)).

(** What a column of NUMERIC affinity holds: a number or a text. *)
Inductive value : Type :=
| Number (q : Qcanon.Qc)
| Text (s : string).

(** The white space that SQLite skips around a number: TAB, LF, VT, FF, CR
    and SPACE. *)
Definition is_space (c : ascii) : bool :=
  let n := nat_of_ascii c in ((9 <=? n) && (n <=? 13) || (n =? 32))%nat.

(** The decimal digits at the head of [s], read after the value [acc]: the
    value, [count] plus the number of digits read, and the text that
    follows them. *)
Fixpoint read_digits (acc count : Z) (s : string) : Z * Z * string :=
  match s with
  | String c s' =>
      if Py.is_digit c
      then read_digits (10 * acc + Py.digit_val c) (count + 1) s'
      else (acc, count, s)
  | EmptyString => (acc, count, s)
  end.

(** An optional sign: whether it is a minus, and the text that follows. *)
Definition read_sign (s : string) : bool * string :=
  match s with
  | String c s' =>
      if Ascii.eqb c "-" then (true, s')
      else if Ascii.eqb c "+" then (false, s')
      else (false, s)
  | EmptyString => (false, s)
  end.

(** [m] times ten to the power [e]. *)
Definition decimal (m e : Z) : Qcanon.Qc :=
  Qcanon.Q2Qc (if 0 <=? e
               then QArith_base.inject_Z (m * 10 ^ e)
               else QArith_base.Qmake m (Z.to_pos (10 ^ (- e)))).

(** The number that a text is when it is a well-formed integer or real
    literal: white space, an optional sign, digits with an optional point
    among them (one digit at least), an optional exponent ([e] or [E], an
    optional sign, one digit at least), white space. [None] for any other
    text; a hexadecimal literal is none. *)
Definition numeric (s : string) : option Qcanon.Qc :=
  let s0 := Py.lstrip_by is_space s in
  let (negative, s1) := read_sign s0 in
  let '(whole, n1, s2) := read_digits 0 0 s1 in
  let '(m, n2, s3) :=
    match s2 with
    | String c t => if Ascii.eqb c "." then read_digits whole 0 t else (whole, 0, s2)
    | EmptyString => (whole, 0, s2)
    end in
  let '(e, e_valid, s4) :=
    match s3 with
    | String c t =>
        if Ascii.eqb c "e" || Ascii.eqb c "E"
        then let (e_negative, t1) := read_sign t in
             let '(ev, n3, t2) := read_digits 0 0 t1 in
             (if e_negative then - ev else ev, 0 <? n3, t2)
        else (0, true, s3)
    | EmptyString => (0, true, s3)
    end in
  if (0 <? n1 + n2) && e_valid
     && negb (Py.truthy (Py.lstrip_by is_space s4))
  then Some (decimal (if negative then - m else m) (e - n2))
  else None.

(** What a column of NUMERIC affinity stores of a bound text. *)
Definition stored (s : string) : value :=
  match numeric s with
  | Some q => Number q
  | None => Text s
  end.

(** The Python type of a stored number that is read back: [int] for an
    integer of 64 bits, [float] for any other number. *)
Definition python_type (q : Qcanon.Qc) : string :=
  let r := Qcanon.this q in
  if Pos.eqb (QArith_base.Qden r) 1
     && (- 2 ^ 63 <=? QArith_base.Qnum r) && (QArith_base.Qnum r <? 2 ^ 63)
  then "int" else "float".

(** The order of stored values: a number is below every text, two numbers
    compare by value, two texts byte by byte (BINARY collation). *)
Definition value_cmp (v1 v2 : value) : comparison :=
  match v1, v2 with
  | Number p, Number q => Qcanon.Qccompare p q
  | Number _, Text _ => Lt
  | Text _, Number _ => Gt
  | Text s, Text t => String.compare s t
  end.

(** The sort key of [ORDER BY dateAffect, datePriseService]. *)
Definition key (a : Assignment.t) : value * value :=
  (stored (Assignment.dateAffect a), stored (Assignment.datePriseService a)).

Definition key_cmp (k1 k2 : value * value) : comparison :=
  match value_cmp (fst k1) (fst k2) with
  | Eq => value_cmp (snd k1) (snd k2)
  | c => c
  end.

Definition key_lt (k1 k2 : value * value) : bool :=
  match key_cmp k1 k2 with Lt => true | _ => false end.

(** First row of [ORDER BY dateAffect DESC, datePriseService DESC]: a row
    with the greatest key; among equal keys the one met first in rowid
    order. *)
Definition pick (best : option Assignment.t) (r : Assignment.t)
  : option Assignment.t :=
  match best with
  | None => Some r
  | Some b => if key_lt (key b) (key r) then Some r else Some b
  end.

Definition first_desc (rows : list Assignment.t) : option Assignment.t :=
  fold_left pick rows None.

(** [SELECT ... FROM AFFECTER WHERE numEmp = ?
     ORDER BY dateAffect DESC, datePriseService DESC LIMIT 1] *)
Definition latest_assignment (numEmp : string) (db : DB) : option Assignment.t :=
  first_desc
    (filter (fun a => String.eqb (Assignment.numEmp a) numEmp) (AFFECTER db)).

Definition find_location (idlieu : string) (db : DB) : option Location.t :=
  find (fun l => String.eqb (Location.idlieu l) idlieu) (LIEU db).

Definition find_employee (numEmp : string) (db : DB) : option Employee.t :=
  find (fun e => String.eqb (Employee.numEmp e) numEmp) (EMPLOYE db).

Definition find_assignment (numAffect : string) (db : DB) : option Assignment.t :=
  find (fun a => String.eqb (Assignment.numAffect a) numAffect) (AFFECTER db).

(** [SELECT a.*, ... FROM AFFECTER a JOIN EMPLOYE e ON a.numEmp = e.numEmp
     JOIN LIEU al ON a.AncienLieu = al.idlieu
     JOIN LIEU nl ON a.NouveauLieu = nl.idlieu WHERE a.numAffect = ?]:
    the row, provided its employee and both of its locations exist. *)
Definition find_assignment_joined (numAffect : string) (db : DB)
  : option Assignment.t :=
  find (fun a =>
          String.eqb (Assignment.numAffect a) numAffect
          && existsb (fun e => String.eqb (Employee.numEmp e)
                                          (Assignment.numEmp a)) (EMPLOYE db)
          && existsb (fun l => String.eqb (Location.idlieu l)
                                          (Assignment.AncienLieu a)) (LIEU db)
          && existsb (fun l => String.eqb (Location.idlieu l)
                                          (Assignment.NouveauLieu a)) (LIEU db))
       (AFFECTER db).

(** [SELECT COUNT( * ) FROM EMPLOYE WHERE idlieu = ?] *)
Definition count_employees_at (idlieu : string) (db : DB) : nat :=
  List.length (filter (fun e =>
    match Employee.idlieu e with
    | Some l => String.eqb l idlieu
    | None => false
    end) (EMPLOYE db)).

(** [SELECT COUNT( * ) FROM AFFECTER WHERE AncienLieu = ? OR NouveauLieu = ?] *)
Definition count_assignments_at (idlieu : string) (db : DB) : nat :=
  List.length (filter (fun a =>
    String.eqb (Assignment.AncienLieu a) idlieu
    || String.eqb (Assignment.NouveauLieu a) idlieu) (AFFECTER db)).

(** [INSERT INTO LIEU]: primary key [idlieu]. *)
Definition insert_lieu (l : Location.t) : M unit :=
  dml (fun db =>
    if existsb (fun l' => String.eqb (Location.idlieu l') (Location.idlieu l))
               (LIEU db)
    then Raise (IntegrityError "UNIQUE constraint failed: LIEU.idlieu")
    else Ok (tt, mkDB (LIEU db ++ [l]) (EMPLOYE db) (AFFECTER db))).

(** [INSERT INTO EMPLOYE]: CHECK on [civilite], primary key [numEmp],
    UNIQUE [mail]. *)
Definition insert_employe (e : Employee.t) : M unit :=
  dml (fun db =>
    if negb (existsb (String.eqb (Employee.civilite e)) Employee.CIVILITE_OPTIONS)
    then Raise (IntegrityError "CHECK constraint failed: EMPLOYE")
    else if existsb (fun e' => String.eqb (Employee.numEmp e') (Employee.numEmp e))
                    (EMPLOYE db)
    then Raise (IntegrityError "UNIQUE constraint failed: EMPLOYE.numEmp")
    else if existsb (fun e' => String.eqb (Employee.mail e') (Employee.mail e))
                    (EMPLOYE db)
    then Raise (IntegrityError "UNIQUE constraint failed: EMPLOYE.mail")
    else Ok (tt, mkDB (LIEU db) (EMPLOYE db ++ [e]) (AFFECTER db))).

(** [INSERT INTO AFFECTER]: primary key [numAffect]. The foreign keys are
    declared but the connection never turns their enforcement on. *)
Definition insert_affecter (a : Assignment.t) : M unit :=
  dml (fun db =>
    if existsb (fun a' => String.eqb (Assignment.numAffect a')
                                     (Assignment.numAffect a)) (AFFECTER db)
    then Raise (IntegrityError "UNIQUE constraint failed: AFFECTER.numAffect")
    else Ok (tt, mkDB (LIEU db) (EMPLOYE db) (AFFECTER db ++ [a]))).

(** [cursor.executemany] *)
Fixpoint executemany {A} (stmt : A -> M unit) (rows : list A) : M unit :=
  match rows with
  | [] => ret tt
  | r :: rows' => stmt r ;;; executemany stmt rows'
  end.

(** The rows of EMPLOYE after [UPDATE EMPLOYE SET idlieu = v WHERE numEmp = ?]. *)
Definition employe_set_idlieu (v : option string) (numEmp : string)
    (rows : list Employee.t) : list Employee.t :=
  map (fun e => if String.eqb (Employee.numEmp e) numEmp
                then Employee.set_idlieu v e else e) rows.

(** The rows of AFFECTER after the UPDATE that writes the five columns of
    [a] into the rows identified by [numAffect]. *)
Definition affecter_update (a : Assignment.t) (numAffect : string)
    (rows : list Assignment.t) : list Assignment.t :=
  map (fun r => if String.eqb (Assignment.numAffect r) numAffect
                then Assignment.mk (Assignment.numAffect r)
                       (Assignment.numEmp a) (Assignment.AncienLieu a)
                       (Assignment.NouveauLieu a) (Assignment.dateAffect a)
                       (Assignment.datePriseService a)
                else r) rows.

(** The rows of AFFECTER after [DELETE ... WHERE numAffect = ?]. *)
Definition affecter_delete (numAffect : string) (rows : list Assignment.t)
  : list Assignment.t :=
  filter (fun r => negb (String.eqb (Assignment.numAffect r) numAffect)) rows.

(** [UPDATE EMPLOYE SET idlieu = ? WHERE numEmp = ?]; the value is the
    rowcount. *)
Definition update_employe_idlieu (v : option string) (numEmp : string) : M nat :=
  dml (fun db =>
    Ok (List.length (filter (fun e => String.eqb (Employee.numEmp e) numEmp)
                            (EMPLOYE db)),
        mkDB (LIEU db) (employe_set_idlieu v numEmp (EMPLOYE db)) (AFFECTER db))).

(** [UPDATE AFFECTER SET numEmp = ?, AncienLieu = ?, NouveauLieu = ?,
     dateAffect = ?, datePriseService = ? WHERE numAffect = ?] *)
Definition update_affecter (a : Assignment.t) (numAffect : string) : M nat :=
  dml (fun db =>
    Ok (List.length (filter (fun r => String.eqb (Assignment.numAffect r) numAffect)
                            (AFFECTER db)),
        mkDB (LIEU db) (EMPLOYE db) (affecter_update a numAffect (AFFECTER db)))).

(** [DELETE FROM AFFECTER WHERE numAffect = ?] *)
Definition delete_affecter (numAffect : string) : M nat :=
  dml (fun db =>
    Ok (List.length (filter (fun r => String.eqb (Assignment.numAffect r) numAffect)
                            (AFFECTER db)),
        mkDB (LIEU db) (EMPLOYE db) (affecter_delete numAffect (AFFECTER db)))).

(** [DELETE FROM LIEU WHERE idlieu = ?] *)
Definition delete_lieu (idlieu : string) : M nat :=
  dml (fun db =>
    let hit := fun l => String.eqb (Location.idlieu l) idlieu in
    Ok (List.length (filter hit (LIEU db)),
        mkDB (filter (fun l => negb (hit l)) (LIEU db))
             (EMPLOYE db) (AFFECTER db))).

(** [SELECT COUNT( * ) FROM AFFECTER WHERE numEmp = ?] *)
Definition count_assignments_of (numEmp : string) (db : DB) : nat :=
  List.length (filter (fun a => String.eqb (Assignment.numEmp a) numEmp)
                      (AFFECTER db)).

(** [SELECT COUNT( * ) FROM EMPLOYE WHERE mail = ?] *)
Definition count_mail (mail : string) (db : DB) : nat :=
  List.length (filter (fun e => String.eqb (Employee.mail e) mail) (EMPLOYE db)).

(** [SELECT COUNT( * ) FROM EMPLOYE WHERE mail = ? AND numEmp != ?] *)
Definition count_mail_except (mail numEmp : string) (db : DB) : nat :=
  List.length (filter (fun e => String.eqb (Employee.mail e) mail
                                && negb (String.eqb (Employee.numEmp e) numEmp))
                      (EMPLOYE db)).

(** [SELECT NouveauLieu FROM AFFECTER WHERE numEmp = ? AND numAffect != ?
     ORDER BY dateAffect DESC, datePriseService DESC LIMIT 1] *)
Definition latest_assignment_except (numEmp numAffect : string) (db : DB)
  : option Assignment.t :=
  first_desc
    (filter (fun a => String.eqb (Assignment.numEmp a) numEmp
                      && negb (String.eqb (Assignment.numAffect a) numAffect))
            (AFFECTER db)).

(** The rows of LIEU after [UPDATE LIEU SET design = ?, province = ?
    WHERE idlieu = ?]. *)
Definition lieu_update (design province idlieu : string) (rows : list Location.t)
  : list Location.t :=
  map (fun l => if String.eqb (Location.idlieu l) idlieu
                then Location.mk (Location.idlieu l) design province
                else l) rows.

(** [UPDATE LIEU SET design = ?, province = ? WHERE idlieu = ?] *)
Definition update_lieu (design province idlieu : string) : M nat :=
  dml (fun db =>
    Ok (List.length (filter (fun l => String.eqb (Location.idlieu l) idlieu)
                            (LIEU db)),
        mkDB (lieu_update design province idlieu (LIEU db))
             (EMPLOYE db) (AFFECTER db))).

(** The rows of EMPLOYE after the UPDATE that writes the six columns of [e]
    other than the key into the rows identified by [numEmp]. *)
Definition employe_update (e : Employee.t) (numEmp : string)
    (rows : list Employee.t) : list Employee.t :=
  map (fun r => if String.eqb (Employee.numEmp r) numEmp
                then Employee.mk (Employee.numEmp r) (Employee.civilite e)
                       (Employee.nom e) (Employee.prenom e) (Employee.mail e)
                       (Employee.poste e) (Employee.idlieu e)
                else r) rows.

(** [UPDATE EMPLOYE SET civilite = ?, nom = ?, prenom = ?, mail = ?,
     poste = ?, idlieu = ? WHERE numEmp = ?]: with no row to change nothing
    is checked; otherwise CHECK on [civilite], then UNIQUE [mail], which
    fails when a row that is not changed holds the address, or when more
    than one row would receive it. *)
Definition update_employe (e : Employee.t) (numEmp : string) : M nat :=
  dml (fun db =>
    let hit := fun r => String.eqb (Employee.numEmp r) numEmp in
    let n := List.length (filter hit (EMPLOYE db)) in
    if Nat.eqb n 0 then Ok (0%nat, db)
    else if negb (existsb (String.eqb (Employee.civilite e))
                          Employee.CIVILITE_OPTIONS)
    then Raise (IntegrityError "CHECK constraint failed: EMPLOYE")
    else if Nat.ltb 1 n
            || existsb (fun r => negb (hit r)
                                 && String.eqb (Employee.mail r) (Employee.mail e))
                       (EMPLOYE db)
    then Raise (IntegrityError "UNIQUE constraint failed: EMPLOYE.mail")
    else Ok (n, mkDB (LIEU db) (employe_update e numEmp (EMPLOYE db))
                     (AFFECTER db))).

(** The rows of EMPLOYE after [DELETE FROM EMPLOYE WHERE numEmp = ?]. *)
Definition employe_delete (numEmp : string) (rows : list Employee.t)
  : list Employee.t :=
  filter (fun r => negb (String.eqb (Employee.numEmp r) numEmp)) rows.

(** [DELETE FROM EMPLOYE WHERE numEmp = ?] *)
Definition delete_employe (numEmp : string) : M nat :=
  dml (fun db =>
    Ok (List.length (filter (fun r => String.eqb (Employee.numEmp r) numEmp)
                            (EMPLOYE db)),
        mkDB (LIEU db) (employe_delete numEmp (EMPLOYE db)) (AFFECTER db))).

End Sql.

(** ** Model queries (src/src/models/base_model.py, assignment.py) *)

(** [BaseModel.get] for Location: [SELECT * FROM LIEU WHERE idlieu = ?]. *)
Definition Location_get (pk : string) : M (option Location.t) :=
  Sql.query (Sql.find_location pk).

(** [BaseModel.get] for Employee: [SELECT * FROM EMPLOYE WHERE numEmp = ?].
    The joined attributes [lieu_design] and [province] of the object stay
    [None]. *)
Definition Employee_get (pk : string) : M (option Employee.t) :=
  Sql.query (Sql.find_employee pk).

(** Modelled from the spec: [Assignment.get_assignment], which
    [AssignmentController.get_by_id] calls, is defined nowhere in the
    repository. The spec gives [get(id) -> Entity | NotFound] and the
    caller's docstring promises the assignment with joined data or [None];
    the query of that name in [Database.get_assignment] is taken: the row
    with this identifier, inner-joined with its employee and both of its
    locations. A row holds its two dates as the texts that were written;
    what of them comes back as a number is told by [Sql.stored]. *)
Definition Assignment_get_assignment (numAffect : string)
  : M (option Assignment.t) :=
  Sql.query (Sql.find_assignment_joined numAffect).

(** A [Dict[str, Any]] of form data: string keys, string values; the first
    pair with a key is its entry. *)
Definition dict : Type := list (string * string).

Definition dict_get (d : dict) (k : string) : option string :=
  match find (fun kv => String.eqb (fst kv) k) d with
  | Some kv => Some (snd kv)
  | None => None
  end.

(** [d[k]] where the key is known to be present. *)
Definition dict_item (d : dict) (k : string) : string :=
  match dict_get d k with Some v => v | None => "" end.

(** ** Database (src/src/models/database.py) *)

Module Database.

Definition sample_locations : list Location.t :=
  [ Location.mk "L1" "Antananarivo" "Antananarivo";
    Location.mk "L2" "Toamasina" "Toamasina";
    Location.mk "L3" "Antsirabe" "Antananarivo";
    Location.mk "L4" "Fianarantsoa" "Fianarantsoa";
    Location.mk "L5" "Mahajanga" "Mahajanga";
    Location.mk "L6" "Toliara" "Toliara";
    Location.mk "L7" "Antsiranana" "Antsiranana";
    Location.mk "L8" "Moramanga" "Toamasina";
    Location.mk "L9" "Ambalavao" "Fianarantsoa";
    Location.mk "L10" "Sambava" "Antsiranana" ].

Definition sample_employees : list Employee.t :=
  [ Employee.mk "E001" "Mr" "Rakoto" "Jean" "jean.rakoto@example.com" "Manager" (Some "L1");
    Employee.mk "E002" "Mme" "Rasoa" "Marie" "marie.rasoa@example.com" "Developer" (Some "L1");
    Employee.mk "E003" "Mr" "Rabe" "Paul" "paul.rabe@example.com" "Analyst" (Some "L2");
    Employee.mk "E004" "Mlle" "Rakotomalala" "Sofia" "sofia.rakoto@example.com" "Designer" (Some "L3");
    Employee.mk "E005" "Mr" "Randria" "Jean" "jean.randria@example.com" "Tester" (Some "L4");
    Employee.mk "E006" "Mme" "Razafy" "Claire" "claire.razafy@example.com" "Developer" (Some "L2");
    Employee.mk "E007" "Mr" "Rakotondrabe" "Marc" "marc.rabe@example.com" "Manager" (Some "L5");
    Employee.mk "E008" "Mlle" "Rasolofoniaina" "Julie" "julie.rasolo@example.com" "Analyst" (Some "L6");
    Employee.mk "E009" "Mr" "Randriamanantena" "Pierre" "pierre.randria@example.com" "Developer" (Some "L7");
    Employee.mk "E010" "Mme" "Rakotovao" "Nirina" "nirina.rakoto@example.com" "Designer" (Some "L8") ].

Definition sample_assignments : list Assignment.t :=
  [ Assignment.mk "A001" "E001" "L1" "L2" "2023-01-15" "2023-02-01";
    Assignment.mk "A002" "E002" "L1" "L3" "2023-02-10" "2023-02-20";
    Assignment.mk "A003" "E003" "L2" "L4" "2023-03-05" "2023-03-15";
    Assignment.mk "A004" "E004" "L3" "L5" "2023-04-12" "2023-04-22";
    Assignment.mk "A005" "E005" "L4" "L6" "2023-05-20" "2023-06-01";
    Assignment.mk "A006" "E006" "L2" "L7" "2023-06-15" "2023-06-25";
    Assignment.mk "A007" "E007" "L5" "L8" "2023-07-10" "2023-07-20";
    Assignment.mk "A008" "E008" "L6" "L9" "2023-08-05" "2023-08-15";
    Assignment.mk "A009" "E009" "L7" "L10" "2023-09-12" "2023-09-22";
    Assignment.mk "A010" "E010" "L8" "L1" "2023-10-18" "2023-11-01" ].

Definition seed_initial_data : M unit :=
  n_lieu <- Sql.query (fun db => List.length (LIEU db)) ;;
  (if Nat.eqb n_lieu 0
   then Sql.executemany Sql.insert_lieu sample_locations
   else ret tt) ;;;
  n_emp <- Sql.query (fun db => List.length (EMPLOYE db)) ;;
  (if Nat.eqb n_emp 0
   then Sql.executemany Sql.insert_employe sample_employees
   else ret tt) ;;;
  n_aff <- Sql.query (fun db => List.length (AFFECTER db)) ;;
  (if Nat.eqb n_aff 0
   then Sql.executemany Sql.insert_affecter sample_assignments
   else ret tt) ;;;
  Sql.commit.

Definition add_assignment
    (numAffect numEmp ancien_lieu nouveau_lieu date_affect date_prise_service : string)
  : M (bool * string) :=
  try_except
    (Sql.begin_transaction ;;;
     Sql.insert_affecter
       (Assignment.mk numAffect numEmp ancien_lieu nouveau_lieu
                      date_affect date_prise_service) ;;;
     Sql.update_employe_idlieu (Some nouveau_lieu) numEmp ;;;
     Sql.commit ;;;
     ret (true, "Assignment added and employee location updated successfully!"))
    (fun e =>
       match e with
       | IntegrityError m =>
           Sql.rollback ;;; ret (false, "Error adding assignment: " ++ m)
       | _ =>
           Sql.rollback ;;; ret (false, "An error occurred: " ++ str_of_exn e)
       end).

Definition update_assignment
    (numAffect numEmp ancien_lieu nouveau_lieu date_affect date_prise_service : string)
  : M (bool * string) :=
  try_except
    (Sql.begin_transaction ;;;
     original <- Sql.query (Sql.find_assignment numAffect) ;;
     match original with
     | None => Sql.rollback ;;; ret (false, "Assignment not found!")
     | Some o =>
         let original_emp := Assignment.numEmp o in
         let original_nouveau_lieu := Assignment.NouveauLieu o in
         Sql.update_affecter
           (Assignment.mk numAffect numEmp ancien_lieu nouveau_lieu
                          date_affect date_prise_service) numAffect ;;;
         (if negb (String.eqb numEmp original_emp)
             || negb (String.eqb nouveau_lieu original_nouveau_lieu)
          then Sql.update_employe_idlieu (Some nouveau_lieu) numEmp ;;; ret tt
          else ret tt) ;;;
         Sql.commit ;;;
         ret (true, "Assignment updated successfully!")
     end)
    (fun e => Sql.rollback ;;;
              ret (false, "Error updating assignment: " ++ str_of_exn e)).

(** The location and employee methods catch what the statement raises and
    return without a rollback. *)
Definition add_location (idlieu design province : string) : M (bool * string) :=
  try_except
    (Sql.insert_lieu (Location.mk idlieu design province) ;;;
     Sql.commit ;;;
     ret (true, "Location added successfully!"))
    (fun e =>
       match e with
       | IntegrityError m => ret (false, "Error adding location: " ++ m)
       | _ => raise e
       end).

Definition update_location (idlieu design province : string) : M (bool * string) :=
  try_except
    (rowcount <- Sql.update_lieu design province idlieu ;;
     Sql.commit ;;;
     if Nat.ltb 0 rowcount
     then ret (true, "Location updated successfully!")
     else ret (false, "Location not found!"))
    (fun e => ret (false, "Error updating location: " ++ str_of_exn e)).

Definition delete_location (idlieu : string) : M (bool * string) :=
  try_except
    (n_emp <- Sql.query (Sql.count_employees_at idlieu) ;;
     if Nat.ltb 0 n_emp
     then ret (false, "Cannot delete location: Employees are assigned to this location.")
     else
     n_aff <- Sql.query (Sql.count_assignments_at idlieu) ;;
     if Nat.ltb 0 n_aff
     then ret (false, "Cannot delete location: Location is referenced in assignment history.")
     else
     rowcount <- Sql.delete_lieu idlieu ;;
     Sql.commit ;;;
     if Nat.ltb 0 rowcount
     then ret (true, "Location deleted successfully!")
     else ret (false, "Location not found!"))
    (fun e => ret (false, "Error deleting location: " ++ str_of_exn e)).

Definition add_employee (numEmp civilite nom prenom mail poste : string)
    (idlieu : option string) : M (bool * string) :=
  try_except
    (Sql.insert_employe (Employee.mk numEmp civilite nom prenom mail poste idlieu) ;;;
     Sql.commit ;;;
     ret (true, "Employee added successfully!"))
    (fun e =>
       match e with
       | IntegrityError m => ret (false, "Error adding employee: " ++ m)
       | _ => raise e
       end).

Definition update_employee (numEmp civilite nom prenom mail poste : string)
    (idlieu : option string) : M (bool * string) :=
  try_except
    (rowcount <-
       Sql.update_employe
         (Employee.mk numEmp civilite nom prenom mail poste idlieu) numEmp ;;
     Sql.commit ;;;
     if Nat.ltb 0 rowcount
     then ret (true, "Employee updated successfully!")
     else ret (false, "Employee not found!"))
    (fun e => ret (false, "Error updating employee: " ++ str_of_exn e)).

Definition delete_employee (numEmp : string) : M (bool * string) :=
  try_except
    (n_aff <- Sql.query (Sql.count_assignments_of numEmp) ;;
     if Nat.ltb 0 n_aff
     then ret (false, "Cannot delete employee: Employee has assignment history.")
     else
     rowcount <- Sql.delete_employe numEmp ;;
     Sql.commit ;;;
     if Nat.ltb 0 rowcount
     then ret (true, "Employee deleted successfully!")
     else ret (false, "Employee not found!"))
    (fun e => ret (false, "Error deleting employee: " ++ str_of_exn e)).

(** [delete_assignment] runs the ORDER BY query once to see whether a row
    is left and once more to read its destination; no statement comes
    between the two, and the result is bound once here. *)
Definition delete_assignment (numAffect : string) : M (bool * string) :=
  try_except
    (Sql.begin_transaction ;;;
     assignment <- Sql.query (Sql.find_assignment numAffect) ;;
     match assignment with
     | None => Sql.rollback ;;; ret (false, "Assignment not found!")
     | Some a =>
         let numEmp := Assignment.numEmp a in
         Sql.delete_affecter numAffect ;;;
         previous <- Sql.query (Sql.latest_assignment_except numEmp numAffect) ;;
         match previous with
         | Some p =>
             Sql.update_employe_idlieu (Some (Assignment.NouveauLieu p)) numEmp
         | None => Sql.update_employe_idlieu None numEmp
         end ;;;
         Sql.commit ;;;
         ret (true, "Assignment deleted and employee location updated!")
     end)
    (fun e => Sql.rollback ;;;
              ret (false, "Error deleting assignment: " ++ str_of_exn e)).

End Database.

(** The identifier generation shared by [AssignmentController.create] and
    [EmployeeController.assign_location]: [SELECT numAffect FROM AFFECTER]
    followed by [self._get_next_id('A', existing_ids)]. *)
Definition generate_assignment_id : M string :=
  existing_ids <- Sql.query (fun db => map Assignment.numAffect (AFFECTER db)) ;;
  ret (BaseController._get_next_id "A" existing_ids).

(** ** AssignmentController (src/src/controllers/assignment_controller.py) *)

Module AssignmentController.

Definition get_by_id (assignment_id : string) : M (option Assignment.t) :=
  Assignment_get_assignment assignment_id.

Definition required_fields : list string :=
  ["numEmp"; "AncienLieu"; "NouveauLieu"; "dateAffect"; "datePriseService"].

(** The value of [data['numAffect']] after the generation step (which the
    source also stores back into the caller's dict). *)
Definition numAffect_of (data : dict) : M string :=
  match dict_get data "numAffect" with
  | Some v => if Py.truthy v then ret v else generate_assignment_id
  | None => generate_assignment_id
  end.

(** The [Assignment] object that [create] builds from the form data: the
    identifiers are stripped, the dates are taken as they are. *)
Definition assignment_of (numAffect : string) (data : dict) : Assignment.t :=
  Assignment.mk (Py.strip numAffect)
                (Py.strip (dict_item data "numEmp"))
                (Py.strip (dict_item data "AncienLieu"))
                (Py.strip (dict_item data "NouveauLieu"))
                (dict_item data "dateAffect")
                (dict_item data "datePriseService").

Definition create (today : PyDate.date) (data : dict)
  : M (bool * string * option string) :=
  let (is_valid, error_msg) :=
    BaseController._validate_required_fields (dict_get data) required_fields in
  if negb is_valid then ret (false, error_msg, None) else
  numAffect <- numAffect_of data ;;
  let assignment := assignment_of numAffect data in
  let (is_valid, error_msg) := Assignment.validate today assignment in
  if negb is_valid then ret (false, error_msg, None) else
  employee <- Employee_get (Assignment.numEmp assignment) ;;
  match employee with
  | None =>
      ret (false, "Employee with ID '" ++ Assignment.numEmp assignment
                    ++ "' not found.", None)
  | Some employee =>
  old_location <- Location_get (Assignment.AncienLieu assignment) ;;
  match old_location with
  | None =>
      ret (false, "Location with ID '" ++ Assignment.AncienLieu assignment
                    ++ "' not found.", None)
  | Some old_location =>
  new_location <- Location_get (Assignment.NouveauLieu assignment) ;;
  match new_location with
  | None =>
      ret (false, "Location with ID '" ++ Assignment.NouveauLieu assignment
                    ++ "' not found.", None)
  | Some _ =>
  if match Employee.idlieu employee with
     | Some l => negb (String.eqb l (Assignment.AncienLieu assignment))
     | None => true
     end
  then
    let current_location :=
      match Employee.idlieu employee with
      | Some l => if Py.truthy l then "None (None)" else "unassigned"
      | None => "unassigned"
      end in
    ret (false, "Employee's current location (" ++ current_location
                  ++ ") does not match the specified old location ("
                  ++ Location.design old_location ++ ").", None)
  else
    try_except
      (Sql.begin_transaction ;;;
       Sql.insert_affecter assignment ;;;
       Sql.update_employe_idlieu (Some (Assignment.NouveauLieu assignment))
                                 (Assignment.numEmp assignment) ;;;
       Sql.commit ;;;
       ret (true, "Assignment created successfully!",
            Some (Assignment.numAffect assignment)))
      (fun e => Sql.rollback ;;;
                ret (false, "Error creating assignment: " ++ str_of_exn e, None))
  end end end.

(** The field assignments of [update]: a key present in [data] replaces the
    attribute; the identifiers are stripped, the dates are not. *)
Definition apply_update (assignment : Assignment.t) (data : dict) : Assignment.t :=
  let upd (k : string) (f : string -> string) (old : string) :=
    match dict_get data k with Some v => f v | None => old end in
  Assignment.mk (Assignment.numAffect assignment)
    (upd "numEmp" Py.strip (Assignment.numEmp assignment))
    (upd "AncienLieu" Py.strip (Assignment.AncienLieu assignment))
    (upd "NouveauLieu" Py.strip (Assignment.NouveauLieu assignment))
    (upd "dateAffect" (fun v => v) (Assignment.dateAffect assignment))
    (upd "datePriseService" (fun v => v) (Assignment.datePriseService assignment)).

(** The Python type of a date attribute of the object of [update] when it
    is a number: the attribute holds the text of the form when the form
    has the key, and otherwise what the row gave back, which is a number
    when the column stored the date as one. *)
Definition number_read_back (data : dict) (k date_text : string) : option string :=
  match dict_get data k with
  | Some _ => None
  | None => option_map Sql.python_type (Sql.numeric date_text)
  end.

(** The TypeError that [assignment.validate()] lets escape in [update]:
    [strptime] raises it on a number, and [validate] catches ValueError
    only. [strptime] is called on [dateAffect] once the checks on the
    identifiers have passed, and on [datePriseService] once [dateAffect]
    has been read as a day. *)
Definition validate_type_error (existing : Assignment.t) (data : dict)
  : option string :=
  let assignment := apply_update existing data in
  let message ty := "strptime() argument 1 must be str, not " ++ ty in
  if Assignment.identifiers_valid assignment
  then match number_read_back data "dateAffect" (Assignment.dateAffect existing) with
       | Some ty => Some (message ty)
       | None =>
           match PyDate.strptime (Assignment.dateAffect assignment) with
           | Some _ =>
               option_map message
                 (number_read_back data "datePriseService"
                                   (Assignment.datePriseService existing))
           | None => None
           end
       end
  else None.

Definition update (today : PyDate.date) (assignment_id : string) (data : dict)
  : M (bool * string) :=
  existing <- get_by_id assignment_id ;;
  match existing with
  | None => ret (false, "Assignment not found.")
  | Some existing =>
  let assignment := apply_update existing data in
  match validate_type_error existing data with
  | Some msg => raise (TypeError msg)
  | None =>
  let (is_valid, error_msg) := Assignment.validate today assignment in
  if negb is_valid then ret (false, error_msg) else
  employee <- Employee_get (Assignment.numEmp assignment) ;;
  match employee with
  | None =>
      ret (false, "Employee with ID '" ++ Assignment.numEmp assignment
                    ++ "' not found.")
  | Some _ =>
  old_location <- Location_get (Assignment.AncienLieu assignment) ;;
  match old_location with
  | None =>
      ret (false, "Location with ID '" ++ Assignment.AncienLieu assignment
                    ++ "' not found.")
  | Some _ =>
  new_location <- Location_get (Assignment.NouveauLieu assignment) ;;
  match new_location with
  | None =>
      ret (false, "Location with ID '" ++ Assignment.NouveauLieu assignment
                    ++ "' not found.")
  | Some _ =>
  latest_assignment <-
    Sql.query (Sql.latest_assignment (Assignment.numEmp assignment)) ;;
  let update_employee_location :=
    match latest_assignment with
    | Some latest =>
        String.eqb (Assignment.numAffect latest) assignment_id
        && negb (String.eqb (Assignment.NouveauLieu latest)
                            (Assignment.NouveauLieu assignment))
    | None => false
    end in
  try_except
    (Sql.begin_transaction ;;;
     rowcount <- Sql.update_affecter assignment assignment_id ;;
     if Nat.eqb rowcount 0
     then Sql.rollback ;;; ret (false, "Assignment not found.")
     else
       (if update_employee_location
        then Sql.update_employe_idlieu
               (Some (Assignment.NouveauLieu assignment))
               (Assignment.numEmp assignment) ;;; ret tt
        else ret tt) ;;;
       Sql.commit ;;;
       ret (true, "Assignment updated successfully!"))
    (fun e => Sql.rollback ;;;
              ret (false, "Error updating assignment: " ++ str_of_exn e))
  end end end end end.

Definition delete (assignment_id : string) : M (bool * string) :=
  existing <- get_by_id assignment_id ;;
  match existing with
  | None => ret (false, "Assignment not found.")
  | Some assignment =>
  latest_assignment <-
    Sql.query (Sql.latest_assignment (Assignment.numEmp assignment)) ;;
  let update_employee_location :=
    match latest_assignment with
    | Some latest => String.eqb (Assignment.numAffect latest) assignment_id
    | None => false
    end in
  try_except
    (Sql.begin_transaction ;;;
     rowcount <- Sql.delete_affecter assignment_id ;;
     if Nat.eqb rowcount 0
     then Sql.rollback ;;; ret (false, "Assignment not found.")
     else
       (if update_employee_location
        then
          result <- Sql.query (Sql.latest_assignment (Assignment.numEmp assignment)) ;;
          let new_location := option_map Assignment.NouveauLieu result in
          Sql.update_employe_idlieu new_location (Assignment.numEmp assignment) ;;;
          ret tt
        else ret tt) ;;;
       Sql.commit ;;;
       ret (true, "Assignment deleted successfully!"))
    (fun e => Sql.rollback ;;;
              ret (false, "Error deleting assignment: " ++ str_of_exn e))
  end.

End AssignmentController.

(** ** EmployeeController (src/src/controllers/employee_controller.py) *)

Module EmployeeController.

(** [SELECT e.*, l.design, l.province FROM EMPLOYE e LEFT JOIN LIEU l ...
    WHERE e.numEmp = ?]: the employee row whether or not its location
    exists. *)
Definition get_by_id (employee_id : string) : M (option Employee.t) :=
  Sql.query (Sql.find_employee employee_id).

Definition assign_location
    (employee_id new_location_id assignment_date service_start_date : string)
    (assignment_id : option string) : M (bool * string) :=
  employee <- get_by_id employee_id ;;
  match employee with
  | None => ret (false, "Employee not found.")
  | Some employee =>
  new_location <- Location_get new_location_id ;;
  match new_location with
  | None => ret (false, "Location with ID '" ++ new_location_id ++ "' not found.")
  | Some new_location =>
  if match Employee.idlieu employee with
     | Some l => String.eqb l new_location_id
     | None => false
     end
  then ret (false, "Employee is already assigned to "
                     ++ Location.design new_location ++ ".")
  else
    let old_location_id :=
      match Employee.idlieu employee with
      | Some l => if Py.truthy l then l else "UNKNOWN"
      | None => "UNKNOWN"
      end in
    assignment_id <-
      match assignment_id with
      | Some v => if Py.truthy v then ret v else generate_assignment_id
      | None => generate_assignment_id
      end ;;
    try_except
      (Sql.begin_transaction ;;;
       Sql.insert_affecter
         (Assignment.mk assignment_id employee_id old_location_id
                        new_location_id assignment_date service_start_date) ;;;
       Sql.update_employe_idlieu (Some new_location_id) employee_id ;;;
       Sql.commit ;;;
       ret (true, "Employee assigned to " ++ Location.design new_location
                    ++ " successfully!"))
      (fun e => Sql.rollback ;;;
                ret (false, "Error assigning location: " ++ str_of_exn e))
  end end.

(** [SELECT numEmp FROM EMPLOYE] followed by
    [self._get_next_id('E', existing_ids)]. *)
Definition generate_employee_id : M string :=
  existing_ids <- Sql.query (fun db => map Employee.numEmp (EMPLOYE db)) ;;
  ret (BaseController._get_next_id "E" existing_ids).

Definition required_fields : list string :=
  ["civilite"; "nom"; "prenom"; "mail"; "poste"].

(** The value of [data['numEmp']] after the generation step. *)
Definition numEmp_of (data : dict) : M string :=
  match dict_get data "numEmp" with
  | Some v => if Py.truthy v then ret v else generate_employee_id
  | None => generate_employee_id
  end.

(** The [Employee] object that [create] builds from the form data: the
    texts are stripped, the address is put in lower case as well, the
    location is taken as it is. *)
Definition employee_of (numEmp : string) (data : dict) : Employee.t :=
  Employee.mk (Py.strip numEmp)
              (Py.strip (dict_item data "civilite"))
              (Py.strip (dict_item data "nom"))
              (Py.strip (dict_item data "prenom"))
              (Py.lower (Py.strip (dict_item data "mail")))
              (Py.strip (dict_item data "poste"))
              (dict_get data "idlieu").

(** [if employee.idlieu: location = Location.get(...)]: the identifier of
    the location that is named and not found. *)
Definition missing_location (employee : Employee.t) : M (option string) :=
  match Employee.idlieu employee with
  | Some l =>
      if Py.truthy l
      then location <- Location_get l ;;
           ret (match location with Some _ => None | None => Some l end)
      else ret None
  | None => ret None
  end.

Definition create (data : dict) : M (bool * string * option string) :=
  let (is_valid, error_msg) :=
    BaseController._validate_required_fields (dict_get data) required_fields in
  if negb is_valid then ret (false, error_msg, None) else
  numEmp <- numEmp_of data ;;
  let employee := employee_of numEmp data in
  let (is_valid, error_msg) := Employee.validate employee in
  if negb is_valid then ret (false, error_msg, None) else
  missing <- missing_location employee ;;
  match missing with
  | Some l => ret (false, "Location with ID '" ++ l ++ "' not found.", None)
  | None =>
  n_mail <- Sql.query (Sql.count_mail (Employee.mail employee)) ;;
  if Nat.ltb 0 n_mail
  then ret (false, "An employee with email '" ++ Employee.mail employee
                     ++ "' already exists.", None)
  else
    try_except
      (Sql.insert_employe employee ;;;
       Sql.commit ;;;
       ret (true, "Employee created successfully!", Some (Employee.numEmp employee)))
      (fun e => Sql.rollback ;;;
                ret (false, "Error creating employee: " ++ str_of_exn e, None))
  end.

(** The field assignments of [update]: a key present in [data] replaces the
    attribute; an empty location stands for no location. *)
Definition apply_update (employee : Employee.t) (data : dict) : Employee.t :=
  let upd (k : string) (f : string -> string) (old : string) :=
    match dict_get data k with Some v => f v | None => old end in
  Employee.mk (Employee.numEmp employee)
    (upd "civilite" Py.strip (Employee.civilite employee))
    (upd "nom" Py.strip (Employee.nom employee))
    (upd "prenom" Py.strip (Employee.prenom employee))
    (upd "mail" (fun v => Py.lower (Py.strip v)) (Employee.mail employee))
    (upd "poste" Py.strip (Employee.poste employee))
    (match dict_get data "idlieu" with
     | Some v => if Py.truthy v then Some v else None
     | None => Employee.idlieu employee
     end).

Definition update (employee_id : string) (data : dict) : M (bool * string) :=
  existing <- get_by_id employee_id ;;
  match existing with
  | None => ret (false, "Employee not found.")
  | Some existing =>
  let employee := apply_update existing data in
  let (is_valid, error_msg) := Employee.validate employee in
  if negb is_valid then ret (false, error_msg) else
  missing <- missing_location employee ;;
  match missing with
  | Some l => ret (false, "Location with ID '" ++ l ++ "' not found.")
  | None =>
  n_mail <- Sql.query (Sql.count_mail_except (Employee.mail employee) employee_id) ;;
  if Nat.ltb 0 n_mail
  then ret (false, "Another employee with email '" ++ Employee.mail employee
                     ++ "' already exists.")
  else
    try_except
      (rowcount <- Sql.update_employe employee employee_id ;;
       if Nat.eqb rowcount 0
       then ret (false, "Employee not found.")
       else Sql.commit ;;; ret (true, "Employee updated successfully!"))
      (fun e => Sql.rollback ;;;
                ret (false, "Error updating employee: " ++ str_of_exn e))
  end end.

Definition delete (employee_id : string) : M (bool * string) :=
  employee <- get_by_id employee_id ;;
  match employee with
  | None => ret (false, "Employee not found.")
  | Some _ =>
  n_aff <- Sql.query (Sql.count_assignments_of employee_id) ;;
  if Nat.ltb 0 n_aff
  then ret (false, "Cannot delete employee: Employee has assignment history.")
  else
    try_except
      (rowcount <- Sql.delete_employe employee_id ;;
       if Nat.eqb rowcount 0
       then ret (false, "Employee not found.")
       else Sql.commit ;;; ret (true, "Employee deleted successfully!"))
      (fun e => Sql.rollback ;;;
                ret (false, "Error deleting employee: " ++ str_of_exn e))
  end.

End EmployeeController.

(** ** LocationController (src/src/controllers/location_controller.py) *)

Module LocationController.

Definition get_by_id (location_id : string) : M (option Location.t) :=
  Location_get location_id.

Definition delete (location_id : string) : M (bool * string) :=
  location <- get_by_id location_id ;;
  match location with
  | None => ret (false, "Location not found.")
  | Some _ =>
  n_emp <- Sql.query (Sql.count_employees_at location_id) ;;
  if Nat.ltb 0 n_emp
  then ret (false, "Cannot delete location: Employees are assigned to this location.")
  else
  n_aff <- Sql.query (Sql.count_assignments_at location_id) ;;
  if Nat.ltb 0 n_aff
  then ret (false, "Cannot delete location: Location is referenced in assignment history.")
  else
    try_except
      (rowcount <- Sql.delete_lieu location_id ;;
       if Nat.eqb rowcount 0
       then ret (false, "Location not found.")
       else Sql.commit ;;; ret (true, "Location deleted successfully!"))
      (fun e => Sql.rollback ;;;
                ret (false, "Error deleting location: " ++ str_of_exn e))
  end.

Definition required_fields : list string := ["idlieu"; "design"; "province"].

(** The [Location] object that [create] builds from the form data. *)
Definition location_of (data : dict) : Location.t :=
  Location.mk (Py.strip (dict_item data "idlieu"))
              (Py.strip (dict_item data "design"))
              (Py.strip (dict_item data "province")).

Definition create (data : dict) : M (bool * string) :=
  let (is_valid, error_msg) :=
    BaseController._validate_required_fields (dict_get data) required_fields in
  if negb is_valid then ret (false, error_msg) else
  let location := location_of data in
  let (is_valid, error_msg) := Location.validate location in
  if negb is_valid then ret (false, error_msg) else
  existing <- get_by_id (Location.idlieu location) ;;
  match existing with
  | Some _ =>
      ret (false, "Location with ID '" ++ Location.idlieu location
                    ++ "' already exists.")
  | None =>
    try_except
      (Sql.insert_lieu location ;;;
       Sql.commit ;;;
       ret (true, "Location created successfully!"))
      (fun e => Sql.rollback ;;;
                ret (false, "Error creating location: " ++ str_of_exn e))
  end.

(** The field assignments of [update]. *)
Definition apply_update (location : Location.t) (data : dict) : Location.t :=
  let upd (k : string) (old : string) :=
    match dict_get data k with Some v => Py.strip v | None => old end in
  Location.mk (Location.idlieu location)
              (upd "design" (Location.design location))
              (upd "province" (Location.province location)).

Definition update (location_id : string) (data : dict) : M (bool * string) :=
  existing <- get_by_id location_id ;;
  match existing with
  | None => ret (false, "Location not found.")
  | Some existing =>
  let location := apply_update existing data in
  let (is_valid, error_msg) := Location.validate location in
  if negb is_valid then ret (false, error_msg) else
    try_except
      (rowcount <- Sql.update_lieu (Location.design location)
                                   (Location.province location) location_id ;;
       if Nat.eqb rowcount 0
       then ret (false, "Location not found.")
       else Sql.commit ;;; ret (true, "Location updated successfully!"))
      (fun e => Sql.rollback ;;;
                ret (false, "Error updating location: " ++ str_of_exn e))
  end.

End LocationController.

(** ** A run of assignment-controller operations *)

Inductive op : Type :=
| OpCreate (today : PyDate.date) (data : dict)
| OpUpdate (today : PyDate.date) (assignment_id : string) (data : dict)
| OpDelete (assignment_id : string).

(** The connection after one operation, whatever it returned or raised:
    the caller of a run goes on after an exception. *)
Definition step (o : op) (c : Conn) : Conn :=
  match o with
  | OpCreate today data => snd (AssignmentController.create today data c)
  | OpUpdate today id data => snd (AssignmentController.update today id data c)
  | OpDelete id => snd (AssignmentController.delete id c)
  end.

Definition run (ops : list op) (c : Conn) : Conn := fold_left (fun c o => step o c) ops c.

(** ** A run of operations of the three controllers *)

Inductive request : Type :=
| LocationCreate (data : dict)
| LocationUpdate (location_id : string) (data : dict)
| LocationDelete (location_id : string)
| EmployeeCreate (data : dict)
| EmployeeUpdate (employee_id : string) (data : dict)
| EmployeeDelete (employee_id : string)
| AssignmentRequest (o : op).

(** The connection after one request, whatever it returned or raised. *)
Definition serve (r : request) (c : Conn) : Conn :=
  match r with
  | LocationCreate data => snd (LocationController.create data c)
  | LocationUpdate id data => snd (LocationController.update id data c)
  | LocationDelete id => snd (LocationController.delete id c)
  | EmployeeCreate data => snd (EmployeeController.create data c)
  | EmployeeUpdate id data => snd (EmployeeController.update id data c)
  | EmployeeDelete id => snd (EmployeeController.delete id c)
  | AssignmentRequest o => step o c
  end.

Definition serve_all (rs : list request) (c : Conn) : Conn :=
  fold_left (fun c r => serve r c) rs c.

(** ** Helpers (src/src/utils/helpers.py) *)

Module Helpers.

(** [s.split(sep)[-1]]: what follows the last [sep], the whole text when
    there is none. *)
Fixpoint last_segment (sep : ascii) (s : string) : string :=
  match s with
  | String c s' =>
      if Py.contains_char sep s' then last_segment sep s'
      else if Ascii.eqb c sep then s' else s
  | EmptyString => EmptyString
  end.

Definition validate_email (email : string) : bool :=
  Py.truthy email
  && (Py.contains_char "@" email
      && Py.contains_char "." (last_segment "@" email)).

(** [get_next_id]: the loop of [BaseController._get_next_id] without the
    test that the identifier is non-empty. *)
Definition get_next_id (prefix : string) (existing_ids : list string) : string :=
  match existing_ids with
  | [] => prefix ++ "001"
  | _ =>
      match flat_map (fun id_str =>
              if Py.startswith id_str prefix
              then match Py.int (Py.drop (String.length prefix) id_str) with
                   | Some num => [num]
                   | None => []
                   end
              else []) existing_ids with
      | [] => prefix ++ "001"
      | n :: ns => prefix ++ Py.format_03d (Py.max_list n ns + 1)
      end
  end.

(** [truncate_string(text, max_length, ellipsis)] *)
Definition truncate_string (text : string) (max_length : Z) (ellipsis : string)
  : string :=
  if negb (Py.truthy text) || (Z.of_nat (String.length text) <=? max_length)
  then text
  else Py.slice_to (max_length - Z.of_nat (String.length ellipsis)) text ++ ellipsis.

End Helpers.

(** ** Vocabulary of the statements *)

(** The number an identifier carries after [prefix]: what [int] reads from
    the text that follows the prefix. *)
Definition numeric_suffix (prefix id_str : string) : option Z :=
  if Py.startswith id_str prefix
  then Py.int (Py.drop (String.length prefix) id_str)
  else None.

(** [m] is the greatest number carried after [prefix] in [ids]. *)
Definition max_suffix (prefix : string) (ids : list string) (m : Z) : Prop :=
  (exists id_str, In id_str ids /\ numeric_suffix prefix id_str = Some m)
  /\ forall id_str n,
       In id_str ids -> numeric_suffix prefix id_str = Some n -> n <= m.

(** The two refusals of [LocationController.delete] for a location that is
    still referenced. *)
Definition referential_integrity_error (msg : string) : Prop :=
  msg = "Cannot delete location: Employees are assigned to this location."
  \/ msg = "Cannot delete location: Location is referenced in assignment history.".

(** What seeding leaves in a table: the sample rows if it was empty, the
    table itself otherwise. *)
Definition seeded {A} (samples table : list A) : list A :=
  match table with [] => samples | _ => table end.

(** The store after an assignment row is inserted and its destination is
    written to its employee. *)
Definition inserted (a : Assignment.t) (db : DB) : DB :=
  mkDB (LIEU db)
       (Sql.employe_set_idlieu (Some (Assignment.NouveauLieu a))
                               (Assignment.numEmp a) (EMPLOYE db))
       (AFFECTER db ++ [a]).

(** [numAffect] is the primary key of a row of AFFECTER. *)
Definition id_in_use (numAffect : string) (db : DB) : bool :=
  existsb (fun a' => String.eqb (Assignment.numAffect a') numAffect) (AFFECTER db).

(** The row [numAffect] comes first in the employee's history as the
    ORDER BY query returns it. *)
Definition is_latest (numAffect numEmp : string) (db : DB) : bool :=
  match Sql.latest_assignment numEmp db with
  | Some latest => String.eqb (Assignment.numAffect latest) numAffect
  | None => false
  end.

(** The condition under which [update] writes the employee's location. *)
Definition update_propagates (numAffect : string) (a : Assignment.t) (db : DB)
  : bool :=
  match Sql.latest_assignment (Assignment.numEmp a) db with
  | Some latest =>
      String.eqb (Assignment.numAffect latest) numAffect
      && negb (String.eqb (Assignment.NouveauLieu latest) (Assignment.NouveauLieu a))
  | None => false
  end.

(** The store after a successful [update] of row [numAffect] to [a]. *)
Definition updated (numAffect : string) (a : Assignment.t) (db : DB) : DB :=
  mkDB (LIEU db)
       (if update_propagates numAffect a db
        then Sql.employe_set_idlieu (Some (Assignment.NouveauLieu a))
                                    (Assignment.numEmp a) (EMPLOYE db)
        else EMPLOYE db)
       (Sql.affecter_update a numAffect (AFFECTER db)).

(** The store after a successful [delete] of row [numAffect], which
    belonged to [numEmp]. *)
Definition deleted (numAffect numEmp : string) (db : DB) : DB :=
  let rest := mkDB (LIEU db) (EMPLOYE db)
                   (Sql.affecter_delete numAffect (AFFECTER db)) in
  if is_latest numAffect numEmp db
  then mkDB (LIEU db)
            (Sql.employe_set_idlieu
               (option_map Assignment.NouveauLieu (Sql.latest_assignment numEmp rest))
               numEmp (EMPLOYE db))
            (AFFECTER rest)
  else rest.

(** Nothing is pending on the connection: it sees what the file holds
    and no transaction is open. *)
Definition settled (c : Conn) : Prop :=
  current c = committed c /\ in_transaction c = false.

(** [msg] is a refusal of the validation of [create]: the message of the
    required-fields check or of [Assignment.validate]. *)
Definition validation_error (today : PyDate.date) (data : dict) (msg : string)
  : Prop :=
  BaseController._validate_required_fields
    (dict_get data) AssignmentController.required_fields = (false, msg)
  \/ exists numAffect,
       Assignment.validate today (AssignmentController.assignment_of numAffect data)
       = (false, msg).

(** The identifier under which [assign_location] inserts its row. *)
Definition assigned_id (assignment_id : option string) (db : DB) : string :=
  match assignment_id with
  | Some v =>
      if Py.truthy v then v
      else BaseController._get_next_id "A" (map Assignment.numAffect (AFFECTER db))
  | None => BaseController._get_next_id "A" (map Assignment.numAffect (AFFECTER db))
  end.

(** The primary key of AFFECTER holds. *)
Definition keyed (db : DB) : Prop :=
  NoDup (map Assignment.numAffect (AFFECTER db)).

(** The employee's current location is the destination of the first row of
    the employee's history in the descending order, and null when the
    employee has no row. *)
Definition in_sync (db : DB) (e : Employee.t) : Prop :=
  Employee.idlieu e
  = option_map Assignment.NouveauLieu
               (Sql.latest_assignment (Employee.numEmp e) db).

(** Every employee who is [tracked] or has a row is in sync. *)
Definition synced (tracked : string -> Prop) (db : DB) : Prop :=
  forall e, In e (EMPLOYE db) ->
    tracked (Employee.numEmp e)
    \/ Sql.latest_assignment (Employee.numEmp e) db <> None ->
    in_sync db e.

(** In the order of the stored values, the key [k] is above the key of
    every row of [numEmp]. *)
Definition later_than_history (numEmp : string) (k : Sql.value * Sql.value)
    (db : DB) : Prop :=
  forall r, In r (AFFECTER db) -> Assignment.numEmp r = numEmp ->
            Sql.key_lt (Sql.key r) k = true.

(** Every character of [s] satisfies [P]. *)
Fixpoint all_chars (P : ascii -> bool) (s : string) : bool :=
  match s with
  | String c s' => P c && all_chars P s'
  | EmptyString => true
  end.

(** [w] is the first row of [rows] with the greatest key. *)
Definition first_max (rows : list Assignment.t) (w : Assignment.t) : Prop :=
  exists l1 l2,
    rows = (l1 ++ w :: l2)%list
    /\ (forall r, In r l1 -> Sql.key_lt (Sql.key r) (Sql.key w) = true)
    /\ (forall r, In r l2 -> Sql.key_lt (Sql.key w) (Sql.key r) = false).

(** The text has ten characters and no blank: of the texts that [strptime]
    accepts, those written YYYY-MM-DD with two digits for the month and two
    for the day. *)
Definition padded (s : string) : bool :=
  (String.length s =? 10)%nat && negb (Py.contains_char " " s).

(** The location that the employee row names, when it names one by a
    non-empty identifier, is a row of LIEU. *)
Definition location_known (e : Employee.t) (db : DB) : Prop :=
  forall l, Employee.idlieu e = Some l -> Py.truthy l = true ->
            Sql.find_location l db <> None.


(** The primary keys of the three tables and the UNIQUE constraint on
    [mail] hold. *)
Definition tables_keyed (db : DB) : Prop :=
  NoDup (map Location.idlieu (LIEU db))
  /\ NoDup (map Employee.numEmp (EMPLOYE db))
  /\ NoDup (map Employee.mail (EMPLOYE db))
  /\ keyed db.

(** The part of [Assignment.validate] that does not depend on the day of
    the call: origin and destination differ, both dates parse, and the
    service date is not before the assignment date. *)
Definition well_formed (a : Assignment.t) : Prop :=
  Assignment.AncienLieu a <> Assignment.NouveauLieu a
  /\ exists d s,
       PyDate.strptime (Assignment.dateAffect a) = Some d
       /\ PyDate.strptime (Assignment.datePriseService a) = Some s
       /\ PyDate.ltb s d = false.

(** *** The history in the order of the calendar *)

(** The two days of a row: its two dates as [strptime] reads them. *)
Definition days (a : Assignment.t) : option (PyDate.date * PyDate.date) :=
  match PyDate.strptime (Assignment.dateAffect a),
        PyDate.strptime (Assignment.datePriseService a) with
  | Some d, Some s => Some (d, s)
  | _, _ => None
  end.

(** Both dates of the row are days of the calendar written YYYY-MM-DD,
    with two digits for the month and two for the day. *)
Definition dated (a : Assignment.t) : Prop :=
  padded (Assignment.dateAffect a) = true
  /\ padded (Assignment.datePriseService a) = true
  /\ days a <> None.

Definition same_day (a b : PyDate.date) : bool :=
  (PyDate.year a =? PyDate.year b) && (PyDate.month a =? PyDate.month b)
  && (PyDate.day a =? PyDate.day b).

(** [a] is dated before [b]: its assignment day is the earlier one, or the
    assignment days are the same and its service day is the earlier one. *)
Definition earlier (a b : Assignment.t) : bool :=
  match days a, days b with
  | Some (d, s), Some (d', s') =>
      PyDate.ltb d d' || (same_day d d' && PyDate.ltb s s')
  | _, _ => false
  end.

(** [w] is the latest row of [numEmp] in [rows]: it is a row of that
    employee, every row of the employee that the table holds before it is
    dated earlier, and no row of the employee that the table holds after it
    is dated later. *)
Definition latest_row (numEmp : string) (rows : list Assignment.t)
    (w : Assignment.t) : Prop :=
  exists l1 l2,
    filter (fun a => String.eqb (Assignment.numEmp a) numEmp) rows
    = (l1 ++ w :: l2)%list
    /\ (forall r, In r l1 -> earlier r w = true)
    /\ (forall r, In r l2 -> earlier w r = false).

(** The employee has a row in AFFECTER. *)
Definition has_history (numEmp : string) (db : DB) : Prop :=
  exists r, In r (AFFECTER db) /\ Assignment.numEmp r = numEmp.

(** The employee's current location is the destination of the latest row
    of the employee's history, and null when the employee has no row. *)
Definition follows_history (db : DB) (e : Employee.t) : Prop :=
  (exists w, latest_row (Employee.numEmp e) (AFFECTER db) w
             /\ Employee.idlieu e = Some (Assignment.NouveauLieu w))
  \/ (~ has_history (Employee.numEmp e) db /\ Employee.idlieu e = None).

(** Every row of AFFECTER is [dated]. *)
Definition all_dated (db : DB) : Prop :=
  forall r, In r (AFFECTER db) -> dated r.

(** The form [data] of a create writes its two dates with ten characters,
    and every row that its employee has is dated before them. *)
Definition dated_after_history (data : dict) (db : DB) : Prop :=
  let a := AssignmentController.assignment_of (dict_item data "numAffect") data in
  padded (Assignment.dateAffect a) = true
  /\ padded (Assignment.datePriseService a) = true
  /\ forall r, In r (AFFECTER db) ->
       Assignment.numEmp r = Assignment.numEmp a -> earlier r a = true.

(** The row [numAffect] is the latest row of [numEmp] in [rows]. *)
Definition heads (numAffect numEmp : string) (rows : list Assignment.t) : Prop :=
  exists w, latest_row numEmp rows w /\ Assignment.numAffect w = numAffect.

(** The edit [data] of row [numAffect] leaves the two dates of the row
    written with ten characters, keeps the employee of the row, and the row
    is the latest of that employee after the edit exactly when it was
    before. *)
Definition keeps_place (numAffect : string) (data : dict) (db : DB) : Prop :=
  forall r, In r (AFFECTER db) -> Assignment.numAffect r = numAffect ->
    let a := AssignmentController.apply_update r data in
    padded (Assignment.dateAffect a) = true
    /\ padded (Assignment.datePriseService a) = true
    /\ Assignment.numEmp a = Assignment.numEmp r
    /\ (heads numAffect (Assignment.numEmp r)
              (Sql.affecter_update a numAffect (AFFECTER db))
        <-> heads numAffect (Assignment.numEmp r) (AFFECTER db)).

(** The operations under which the location follows the history: a create
    dated after the whole history of its employee, an update that keeps the
    employee of its row and the place of the row in that employee's
    history, any delete. *)
Definition chronological (o : op) (db : DB) : Prop :=
  match o with
  | OpCreate _ data => dated_after_history data db
  | OpUpdate _ assignment_id data => keeps_place assignment_id data db
  | OpDelete _ => True
  end.

Fixpoint chronological_run (ops : list op) (db : DB) : Prop :=
  match ops with
  | [] => True
  | o :: ops' =>
      chronological o db /\ chronological_run ops' (committed (step o (connect db)))
  end.

(** ** Stores and forms of the examples *)

(** Identifiers with and without a number after the prefix "A". *)
Definition mixed_ids : list string := ["A001"; "B7"; "A012"; "Ax"].

Definition origin_check_db : DB :=
  mkDB [Location.mk "L1" "HQ" "North"; Location.mk "L2" "Branch" "South";
        Location.mk "L3" "Annex" "East"]
       [Employee.mk "E1" "Mr" "Rabe" "Paul" "paul@example.com" "Analyst" (Some "L1")]
       [].

Definition origin_check_data : dict :=
  [("numAffect", "A1"); ("numEmp", "E1"); ("AncienLieu", "L2");
   ("NouveauLieu", "L3"); ("dateAffect", "2024-01-10");
   ("datePriseService", "2024-01-15")].

Definition same_location_db : DB :=
  mkDB [Location.mk "L1" "HQ" "North"; Location.mk "L2" "Branch" "South"]
       [Employee.mk "E1" "Mr" "Rabe" "Paul" "paul@example.com" "Analyst" (Some "L1")]
       [].

Definition same_location_data : dict :=
  [("numAffect", "A1"); ("numEmp", "E1"); ("AncienLieu", "L1");
   ("NouveauLieu", " L1 "); ("dateAffect", "2024-01-10");
   ("datePriseService", "2024-01-15")].

Definition unassigned_db : DB :=
  mkDB [Location.mk "L1" "HQ" "North"; Location.mk "L2" "Branch" "South"]
       [Employee.mk "E1" "Mr" "Rabe" "Paul" "paul@example.com" "Analyst" None;
        Employee.mk "E2" "Mme" "Rasoa" "Marie" "marie@example.com" "Manager" (Some "L2")]
       [Assignment.mk "A001" "E2" "L1" "L2" "2024-01-10" "2024-01-15"].

Definition past_dated_db : DB :=
  mkDB [Location.mk "L1" "HQ" "North"; Location.mk "L2" "Branch" "South"]
       [Employee.mk "E1" "Mr" "Rabe" "Paul" "paul@example.com" "Analyst" (Some "L2")]
       [Assignment.mk "A1" "E1" "L1" "L2" "2024-01-10" "2024-01-15"].

Definition past_dated_data : dict :=
  [("numAffect", "A2"); ("numEmp", "E1"); ("AncienLieu", "L2");
   ("NouveauLieu", "L1"); ("dateAffect", "2023-02-01");
   ("datePriseService", "2023-02-05")].

(** A history whose dates read as numbers, as the unvalidated paths of
    [Database] and [EmployeeController.assign_location] can write them. *)
Definition numeric_dates_db : DB :=
  mkDB [Location.mk "L1" "HQ" "North"; Location.mk "L2" "Branch" "South";
        Location.mk "L3" "Annex" "East"]
       [Employee.mk "E1" "Mr" "Rabe" "Paul" "paul@example.com" "Analyst" (Some "L1")]
       [Assignment.mk "A1" "E1" "L1" "L2" "9" "9";
        Assignment.mk "A2" "E1" "L2" "L3" "10" "10";
        Assignment.mk "A3" "E1" "L3" "L1" "11" "11"].

(** A history with a month written with one digit. *)
Definition unpadded_db : DB :=
  mkDB [Location.mk "L1" "HQ" "North"; Location.mk "L2" "Branch" "South";
        Location.mk "L3" "Annex" "East"]
       [Employee.mk "E1" "Mr" "Rabe" "Paul" "paul@example.com" "Analyst" (Some "L2")]
       [Assignment.mk "A1" "E1" "L1" "L2" "2024-9-01" "2024-9-05"].

Definition unpadded_data : dict :=
  [("numAffect", "A2"); ("numEmp", "E1"); ("AncienLieu", "L2");
   ("NouveauLieu", "L3"); ("dateAffect", "2024-10-01");
   ("datePriseService", "2024-10-05")].

Definition run_db : DB :=
  mkDB [Location.mk "L1" "HQ" "North"; Location.mk "L2" "Branch" "South";
        Location.mk "L3" "Annex" "East"]
       [Employee.mk "E1" "Mr" "Rabe" "Paul" "paul@example.com" "Analyst" (Some "L2")]
       [Assignment.mk "A1" "E1" "L1" "L2" "2024-01-10" "2024-01-15"].

Definition run_ops : list op :=
  let today := PyDate.mk 2024 6 1 in
  [ OpCreate today
      [("numAffect", "A2"); ("numEmp", "E1"); ("AncienLieu", "L2");
       ("NouveauLieu", "L1"); ("dateAffect", "2024-02-01");
       ("datePriseService", "2024-02-05")];
    OpUpdate today "A2" [("NouveauLieu", "L3")];
    OpDelete "A2";
    OpDelete "A1" ].

Definition move_db : DB :=
  mkDB [Location.mk "L1" "HQ" "North"; Location.mk "L2" "Branch" "South";
        Location.mk "L3" "Annex" "East"]
       [Employee.mk "E1" "Mr" "Rabe" "Paul" "paul@example.com" "Analyst" (Some "L2");
        Employee.mk "E2" "Mme" "Rasoa" "Marie" "marie@example.com" "Manager" (Some "L1")]
       [Assignment.mk "A0" "E1" "L3" "L1" "2023-05-01" "2023-05-10";
        Assignment.mk "A1" "E1" "L1" "L2" "2024-01-10" "2024-01-15"].

(** Requests to the three controllers: some are served, some refused. *)
Definition mixed_requests : list request :=
  let today := PyDate.mk 2024 6 1 in
  [ LocationCreate [("idlieu", "L4"); ("design", "Depot"); ("province", "West")];
    EmployeeCreate [("civilite", "Mme"); ("nom", "Rasoa"); ("prenom", "Marie");
                    ("mail", "Marie@Example.com"); ("poste", "Manager");
                    ("idlieu", "L4")];
    AssignmentRequest
      (OpCreate today
         [("numEmp", "E1"); ("AncienLieu", "L1"); ("NouveauLieu", "L2");
          ("dateAffect", "2024-01-10"); ("datePriseService", "2024-01-15")]);
    EmployeeUpdate "E002" [("mail", "paul@example.com")];
    LocationDelete "L2";
    LocationDelete "L3";
    EmployeeDelete "E002";
    LocationUpdate "L4" [("design", " Depot Nord ")];
    AssignmentRequest (OpDelete "A001") ].

(** * Properties *)

(** ** The operations on small inputs *)

Example next_id_seed :
  BaseController._get_next_id "A" (map Assignment.numAffect Database.sample_assignments)
  = "A011".
Proof. reflexivity. Qed.

Example next_id_mixed :
  BaseController._get_next_id "A" ["B007"; "Axyz"; "A 41 "; "A1_0"] = "A042".
Proof. reflexivity. Qed.

Example next_id_wide : BaseController._get_next_id "E" ["E999"] = "E1000".
Proof. reflexivity. Qed.

Example int_texts :
  map Py.int [" 12 "; "-5"; "+7"; "1_0"; "1__0"; "_1"; ""; "12a"; "007"]
  = [Some 12; Some (-5); Some 7; Some 10; None; None; None; None; Some 7].
Proof. reflexivity. Qed.

Example strptime_texts :
  map PyDate.strptime
      ["2024-01-05"; "2024-1-5"; "2024-02-29"; "2023-02-29"; "2024-13-01";
       "0000-01-01"; "2024-01-05 "; "24-01-05"]
  = [Some (PyDate.mk 2024 1 5); Some (PyDate.mk 2024 1 5);
     Some (PyDate.mk 2024 2 29); None; None; None; None; None].
Proof. reflexivity. Qed.

(** The scenario of the specification: E1 starts at L1; A1 moves E1 to
    L2, A2 moves E1 back to L1, and deleting A2 brings E1 to L2 again. *)
Example scenario_create_create_delete :
  let today := PyDate.mk 2024 6 1 in
  let a1 := [("numAffect", "A1"); ("numEmp", "E1"); ("AncienLieu", "L1");
             ("NouveauLieu", "L2"); ("dateAffect", "2024-01-10");
             ("datePriseService", "2024-01-15")] in
  let a2 := [("numAffect", "A2"); ("numEmp", "E1"); ("AncienLieu", "L2");
             ("NouveauLieu", "L1"); ("dateAffect", "2024-02-01");
             ("datePriseService", "2024-02-05")] in
  let ops := [OpCreate today a1; OpCreate today a2; OpDelete "A2"] in
  map (fun n => map Employee.idlieu
                    (EMPLOYE (committed (run (firstn n ops) (connect same_location_db)))))
      [0; 1; 2; 3]%nat
  = [[Some "L1"]; [Some "L2"]; [Some "L1"]; [Some "L2"]].
Proof. reflexivity. Qed.

(** The seeded store itself: every sample employee sits at the origin of
    the sample assignment, not at its destination. *)
Example seeded_store_not_in_sync :
  let db := mkDB Database.sample_locations Database.sample_employees
                 Database.sample_assignments in
  Database.seed_initial_data (connect (mkDB [] [] [])) = (Ok tt, connect db)
  /\ forallb (fun e =>
        match Sql.latest_assignment (Employee.numEmp e) db, Employee.idlieu e with
        | Some a, Some l => String.eqb l (Assignment.AncienLieu a)
        | _, _ => false
        end) (EMPLOYE db) = true.
Proof. split; reflexivity. Qed.

(** ** Strings and numbers *)

Section StringFacts.

Lemma all_chars_app P s t :
  all_chars P (s ++ t) = all_chars P s && all_chars P t.
Proof.
  induction s as [|c s IH]; simpl; [reflexivity|].
  now rewrite IH, andb_assoc.
Qed.

Lemma lstrip_by_none sp s :
  all_chars (fun c => negb (sp c)) s = true -> Py.lstrip_by sp s = s.
Proof.
  destruct s as [|c s]; simpl; [reflexivity|].
  intros H. apply andb_prop in H as [Hc _].
  now destruct (sp c).
Qed.

Lemma rstrip_by_none sp s :
  all_chars (fun c => negb (sp c)) s = true -> Py.rstrip_by sp s = s.
Proof.
  induction s as [|c s IH]; simpl; [reflexivity|].
  intros H. apply andb_prop in H as [Hc Hs].
  rewrite (IH Hs). destruct s; [|reflexivity].
  now destruct (sp c).
Qed.

Lemma digit_char_spec d :
  0 <= d < 10 ->
  Py.is_digit (Py.digit_char d) = true
  /\ Py.digit_val (Py.digit_char d) = d.
Proof.
  intros H.
  assert (E : d = 0 \/ d = 1 \/ d = 2 \/ d = 3 \/ d = 4 \/ d = 5 \/ d = 6
              \/ d = 7 \/ d = 8 \/ d = 9) by lia.
  repeat (destruct E as [E|E]; [subst d; repeat split; reflexivity|]).
  subst d; repeat split; reflexivity.
Qed.

Lemma log2_div10 n : 10 <= n -> Z.log2 (n / 10) < Z.log2 n.
Proof.
  intros H.
  assert (Hq : 0 < n / 10) by (apply Z.div_str_pos; lia).
  assert (H2 : 2 * (n / 10) <= n).
  { pose proof (Z.mul_div_le n 10 ltac:(lia)). lia. }
  apply Z.log2_le_mono in H2.
  rewrite (Z.log2_double _ Hq) in H2. lia.
Qed.

Lemma int_digits_of_digits f : forall n rest p,
  0 <= n -> (Z.to_nat (Z.log2 n) < f)%nat ->
  Py.int_digits 0 p (Py.digits_fuel f n rest) = Py.int_digits n true rest.
Proof.
  induction f as [|f IH]; intros n rest p Hn Hf; [lia|].
  cbn [Py.digits_fuel]. destruct (Z.ltb_spec n 10) as [Hlt|Hge].
  - destruct (digit_char_spec (n mod 10)) as (Hd & Hv).
    { apply Z.mod_pos_bound; lia. }
    cbn [Py.int_digits]. rewrite Hd, Hv. f_equal. rewrite Z.mod_small; lia.
  - rewrite IH.
    + destruct (digit_char_spec (n mod 10)) as (Hd & Hv).
      { apply Z.mod_pos_bound; lia. }
      cbn [Py.int_digits]. rewrite Hd, Hv. f_equal.
      pose proof (Z.div_mod n 10 ltac:(lia)). lia.
    + apply Z.div_pos; lia.
    + pose proof (log2_div10 n Hge). pose proof (Z.log2_nonneg (n / 10)). lia.
Qed.

Lemma int_digits_zeros k : forall s p,
  Py.int_digits 0 p (Py.zeros k ++ s)
  = Py.int_digits 0 (p || Nat.ltb 0 k) s.
Proof.
  induction k as [|k IH]; intros s p; simpl.
  - now rewrite orb_false_r.
  - change (Py.is_digit "0") with true. cbn iota.
    change (10 * 0 + Py.digit_val "0") with 0.
    rewrite IH. simpl. now rewrite orb_true_r.
Qed.

Lemma digit_not_int_space c : Py.is_digit c = true -> Py.is_int_space c = false.
Proof.
  unfold Py.is_digit, Py.is_int_space. intros H.
  apply andb_prop in H as [H1 H2].
  apply Nat.leb_le in H1. apply Nat.leb_le in H2.
  destruct (Nat.leb_spec 9 (nat_of_ascii c)), (Nat.leb_spec (nat_of_ascii c) 13),
    (Nat.eqb_spec (nat_of_ascii c) 32), (Nat.eqb_spec (nat_of_ascii c) 133),
    (Nat.eqb_spec (nat_of_ascii c) 160);
    simpl; try reflexivity; lia.
Qed.

Lemma digits_fuel_all_digits f : forall n acc,
  0 <= n -> all_chars Py.is_digit acc = true ->
  all_chars Py.is_digit (Py.digits_fuel f n acc) = true.
Proof.
  induction f as [|f IH]; intros n acc Hn Hacc; simpl; [assumption|].
  assert (Hd : all_chars Py.is_digit (String (Py.digit_char (n mod 10)) acc) = true).
  { simpl. destruct (digit_char_spec (n mod 10)) as (Hd & _).
    { apply Z.mod_pos_bound; lia. }
    now rewrite Hd. }
  destruct (n <? 10); [exact Hd|].
  apply IH; [apply Z.div_pos; lia|exact Hd].
Qed.

Lemma zeros_all_digits k : all_chars Py.is_digit (Py.zeros k) = true.
Proof. induction k; simpl; [reflexivity|assumption]. Qed.

Lemma zfill_all_digits w n :
  0 <= n -> all_chars Py.is_digit (Py.zfill w (Py.str_of_nonneg n)) = true.
Proof.
  intros Hn. unfold Py.zfill. rewrite all_chars_app, zeros_all_digits.
  apply digits_fuel_all_digits; [assumption|reflexivity].
Qed.

Lemma all_digits_no_space s :
  all_chars Py.is_digit s = true ->
  all_chars (fun c => negb (Py.is_int_space c)) s = true.
Proof.
  induction s as [|c s IH]; simpl; [reflexivity|].
  intros H. apply andb_prop in H as [Hc Hs].
  now rewrite (digit_not_int_space _ Hc), IH.
Qed.

Lemma int_strip_none s :
  all_chars (fun c => negb (Py.is_int_space c)) s = true ->
  Py.rstrip_by Py.is_int_space (Py.lstrip_by Py.is_int_space s) = s.
Proof.
  intros H. rewrite (lstrip_by_none _ _ H). now apply rstrip_by_none.
Qed.

Lemma int_digits_zfill w n :
  0 <= n ->
  Py.int_digits 0 false (Py.zfill w (Py.str_of_nonneg n)) = Some n.
Proof.
  intros Hn. unfold Py.zfill. rewrite int_digits_zeros.
  unfold Py.str_of_nonneg. rewrite int_digits_of_digits; [reflexivity|lia|lia].
Qed.

(** [int] reads back what the [03d] format writes. *)
Lemma int_format_03d n : Py.int (Py.format_03d n) = Some n.
Proof.
  unfold Py.format_03d. destruct (Z.ltb_spec n 0) as [Hneg|Hpos].
  - unfold Py.int. rewrite int_strip_none.
    + rewrite int_digits_zfill by lia. simpl. f_equal. lia.
    + simpl. apply all_digits_no_space, zfill_all_digits. lia.
  - unfold Py.int. rewrite int_strip_none
      by (apply all_digits_no_space, zfill_all_digits; lia).
    pose proof (zfill_all_digits 3 n Hpos) as Hd.
    pose proof (int_digits_zfill 3 n Hpos) as Hi.
    destruct (Py.zfill 3 (Py.str_of_nonneg n)) as [|c s]; [exact Hi|].
    simpl in Hd. apply andb_prop in Hd as [Hc _].
    destruct (Ascii.eqb_spec c "-") as [->|Hm]; [discriminate Hc|].
    destruct (Ascii.eqb_spec c "+") as [->|Hp]; [discriminate Hc|].
    destruct c as [[] [] [] [] [] [] [] []]; try exact Hi; congruence.
Qed.

End StringFacts.

(** ** Identifier generation *)

Section NextId.

Lemma prefix_app p t : String.prefix p (p ++ t) = true.
Proof.
  induction p as [|c p IH]; simpl; [now destruct t|].
  destruct (ascii_dec c c) as [_|N]; [exact IH|congruence].
Qed.

Lemma drop_app p t : Py.drop (String.length p) (p ++ t) = t.
Proof. induction p as [|c p IH]; simpl; [reflexivity|exact IH]. Qed.

Lemma numeric_suffix_app p t : numeric_suffix p (p ++ t) = Py.int t.
Proof.
  unfold numeric_suffix, Py.startswith. now rewrite prefix_app, drop_app.
Qed.

Lemma numeric_suffix_empty p : numeric_suffix p "" = None.
Proof. destruct p; reflexivity. Qed.

Lemma numbers_of_spec p ids n :
  In n (BaseController.numbers_of p ids)
  <-> exists id_str, In id_str ids /\ numeric_suffix p id_str = Some n.
Proof.
  unfold BaseController.numbers_of. rewrite in_flat_map. split.
  - intros (i & Hi & Hn). exists i. split; [assumption|].
    unfold numeric_suffix.
    destruct (Py.truthy i); simpl in Hn; [|contradiction].
    destruct (Py.startswith i p); [|contradiction].
    destruct (Py.int _) as [k|]; [|contradiction].
    destruct Hn as [->|[]]. reflexivity.
  - intros (i & Hi & Hn). exists i. split; [assumption|].
    destruct i as [|c i]; [now rewrite numeric_suffix_empty in Hn|].
    unfold numeric_suffix in Hn. simpl Py.truthy. cbv beta iota.
    rewrite andb_true_l.
    destruct (Py.startswith (String c i) p); [|discriminate].
    rewrite Hn. now left.
Qed.

Lemma max_list_ge l : forall x,
  x <= Py.max_list x l /\ forall y, In y l -> y <= Py.max_list x l.
Proof.
  unfold Py.max_list.
  induction l as [|a l IH]; intros x; simpl; [split; [lia|tauto]|].
  destruct (IH (Z.max x a)) as [H1 H2]. split; [lia|].
  intros y [->|Hy]; [lia|now apply H2].
Qed.

Lemma max_list_in l : forall x, In (Py.max_list x l) (x :: l).
Proof.
  unfold Py.max_list.
  induction l as [|a l IH]; intros x; simpl; [now left|].
  destruct (IH (Z.max x a)) as [H|H]; [|now right; right].
  rewrite <- H.
  destruct (Z.max_spec x a) as [[_ E]|[_ E]]; rewrite E; tauto.
Qed.

(** The result in terms of the numbers carried by the list. *)
Lemma next_id_cases p ids :
  ((forall id_str, In id_str ids -> numeric_suffix p id_str = None)
   /\ BaseController._get_next_id p ids = p ++ "001")
  \/ (exists m, max_suffix p ids m
                /\ BaseController._get_next_id p ids = p ++ Py.format_03d (m + 1)).
Proof.
  unfold BaseController._get_next_id.
  destruct ids as [|i0 ids0] eqn:Eids; [left; split; [intros ? []|reflexivity]|].
  rewrite <- Eids. clear Eids i0 ids0.
  destruct (BaseController.numbers_of p ids) as [|n ns] eqn:En.
  - left. split; [|reflexivity]. intros i Hi.
    destruct (numeric_suffix p i) as [k|] eqn:Ek; [|reflexivity].
    assert (H : In k (BaseController.numbers_of p ids))
      by (apply numbers_of_spec; eauto).
    rewrite En in H. destruct H.
  - right. exists (Py.max_list n ns). split; [|reflexivity]. split.
    + apply numbers_of_spec. rewrite En. apply max_list_in.
    + intros i k Hi Hk.
      assert (H : In k (BaseController.numbers_of p ids))
        by (apply numbers_of_spec; eauto).
      rewrite En in H. destruct (max_list_ge ns n) as [H1 H2].
      destruct H as [<-|H]; [exact H1|now apply H2].
Qed.

Lemma max_suffix_unique p ids m m' :
  max_suffix p ids m -> max_suffix p ids m' -> m = m'.
Proof.
  intros [(i & Hi & Hm) Hub] [(i' & Hi' & Hm') Hub'].
  pose proof (Hub _ _ Hi' Hm'). pose proof (Hub' _ _ Hi Hm). lia.
Qed.

(** The generated identifier is not one of the existing ones. *)
Lemma next_id_fresh p ids : ~ In (BaseController._get_next_id p ids) ids.
Proof.
  intros Hin.
  destruct (next_id_cases p ids) as [[Hnone E]|(m & [_ Hub] & E)];
    rewrite E in Hin.
  - specialize (Hnone _ Hin). rewrite numeric_suffix_app in Hnone.
    discriminate Hnone.
  - specialize (Hub _ (m + 1) Hin).
    rewrite numeric_suffix_app, int_format_03d in Hub.
    specialize (Hub eq_refl). lia.
Qed.

Lemma format_03d_width_bool :
  forallb (fun k => Nat.eqb (String.length (Py.format_03d (Z.of_nat k))) 3)
          (seq 0 1000) = true.
Proof. vm_compute. reflexivity. Qed.

Lemma format_03d_width n :
  0 <= n < 1000 -> String.length (Py.format_03d n) = 3%nat.
Proof.
  intros H. pose proof format_03d_width_bool as B.
  rewrite forallb_forall in B.
  specialize (B (Z.to_nat n)). rewrite Z2Nat.id in B by lia.
  apply Nat.eqb_eq, B, in_seq. lia.
Qed.

End NextId.

(** C7. Identifier generation: the result is the prefix followed by
    "001" when no identifier of the list carries a number after the prefix,
    and otherwise by one plus the greatest such number in the zero-padded
    3-digit format (three characters up to 999, which [int] reads back);
    it depends on the list only up to the order of its elements, and it is
    never a member of the list. *)
Theorem get_next_id_spec (prefix : string) (existing_ids : list string) :
  ((forall id_str, In id_str existing_ids -> numeric_suffix prefix id_str = None)
   -> BaseController._get_next_id prefix existing_ids = prefix ++ "001")
  /\ (forall m, max_suffix prefix existing_ids m ->
        BaseController._get_next_id prefix existing_ids
          = prefix ++ Py.format_03d (m + 1)
        /\ Py.int (Py.format_03d (m + 1)) = Some (m + 1)
        /\ (0 <= m < 999 -> String.length (Py.format_03d (m + 1)) = 3%nat))
  /\ (forall ids', Permutation existing_ids ids' ->
        BaseController._get_next_id prefix ids'
          = BaseController._get_next_id prefix existing_ids)
  /\ ~ In (BaseController._get_next_id prefix existing_ids) existing_ids.
Proof.
  assert (Hmax : forall ids m, max_suffix prefix ids m ->
            BaseController._get_next_id prefix ids
              = prefix ++ Py.format_03d (m + 1)).
  { intros ids m Hm.
    destruct (next_id_cases prefix ids) as [[Hnone _]|(m' & Hm' & E)].
    - destruct Hm as [(i & Hi & Hs) _]. rewrite (Hnone _ Hi) in Hs.
      discriminate Hs.
    - now rewrite (max_suffix_unique _ _ _ _ Hm Hm'). }
  assert (Hnone : forall ids,
            (forall i, In i ids -> numeric_suffix prefix i = None) ->
            BaseController._get_next_id prefix ids = prefix ++ "001").
  { intros ids Hn.
    destruct (next_id_cases prefix ids) as [[_ E]|(m' & [(i & Hi & Hs) _] & _)];
      [exact E|].
    rewrite (Hn _ Hi) in Hs. discriminate Hs. }
  split; [apply Hnone|]. split; [|split; [|apply next_id_fresh]].
  - intros m Hm. split; [now apply Hmax|]. split; [apply int_format_03d|].
    intros Hb. apply format_03d_width. lia.
  - intros ids' Hp.
    destruct (next_id_cases prefix existing_ids) as [[Hn E]|(m & Hm & E)];
      rewrite E.
    + apply Hnone. intros i Hi. apply Hn.
      now apply (Permutation_in _ (Permutation_sym Hp)).
    + apply Hmax. destruct Hm as [(i & Hi & Hs) Hub]. split.
      * exists i. split; [now apply (Permutation_in _ Hp)|assumption].
      * intros i' n Hi'. apply Hub.
        now apply (Permutation_in _ (Permutation_sym Hp)).
Qed.

(** The seeded shape of identifiers: "A012" is the greatest, "A013" comes
    next. *)
Lemma get_next_id_spec_witness :
  max_suffix "A" mixed_ids 12
  /\ BaseController._get_next_id "A" mixed_ids = "A013".
Proof.
  assert (Hm : max_suffix "A" mixed_ids 12).
  { split.
    - exists "A012". split; [simpl; tauto|reflexivity].
    - intros i n Hi. simpl in Hi.
      repeat (destruct Hi as [<-|Hi];
              [intros E; vm_compute in E; inversion E; lia|]).
      destruct Hi. }
  split; [exact Hm|].
  exact (proj1 (proj1 (proj2 (get_next_id_spec "A" mixed_ids)) 12 Hm)).
Defined.

(** ** Running statements *)

Ltac run_m :=
  unfold bind, ret, raise, try_except, Sql.query, Sql.begin_transaction,
    Sql.commit, Sql.rollback, Sql.dml, connect in *;
  cbn [current committed in_transaction read_faults write_faults Sql.next_fault fst snd] in *.

Ltac norm_m := cbn [current committed in_transaction read_faults write_faults Sql.next_fault fst snd] in *.

(** Closes the case of an operation that the equation [H] shows to end
    without success on the connection it started from. *)
Ltac refused_in H :=
  left; eexists; split; [exact H|intros ? ?; discriminate].

Lemma filter_length_pos {A} (f : A -> bool) (l : list A) x :
  In x l -> f x = true -> (0 < List.length (filter f l))%nat.
Proof.
  intros Hin Hf.
  assert (H : In x (filter f l)) by (apply filter_In; auto).
  destruct (filter f l); [destruct H|simpl; lia].
Qed.

Lemma find_some_iff {A} (f : A -> bool) (l : list A) :
  (exists x, In x l /\ f x = true) -> exists y, find f l = Some y.
Proof.
  intros (x & Hin & Hf). destruct (find f l) eqn:E; [eauto|].
  now rewrite (find_none f l E x Hin) in Hf.
Qed.

(** ** Seeding *)

(** C5, as stated, fails: with one location and no employee or assignment
    in store, seeding inserts the ten sample employees and the ten sample
    assignments. *)
Lemma seed_nonempty_lieu_counterexample :
  let db := mkDB [Location.mk "X1" "Depot" "Toliara"] [] [] in
  LIEU db <> []
  /\ EMPLOYE (committed (snd (Database.seed_initial_data (connect db))))
     = Database.sample_employees
  /\ AFFECTER (committed (snd (Database.seed_initial_data (connect db))))
     = Database.sample_assignments.
Proof. repeat split; discriminate. Qed.

(** C5 (amended). Seeding looks at each table on its own: a table that
    holds a row is left as it is, an empty table receives its sample rows;
    the result is committed. In particular no row is inserted into LIEU
    when LIEU is not empty, and none at all when no table is empty. *)
Theorem seed_initial_data_per_table (db : DB) :
  Database.seed_initial_data (connect db)
  = (Ok tt,
     connect (mkDB (seeded Database.sample_locations (LIEU db))
                   (seeded Database.sample_employees (EMPLOYE db))
                   (seeded Database.sample_assignments (AFFECTER db)))).
Proof.
  destruct db as [ls es rs].
  destruct ls as [|l ls], es as [|e es], rs as [|r rs]; reflexivity.
Qed.

(** ** Employee validation *)

(** C6 at its failing input: an address with "@" and no "." after it passes
    [Employee.validate], while [validate_email] of the helpers rejects it. *)
Theorem employee_validate_accepts_dotless_domain :
  Employee.validate
    (Employee.mk "E011" "Mr" "Rabe" "Solo" "solo@localhost" "Analyst" None)
  = (true, "")
  /\ Helpers.validate_email "solo@localhost" = false.
Proof. split; reflexivity. Qed.

(** ** Deleting a location *)

(** C8. Deleting a location that an employee has as current location, or
    that an assignment row names as origin or destination, is refused with
    one of the two referential-integrity messages, and the store is
    unchanged. *)
Theorem location_delete_referenced (db : DB) (location_id : string) :
  (exists l, In l (LIEU db) /\ Location.idlieu l = location_id) ->
  ((exists e, In e (EMPLOYE db) /\ Employee.idlieu e = Some location_id)
   \/ (exists a, In a (AFFECTER db)
                 /\ (Assignment.AncienLieu a = location_id
                     \/ Assignment.NouveauLieu a = location_id))) ->
  exists msg,
    LocationController.delete location_id (connect db)
    = (Ok (false, msg), connect db)
    /\ referential_integrity_error msg.
Proof.
  intros (l & Hl & Hid) Href.
  unfold LocationController.delete, LocationController.get_by_id, Location_get.
  run_m.
  destruct (find_some_iff
              (fun l' => String.eqb (Location.idlieu l') location_id) (LIEU db))
    as (l' & Hfind).
  { exists l. split; [assumption|]. now apply String.eqb_eq. }
  unfold Sql.find_location. rewrite Hfind. norm_m.
  destruct (Nat.ltb 0 (Sql.count_employees_at location_id db)) eqn:Eemp.
  - eexists. split; [reflexivity|]. now left.
  - destruct Href as [(e & He & Hloc)|(a & Ha & Hloc)].
    + exfalso. apply Nat.ltb_ge in Eemp.
      assert (0 < Sql.count_employees_at location_id db)%nat; [|lia].
      unfold Sql.count_employees_at.
      apply (filter_length_pos _ _ e He). rewrite Hloc. apply String.eqb_refl.
    + assert (Hpos : (0 < Sql.count_assignments_at location_id db)%nat).
      { unfold Sql.count_assignments_at.
        apply (filter_length_pos _ _ a Ha).
        destruct Hloc as [<-|<-]; rewrite String.eqb_refl;
          [reflexivity|apply orb_true_r]. }
      apply Nat.ltb_lt in Hpos. norm_m. rewrite Hpos.
      eexists. split; [reflexivity|]. now right.
Qed.

Lemma location_delete_referenced_witness :
  let db := mkDB Database.sample_locations Database.sample_employees
                 Database.sample_assignments in
  exists msg,
    LocationController.delete "L9" (connect db) = (Ok (false, msg), connect db)
    /\ referential_integrity_error msg.
Proof.
  apply (location_delete_referenced
           (mkDB Database.sample_locations Database.sample_employees
                 Database.sample_assignments) "L9").
  - exists (Location.mk "L9" "Ambalavao" "Fianarantsoa").
    split; [simpl; tauto|reflexivity].
  - right. exists (Assignment.mk "A008" "E008" "L6" "L9" "2023-08-05" "2023-08-15").
    split; [simpl; tauto|right; reflexivity].
Defined.

(** ** The operations of the assignment controller, case by case *)

Section OperationCases.

Lemma generate_assignment_id_run c :
  read_faults c = [] ->
  generate_assignment_id c
  = (Ok (BaseController._get_next_id "A"
           (map Assignment.numAffect (AFFECTER (current c)))), c).
Proof. destruct c. cbn. intros ->. reflexivity. Qed.

Lemma generated_id_unused db :
  id_in_use (BaseController._get_next_id "A" (map Assignment.numAffect (AFFECTER db)))
            db = false.
Proof.
  unfold id_in_use.
  destruct (existsb _ (AFFECTER db)) eqn:E; [exfalso|reflexivity].
  apply existsb_exists in E as (a & Ha & Heq). apply String.eqb_eq in Heq.
  apply (next_id_fresh "A" (map Assignment.numAffect (AFFECTER db))).
  rewrite <- Heq. now apply in_map.
Qed.

Lemma numAffect_of_run data c :
  read_faults c = [] ->
  exists v, AssignmentController.numAffect_of data c = (Ok v, c).
Proof.
  intros Hq. unfold AssignmentController.numAffect_of.
  destruct (dict_get data "numAffect") as [v|];
    [destruct (Py.truthy v)|]; eexists;
    try reflexivity; now apply generate_assignment_id_run.
Qed.

Lemma validate_true_msg today a m :
  Assignment.validate today a = (true, m) -> m = "".
Proof.
  unfold Assignment.validate.
  repeat match goal with
         | |- context [if ?b then _ else _] => destruct b
         | |- context [match ?x with Some _ => _ | None => _ end] => destruct x
         end; congruence.
Qed.

(** [create] either refuses and leaves the connection as it found it, or
    commits the new row together with the employee's new location. *)
Lemma create_cases today data db :
  (exists msg,
     AssignmentController.create today data (connect db)
     = (Ok (false, msg, None), connect db))
  \/ (exists numAffect e,
        let a := AssignmentController.assignment_of numAffect data in
        Assignment.validate today a = (true, "")
        /\ Sql.find_employee (Assignment.numEmp a) db = Some e
        /\ Employee.idlieu e = Some (Assignment.AncienLieu a)
        /\ id_in_use (Assignment.numAffect a) db = false
        /\ AssignmentController.create today data (connect db)
           = (Ok (true, "Assignment created successfully!",
                  Some (Assignment.numAffect a)),
              connect (inserted a db))).
Proof.
  remember (AssignmentController.create today data (connect db)) as r eqn:Hr.
  unfold AssignmentController.create in Hr.
  destruct (BaseController._validate_required_fields _ _) as [[|] m1];
    cbn [negb] in Hr; [|left; eexists; exact Hr].
  destruct (numAffect_of_run data (connect db) eq_refl) as [v Hv].
  unfold bind at 1 in Hr. rewrite Hv in Hr.
  destruct (Assignment.validate today _) as [[|] m2] eqn:Hval;
    cbn [negb] in Hr; [|left; eexists; exact Hr].
  apply validate_true_msg in Hval as Hm. subst m2.
  unfold Employee_get, Location_get in Hr. run_m.
  destruct (Sql.find_employee _ db) as [e|] eqn:He; norm_m;
    [|left; eexists; exact Hr].
  destruct (Sql.find_location (Assignment.AncienLieu _) db) as [lo|] eqn:Hlo;
    norm_m; [|left; eexists; exact Hr].
  destruct (Sql.find_location (Assignment.NouveauLieu _) db) as [ln|] eqn:Hln;
    norm_m; [|left; eexists; exact Hr].
  destruct (Employee.idlieu e) as [l|] eqn:Hl;
    [|left; eexists; exact Hr].
  destruct (String.eqb_spec l
              (Assignment.AncienLieu (AssignmentController.assignment_of v data)))
    as [->|Hne]; cbn [negb] in Hr; [|left; eexists; exact Hr].
  unfold Sql.insert_affecter, Sql.update_employe_idlieu in Hr. run_m.
  fold (id_in_use (Assignment.numAffect (AssignmentController.assignment_of v data)) db)
    in Hr.
  destruct (id_in_use _ db) eqn:Hid.
  - left. eexists. exact Hr.
  - right. exists v, e. cbv zeta. repeat split; try assumption.
Qed.

Lemma find_assignment_joined_in id db a :
  Sql.find_assignment_joined id db = Some a ->
  In a (AFFECTER db) /\ Assignment.numAffect a = id.
Proof.
  unfold Sql.find_assignment_joined. intros H.
  apply find_some in H as [Hin Hb]. split; [assumption|].
  apply andb_prop in Hb as [Hb _]. apply andb_prop in Hb as [Hb _].
  apply andb_prop in Hb as [Hb _]. now apply String.eqb_eq.
Qed.

(** [update] either ends without success, by a refusal or by the TypeError
    of its validation, and leaves the connection as it found it, or commits
    the edited row, together with the employee's location when the
    row was the first of the employee's history and its destination
    changed. *)
Lemma update_cases today id data db :
  (exists o,
     AssignmentController.update today id data (connect db) = (o, connect db)
     /\ forall msg, o <> Ok (true, msg))
  \/ (exists existing,
        let a := AssignmentController.apply_update existing data in
        Sql.find_assignment_joined id db = Some existing
        /\ Assignment.validate today a = (true, "")
        /\ AssignmentController.update today id data (connect db)
           = (Ok (true, "Assignment updated successfully!"),
              connect (updated id a db))).
Proof.
  remember (AssignmentController.update today id data (connect db)) as r eqn:Hr.
  unfold AssignmentController.update, AssignmentController.get_by_id,
    Assignment_get_assignment in Hr. run_m.
  destruct (Sql.find_assignment_joined id db) as [existing|] eqn:Hex; norm_m;
    [|refused_in Hr].
  destruct (AssignmentController.validate_type_error existing data);
    [refused_in Hr|].
  destruct (Assignment.validate today _) as [[|] m2] eqn:Hval;
    cbn [negb] in Hr; [|refused_in Hr].
  apply validate_true_msg in Hval as Hm. subst m2.
  unfold Employee_get, Location_get in Hr. run_m.
  destruct (Sql.find_employee _ db) as [e|] eqn:He; norm_m;
    [|refused_in Hr].
  destruct (Sql.find_location (Assignment.AncienLieu _) db) as [lo|] eqn:Hlo;
    norm_m; [|refused_in Hr].
  destruct (Sql.find_location (Assignment.NouveauLieu _) db) as [ln|] eqn:Hln;
    norm_m; [|refused_in Hr].
  unfold Sql.update_affecter, Sql.update_employe_idlieu in Hr. run_m.
  destruct (Nat.eqb _ 0) eqn:Hcount; norm_m; [refused_in Hr|].
  right. exists existing. cbv zeta. split; [reflexivity|]. split; [assumption|].
  rewrite Hr. unfold updated, update_propagates.
  destruct (Sql.latest_assignment _ db) as [latest|]; [|reflexivity].
  destruct (_ && _); reflexivity.
Qed.

(** [delete] either refuses and leaves the connection as it found it, or
    commits the removal, together with the recomputed location of the
    row's employee when the row was the first of that employee's history. *)
Lemma delete_cases id db :
  (exists msg,
     AssignmentController.delete id (connect db) = (Ok (false, msg), connect db))
  \/ (exists existing,
        Sql.find_assignment_joined id db = Some existing
        /\ AssignmentController.delete id (connect db)
           = (Ok (true, "Assignment deleted successfully!"),
              connect (deleted id (Assignment.numEmp existing) db))).
Proof.
  remember (AssignmentController.delete id (connect db)) as r eqn:Hr.
  unfold AssignmentController.delete, AssignmentController.get_by_id,
    Assignment_get_assignment in Hr. run_m.
  destruct (Sql.find_assignment_joined id db) as [existing|] eqn:Hex; norm_m;
    [|left; eexists; exact Hr].
  unfold Sql.delete_affecter, Sql.update_employe_idlieu in Hr. run_m.
  destruct (Nat.eqb _ 0) eqn:Hcount; norm_m; [left; eexists; exact Hr|].
  right. exists existing. split; [reflexivity|].
  rewrite Hr. unfold deleted, is_latest.
  destruct (Sql.latest_assignment _ db) as [latest|]; [|reflexivity].
  destruct (String.eqb _ id); reflexivity.
Qed.

End OperationCases.

(** ** Atomicity *)

(** One step of the case analysis of a run: what the environment holds for
    the next statement, or the value on which the code branches. *)
Ltac branch H :=
  match type of H with
  | context [Sql.next_fault ?l] => is_var l; destruct l as [|[?|] ?]
  | context [match dict_get ?d ?k with Some _ => _ | None => _ end] =>
      destruct (dict_get d k)
  | context [if Py.truthy ?v then _ else _] => destruct (Py.truthy v)
  | context [let (_, _) := Assignment.validate ?t ?a in _] =>
      destruct (Assignment.validate t a) as [[|] ?]
  | context [match AssignmentController.validate_type_error ?x ?d with
             | Some _ => _ | None => _ end] =>
      destruct (AssignmentController.validate_type_error x d)
  | context [match Sql.find_employee ?k ?d with Some _ => _ | None => _ end] =>
      destruct (Sql.find_employee k d)
  | context [match Sql.find_location ?k ?d with Some _ => _ | None => _ end] =>
      destruct (Sql.find_location k d)
  | context [match Sql.find_assignment_joined ?k ?d with Some _ => _ | None => _ end] =>
      destruct (Sql.find_assignment_joined k d) eqn:?
  | context [match Employee.idlieu ?e with Some _ => _ | None => _ end] =>
      destruct (Employee.idlieu e)
  | context [if negb (String.eqb ?a ?b) then _ else _] =>
      destruct (String.eqb a b)
  | context [if existsb ?f ?l then _ else _] => destruct (existsb f l)
  | context [if Nat.eqb ?n 0 then _ else _] => destruct (Nat.eqb n 0)
  end;
  cbn [negb] in H; norm_m.

Ltac branch_more H :=
  first
    [ branch H
    | match type of H with
      | context [match Sql.latest_assignment ?n ?d with
                 | Some _ => _ | None => _ end] =>
          destruct (Sql.latest_assignment n d) eqn:?
      | context [if ?a && ?b then _ else _] => destruct (a && b) eqn:?
      | context [if String.eqb ?a ?b then _ else _] =>
          destruct (String.eqb a b) eqn:?
      end; norm_m ].

Ltac committed_change :=
  repeat split; try reflexivity; eexists; (split; [reflexivity|]);
  unfold updated, update_propagates, deleted, is_latest;
  repeat match goal with
         | E : ?x = _ |- context [?x] => rewrite E
         end;
  reflexivity.

Section Atomicity.

Variables (reads writes : list (option string)) (db : DB).

Lemma create_atomic today data :
  let r := AssignmentController.create today data (connect_in reads writes db) in
  current (snd r) = committed (snd r) /\ in_transaction (snd r) = false
  /\ match fst r with
     | Ok (true, _, i) =>
         exists numAffect,
           let a := AssignmentController.assignment_of numAffect data in
           i = Some (Assignment.numAffect a)
           /\ committed (snd r) = inserted a db
     | Ok (false, _, _) => committed (snd r) = db
     | Raise _ => committed (snd r) = db /\ write_faults (snd r) = writes
     end.
Proof.
  cbv zeta.
  remember (AssignmentController.create today data (connect_in reads writes db))
    as r eqn:Hr.
  unfold AssignmentController.create, connect_in in Hr.
  destruct (BaseController._validate_required_fields _ _) as [[|] m1];
    cbn [negb] in Hr; [|subst r; cbn; auto].
  unfold AssignmentController.numAffect_of, generate_assignment_id,
    Employee_get, Location_get, Sql.insert_affecter, Sql.update_employe_idlieu in Hr.
  run_m.
  repeat branch Hr.
  all: subst r; cbn [fst snd current committed in_transaction write_faults];
    auto.
  all: repeat split; try reflexivity; eexists; split; reflexivity.
Qed.

Lemma update_atomic today assignment_id data :
  let r := AssignmentController.update today assignment_id data
             (connect_in reads writes db) in
  current (snd r) = committed (snd r) /\ in_transaction (snd r) = false
  /\ match fst r with
     | Ok (true, _) =>
         exists existing,
           Sql.find_assignment_joined assignment_id db = Some existing
           /\ committed (snd r)
              = updated assignment_id
                        (AssignmentController.apply_update existing data) db
     | Ok (false, _) => committed (snd r) = db
     | Raise _ => committed (snd r) = db /\ write_faults (snd r) = writes
     end.
Proof.
  cbv zeta.
  remember (AssignmentController.update today assignment_id data
              (connect_in reads writes db)) as r eqn:Hr.
  unfold AssignmentController.update, AssignmentController.get_by_id,
    Assignment_get_assignment, connect_in, Employee_get, Location_get,
    Sql.update_affecter, Sql.update_employe_idlieu in Hr.
  run_m.
  repeat branch_more Hr.
  all: subst r; cbn [fst snd current committed in_transaction write_faults];
    auto.
  all: committed_change.
Qed.

Lemma delete_atomic assignment_id :
  let r := AssignmentController.delete assignment_id (connect_in reads writes db) in
  current (snd r) = committed (snd r) /\ in_transaction (snd r) = false
  /\ match fst r with
     | Ok (true, _) =>
         exists existing,
           Sql.find_assignment_joined assignment_id db = Some existing
           /\ committed (snd r)
              = deleted assignment_id (Assignment.numEmp existing) db
     | Ok (false, _) => committed (snd r) = db
     | Raise _ => committed (snd r) = db /\ write_faults (snd r) = writes
     end.
Proof.
  cbv zeta.
  remember (AssignmentController.delete assignment_id (connect_in reads writes db))
    as r eqn:Hr.
  unfold AssignmentController.delete, AssignmentController.get_by_id,
    Assignment_get_assignment, connect_in,
    Sql.delete_affecter, Sql.update_employe_idlieu in Hr.
  run_m.
  repeat branch_more Hr.
  all: subst r; cbn [fst snd current committed in_transaction write_faults];
    auto.
  all: committed_change.
Qed.

End Atomicity.

(** C2. Whatever statements the environment makes fail, a create, an
    update and a delete of the assignment controller each end with nothing
    pending on the connection and in one of three ways. The operation
    returns success, and the row change and the change of the employee's
    location are committed together. Or it returns a failure, and the store
    is what it was. Or an exception escapes, the store is what it was and
    no writing statement has been run: only a read that comes before the
    transaction, or the validation of [update], lets an exception through;
    every failure from BEGIN TRANSACTION on is rolled back and returned as
    a failure. *)
Theorem assignment_operations_atomic
    (reads writes : list (option string))
    (today : PyDate.date) (data : dict) (assignment_id : string) (db : DB) :
  (let r := AssignmentController.create today data (connect_in reads writes db) in
   settled (snd r)
   /\ match fst r with
      | Ok (true, _, i) =>
          exists numAffect,
            let a := AssignmentController.assignment_of numAffect data in
            i = Some (Assignment.numAffect a)
            /\ committed (snd r) = inserted a db
      | Ok (false, _, _) => committed (snd r) = db
      | Raise _ => committed (snd r) = db /\ write_faults (snd r) = writes
      end)
  /\ (let r := AssignmentController.update today assignment_id data
                 (connect_in reads writes db) in
      settled (snd r)
      /\ match fst r with
         | Ok (true, _) =>
             exists existing,
               Sql.find_assignment_joined assignment_id db = Some existing
               /\ committed (snd r)
                  = updated assignment_id
                            (AssignmentController.apply_update existing data) db
         | Ok (false, _) => committed (snd r) = db
         | Raise _ => committed (snd r) = db /\ write_faults (snd r) = writes
         end)
  /\ (let r := AssignmentController.delete assignment_id
                 (connect_in reads writes db) in
      settled (snd r)
      /\ match fst r with
         | Ok (true, _) =>
             exists existing,
               Sql.find_assignment_joined assignment_id db = Some existing
               /\ committed (snd r)
                  = deleted assignment_id (Assignment.numEmp existing) db
         | Ok (false, _) => committed (snd r) = db
         | Raise _ => committed (snd r) = db /\ write_faults (snd r) = writes
         end).
Proof.
  unfold settled. split; [|split].
  - pose proof (create_atomic reads writes db today data) as H.
    cbv zeta in *. tauto.
  - pose proof (update_atomic reads writes db today assignment_id data) as H.
    cbv zeta in *. tauto.
  - pose proof (delete_atomic reads writes db assignment_id) as H.
    cbv zeta in *. tauto.
Qed.

(** A create whose second write fails: the INSERT has run, the UPDATE of
    EMPLOYE fails, and the handler gives back the store without the row. *)
Example create_rolls_back_failed_write :
  AssignmentController.create (PyDate.mk 2024 6 1)
    [("numAffect", "A2"); ("numEmp", "E1"); ("AncienLieu", "L2");
     ("NouveauLieu", "L1"); ("dateAffect", "2024-02-01");
     ("datePriseService", "2024-02-05")]
    (connect_in [] [None; None; Some "disk I/O error"] run_db)
  = (Ok (false, "Error creating assignment: disk I/O error", None),
     connect run_db).
Proof. reflexivity. Qed.

(** Whatever statement of a transaction raises, the handler's rollback
    gives back the committed store. *)
Lemma rollback_restores {A} (body : M A) (failure : exn -> A) c e c' :
  body c = (Raise e, c') ->
  committed c' = committed c ->
  try_except body (fun e => Sql.rollback ;;; ret (failure e)) c
  = (Ok (failure e),
     mkConn (committed c) (committed c) false (read_faults c') (write_faults c')).
Proof.
  intros Hb Hc. unfold try_except. rewrite Hb. run_m. now rewrite Hc.
Qed.

(** ** The origin check of create *)

Lemma add_assignment_run db numAffect numEmp ancien nouveau d1 d2 :
  id_in_use numAffect db = false ->
  Database.add_assignment numAffect numEmp ancien nouveau d1 d2 (connect db)
  = (Ok (true, "Assignment added and employee location updated successfully!"),
     connect (inserted (Assignment.mk numAffect numEmp ancien nouveau d1 d2) db)).
Proof.
  intros Hid. unfold Database.add_assignment, Sql.insert_affecter,
    Sql.update_employe_idlieu. run_m.
  unfold id_in_use in Hid. cbn [Assignment.numAffect]. now rewrite Hid.
Qed.

(** C4. [AssignmentController.create] fails and writes nothing when the
    employee named by the form does not have the stated origin as current
    location; [Database.add_assignment] makes no such check: with an unused
    identifier it inserts the row and moves the employee, whatever the
    employee's current location is. *)
Theorem create_checks_origin_add_assignment_does_not (db : DB) :
  (forall today data,
     (forall e,
        Sql.find_employee (Py.strip (dict_item data "numEmp")) db = Some e ->
        Employee.idlieu e <> Some (Py.strip (dict_item data "AncienLieu"))) ->
     exists msg,
       AssignmentController.create today data (connect db)
       = (Ok (false, msg, None), connect db))
  /\ (forall numAffect numEmp ancien_lieu nouveau_lieu date_affect date_prise_service,
        id_in_use numAffect db = false ->
        Database.add_assignment numAffect numEmp ancien_lieu nouveau_lieu
          date_affect date_prise_service (connect db)
        = (Ok (true, "Assignment added and employee location updated successfully!"),
           connect (inserted (Assignment.mk numAffect numEmp ancien_lieu nouveau_lieu
                                            date_affect date_prise_service) db))).
Proof.
  split.
  - intros today data Hne.
    destruct (create_cases today data db) as [F|(v & e & _ & He & Hl & _)];
      [exact F|].
    exfalso. exact (Hne e He Hl).
  - intros. now apply add_assignment_run.
Qed.

(** E1 is at L1; a form that states L2 as origin is refused, the same row
    goes through [add_assignment]. *)
Lemma create_checks_origin_add_assignment_does_not_witness :
  (exists msg,
     AssignmentController.create (PyDate.mk 2024 6 1) origin_check_data
       (connect origin_check_db)
     = (Ok (false, msg, None), connect origin_check_db))
  /\ Database.add_assignment "A1" "E1" "L2" "L3" "2024-01-10" "2024-01-15"
       (connect origin_check_db)
     = (Ok (true, "Assignment added and employee location updated successfully!"),
        connect (inserted (Assignment.mk "A1" "E1" "L2" "L3" "2024-01-10" "2024-01-15")
                          origin_check_db)).
Proof.
  destruct (create_checks_origin_add_assignment_does_not origin_check_db)
    as [Hc Ha].
  split.
  - apply Hc. intros e He. vm_compute in He. inversion He. discriminate.
  - apply Ha. reflexivity.
Defined.

(** ** Origin and destination *)

Lemma validate_same_location today a :
  Assignment.AncienLieu a = Assignment.NouveauLieu a ->
  fst (Assignment.validate today a) = false.
Proof.
  intros E. unfold Assignment.validate.
  repeat match goal with
         | |- context [if negb ?b || ?c then _ else _] =>
             destruct (negb b || c); [reflexivity|]
         end.
  rewrite E, String.eqb_refl. reflexivity.
Qed.

Lemma create_same_location today data db :
  Py.strip (dict_item data "AncienLieu") = Py.strip (dict_item data "NouveauLieu") ->
  exists msg,
    AssignmentController.create today data (connect db)
    = (Ok (false, msg, None), connect db)
    /\ validation_error today data msg.
Proof.
  intros E.
  remember (AssignmentController.create today data (connect db)) as r eqn:Hr.
  unfold AssignmentController.create in Hr.
  destruct (BaseController._validate_required_fields _ _) as [[|] m1] eqn:Hreq;
    cbn [negb] in Hr.
  2:{ exists m1. split; [exact Hr|now left]. }
  destruct (numAffect_of_run data (connect db) eq_refl) as [v Hv].
  unfold bind at 1 in Hr. rewrite Hv in Hr.
  pose proof (validate_same_location today
                (AssignmentController.assignment_of v data) E) as Hsame.
  destruct (Assignment.validate today _) as [[|] m2] eqn:Hval;
    [discriminate Hsame|].
  cbn [negb] in Hr. exists m2. split; [exact Hr|]. right. now exists v.
Qed.

Lemma assign_location_same_location db emp dest d1 d2 aid e :
  Sql.find_employee emp db = Some e ->
  Employee.idlieu e = Some dest ->
  exists msg,
    EmployeeController.assign_location emp dest d1 d2 aid (connect db)
    = (Ok (false, msg), connect db).
Proof.
  intros He Hl.
  remember (EmployeeController.assign_location emp dest d1 d2 aid (connect db))
    as r eqn:Hr.
  unfold EmployeeController.assign_location, EmployeeController.get_by_id,
    Location_get in Hr. run_m.
  rewrite He in Hr. norm_m.
  destruct (Sql.find_location dest db) as [l|]; norm_m; [|eexists; exact Hr].
  rewrite Hl, String.eqb_refl in Hr. eexists. exact Hr.
Qed.

(** C9, as stated, fails on the direct database path: [add_assignment]
    with origin and destination both "L1" succeeds and the row is in the
    committed table. *)
Lemma add_assignment_same_location_counterexample :
  let r := Database.add_assignment "A1" "E1" "L1" "L1" "2024-01-10" "2024-01-15"
             (connect same_location_db) in
  fst r = Ok (true, "Assignment added and employee location updated successfully!")
  /\ In (Assignment.mk "A1" "E1" "L1" "L1" "2024-01-10" "2024-01-15")
        (AFFECTER (committed (snd r))).
Proof. split; [reflexivity|simpl; tauto]. Qed.

(** C9 (amended). On the create path of the assignment controller an
    assignment whose origin equals its destination is refused by the
    validation and nothing is written; [assign_location], which takes the
    origin from the employee's current location, refuses a destination equal
    to that location and writes nothing; [Database.add_assignment] does not
    validate and inserts such a row under any unused identifier. *)
Theorem same_origin_and_destination (db : DB) :
  (forall today data,
     Py.strip (dict_item data "AncienLieu") = Py.strip (dict_item data "NouveauLieu") ->
     exists msg,
       AssignmentController.create today data (connect db)
       = (Ok (false, msg, None), connect db)
       /\ validation_error today data msg)
  /\ (forall employee_id new_location_id assignment_date service_start_date
             assignment_id e,
        Sql.find_employee employee_id db = Some e ->
        Employee.idlieu e = Some new_location_id ->
        exists msg,
          EmployeeController.assign_location employee_id new_location_id
            assignment_date service_start_date assignment_id (connect db)
          = (Ok (false, msg), connect db))
  /\ (forall numAffect numEmp lieu date_affect date_prise_service,
        id_in_use numAffect db = false ->
        Database.add_assignment numAffect numEmp lieu lieu
          date_affect date_prise_service (connect db)
        = (Ok (true, "Assignment added and employee location updated successfully!"),
           connect (inserted (Assignment.mk numAffect numEmp lieu lieu
                                            date_affect date_prise_service) db))).
Proof.
  split; [|split].
  - intros. now apply create_same_location.
  - intros. eapply assign_location_same_location; eassumption.
  - intros. now apply add_assignment_run.
Qed.

Lemma same_origin_and_destination_witness :
  (exists msg,
     AssignmentController.create (PyDate.mk 2024 6 1) same_location_data
       (connect same_location_db)
     = (Ok (false, msg, None), connect same_location_db)
     /\ validation_error (PyDate.mk 2024 6 1) same_location_data msg)
  /\ (exists msg,
        EmployeeController.assign_location "E1" "L1" "2024-01-10" "2024-01-15" None
          (connect same_location_db)
        = (Ok (false, msg), connect same_location_db))
  /\ Database.add_assignment "A1" "E1" "L1" "L1" "2024-01-10" "2024-01-15"
       (connect same_location_db)
     = (Ok (true, "Assignment added and employee location updated successfully!"),
        connect (inserted (Assignment.mk "A1" "E1" "L1" "L1" "2024-01-10" "2024-01-15")
                          same_location_db)).
Proof.
  destruct (same_origin_and_destination same_location_db) as (Hc & Ha & Hd).
  split; [|split].
  - apply Hc. reflexivity.
  - apply (Ha "E1" "L1" "2024-01-10" "2024-01-15" None
              (Employee.mk "E1" "Mr" "Rabe" "Paul" "paul@example.com" "Analyst"
                           (Some "L1"))); reflexivity.
  - apply Hd. reflexivity.
Defined.

(** ** Assigning an employee who has no location *)

Lemma employe_set_idlieu_hit v numEmp rows e :
  In e (Sql.employe_set_idlieu v numEmp rows) ->
  Employee.numEmp e = numEmp -> Employee.idlieu e = v.
Proof.
  unfold Sql.employe_set_idlieu. intros Hin Hn.
  apply in_map_iff in Hin as (e0 & He0 & _).
  destruct (String.eqb_spec (Employee.numEmp e0) numEmp) as [_|Hne].
  - now subst e.
  - subst e. contradiction.
Qed.

Lemma assign_location_unassigned db emp dest d1 d2 aid e l :
  Sql.find_employee emp db = Some e ->
  Employee.idlieu e = None ->
  Sql.find_location dest db = Some l ->
  id_in_use (assigned_id aid db) db = false ->
  EmployeeController.assign_location emp dest d1 d2 aid (connect db)
  = (Ok (true, "Employee assigned to " ++ Location.design l ++ " successfully!"),
     connect (inserted (Assignment.mk (assigned_id aid db) emp "UNKNOWN" dest d1 d2)
                       db)).
Proof.
  intros He Hl Hd Hid.
  unfold EmployeeController.assign_location, EmployeeController.get_by_id,
    Location_get, generate_assignment_id, Sql.insert_affecter,
    Sql.update_employe_idlieu.
  unfold assigned_id in *. unfold id_in_use in Hid.
  destruct aid as [v|]; [destruct (Py.truthy v)|];
    run_m; rewrite He; norm_m; rewrite Hd; norm_m; rewrite Hl;
    cbn [Assignment.numAffect]; norm_m; now rewrite Hid.
Qed.

(** C10, as stated, fails when the caller supplies an identifier that is
    in use: E1 has no location and L2 exists, yet the insert is rejected and
    the store is unchanged. *)
Lemma assign_location_duplicate_id_counterexample :
  Sql.find_employee "E1" unassigned_db
  = Some (Employee.mk "E1" "Mr" "Rabe" "Paul" "paul@example.com" "Analyst" None)
  /\ Sql.find_location "L2" unassigned_db = Some (Location.mk "L2" "Branch" "South")
  /\ EmployeeController.assign_location "E1" "L2" "2024-03-01" "2024-03-05"
       (Some "A001") (connect unassigned_db)
     = (Ok (false, "Error assigning location: UNIQUE constraint failed: AFFECTER.numAffect"),
        connect unassigned_db).
Proof. repeat split. Qed.

(** C10 (amended). For an employee whose current location is null and an
    existing destination, [assign_location] succeeds whenever the
    identifier is left to the controller or the supplied one is unused: it
    commits a row whose origin is the text "UNKNOWN", which names no row of
    LIEU unless a location with that very identifier exists, and the
    employee's current location becomes the destination. *)
Theorem assign_location_unknown_origin
    (db : DB) (employee_id new_location_id assignment_date service_start_date : string)
    (assignment_id : option string) (e : Employee.t) (l : Location.t) :
  Sql.find_employee employee_id db = Some e ->
  Employee.idlieu e = None ->
  Sql.find_location new_location_id db = Some l ->
  (forall v, assignment_id = Some v -> Py.truthy v = true -> id_in_use v db = false) ->
  let row := Assignment.mk (assigned_id assignment_id db) employee_id "UNKNOWN"
                           new_location_id assignment_date service_start_date in
  let db' := inserted row db in
  EmployeeController.assign_location employee_id new_location_id assignment_date
    service_start_date assignment_id (connect db)
  = (Ok (true, "Employee assigned to " ++ Location.design l ++ " successfully!"),
     connect db')
  /\ In row (AFFECTER db')
  /\ (Sql.find_location "UNKNOWN" db = None ->
      Sql.find_location (Assignment.AncienLieu row) db' = None)
  /\ (forall e', In e' (EMPLOYE db') -> Employee.numEmp e' = employee_id ->
                 Employee.idlieu e' = Some new_location_id).
Proof.
  intros He Hl Hd Hfresh row db'.
  assert (Hid : id_in_use (assigned_id assignment_id db) db = false).
  { unfold assigned_id. destruct assignment_id as [v|].
    - destruct (Py.truthy v) eqn:Hv; [now apply Hfresh|apply generated_id_unused].
    - apply generated_id_unused. }
  split; [exact (assign_location_unassigned _ _ _ _ _ _ e l He Hl Hd Hid)|].
  split; [apply in_or_app; right; now left|].
  split; [intros H; exact H|].
  intros e' Hin Hn. subst db'. unfold inserted in Hin. cbn [EMPLOYE] in Hin.
  exact (employe_set_idlieu_hit _ _ _ _ Hin Hn).
Qed.

Lemma assign_location_unknown_origin_witness :
  EmployeeController.assign_location "E1" "L2" "2024-03-01" "2024-03-05" None
    (connect unassigned_db)
  = (Ok (true, "Employee assigned to Branch successfully!"),
     connect (inserted (Assignment.mk "A002" "E1" "UNKNOWN" "L2"
                                      "2024-03-01" "2024-03-05") unassigned_db)).
Proof.
  refine (proj1 (assign_location_unknown_origin unassigned_db "E1" "L2"
            "2024-03-01" "2024-03-05" None
            (Employee.mk "E1" "Mr" "Rabe" "Paul" "paul@example.com" "Analyst" None)
            (Location.mk "L2" "Branch" "South") eq_refl eq_refl eq_refl _)).
  intros v Hv. discriminate Hv.
Defined.

(** ** The ORDER BY key is a total order *)

Section KeyOrder.

Lemma ascii_compare_refl c : Ascii.compare c c = Eq.
Proof. unfold Ascii.compare. apply N.compare_refl. Qed.

Lemma string_compare_refl s : String.compare s s = Eq.
Proof.
  induction s as [|c s IH]; simpl; [reflexivity|].
  now rewrite ascii_compare_refl.
Qed.

Lemma ascii_compare_lt_trans a b c :
  Ascii.compare a b = Lt -> Ascii.compare b c = Lt -> Ascii.compare a c = Lt.
Proof.
  unfold Ascii.compare. rewrite !N.compare_lt_iff. lia.
Qed.

Lemma string_compare_lt_trans s1 : forall s2 s3,
  String.compare s1 s2 = Lt -> String.compare s2 s3 = Lt ->
  String.compare s1 s3 = Lt.
Proof.
  induction s1 as [|a s1 IH]; intros [|b s2] [|c s3]; simpl;
    try discriminate; try reflexivity.
  destruct (Ascii.compare a b) eqn:Eab; try discriminate;
    destruct (Ascii.compare b c) eqn:Ebc; try discriminate; intros H1 H2.
  - apply Ascii.compare_eq_iff in Eab, Ebc. subst.
    rewrite ascii_compare_refl. eauto.
  - apply Ascii.compare_eq_iff in Eab. subst. now rewrite Ebc.
  - apply Ascii.compare_eq_iff in Ebc. subst. now rewrite Eab.
  - now rewrite (ascii_compare_lt_trans _ _ _ Eab Ebc).
Qed.

Lemma value_cmp_refl v : Sql.value_cmp v v = Eq.
Proof.
  destruct v as [q|t]; simpl; [|apply string_compare_refl].
  now apply Qcanon.Qceq_alt.
Qed.

Lemma value_cmp_antisym v1 v2 :
  Sql.value_cmp v1 v2 = CompOpp (Sql.value_cmp v2 v1).
Proof.
  destruct v1 as [p|s1], v2 as [q|s2]; simpl; try reflexivity.
  - unfold Qcanon.Qccompare. symmetry. apply QArith_base.Qcompare_antisym.
  - apply String.compare_antisym.
Qed.

Lemma value_cmp_eq v1 v2 : Sql.value_cmp v1 v2 = Eq -> v1 = v2.
Proof.
  destruct v1 as [p|s1], v2 as [q|s2]; simpl; try discriminate; intros H.
  - apply Qcanon.Qceq_alt in H. now subst.
  - apply String.compare_eq_iff in H. now subst.
Qed.

Lemma value_cmp_lt_trans v1 v2 v3 :
  Sql.value_cmp v1 v2 = Lt -> Sql.value_cmp v2 v3 = Lt ->
  Sql.value_cmp v1 v3 = Lt.
Proof.
  destruct v1 as [p|s1], v2 as [q|s2], v3 as [r|s3]; simpl;
    try discriminate; try reflexivity.
  - intros H1 H2. apply Qcanon.Qclt_alt.
    apply Qcanon.Qclt_alt in H1, H2. eapply Qcanon.Qclt_trans; eassumption.
  - apply string_compare_lt_trans.
Qed.

Lemma key_cmp_antisym k1 k2 : Sql.key_cmp k1 k2 = CompOpp (Sql.key_cmp k2 k1).
Proof.
  unfold Sql.key_cmp. rewrite (value_cmp_antisym (fst k2) (fst k1)).
  destruct (Sql.value_cmp (fst k1) (fst k2)); simpl; try reflexivity.
  apply value_cmp_antisym.
Qed.

Lemma key_cmp_eq k1 k2 : Sql.key_cmp k1 k2 = Eq -> k1 = k2.
Proof.
  unfold Sql.key_cmp. destruct k1 as [a1 b1], k2 as [a2 b2]. simpl.
  destruct (Sql.value_cmp a1 a2) eqn:E; try discriminate.
  intros H. apply value_cmp_eq in E, H. now subst.
Qed.

Lemma key_lt_trans k1 k2 k3 :
  Sql.key_lt k1 k2 = true -> Sql.key_lt k2 k3 = true -> Sql.key_lt k1 k3 = true.
Proof.
  unfold Sql.key_lt, Sql.key_cmp. destruct k1 as [a1 b1], k2 as [a2 b2], k3 as [a3 b3].
  cbn [fst snd].
  destruct (Sql.value_cmp a1 a2) eqn:E12; try discriminate;
    destruct (Sql.value_cmp a2 a3) eqn:E23; try discriminate; intros H1 H2.
  - apply value_cmp_eq in E12, E23. subst.
    rewrite value_cmp_refl.
    destruct (Sql.value_cmp b1 b2) eqn:F12; try discriminate.
    destruct (Sql.value_cmp b2 b3) eqn:F23; try discriminate.
    now rewrite (value_cmp_lt_trans _ _ _ F12 F23).
  - apply value_cmp_eq in E12. subst. now rewrite E23.
  - apply value_cmp_eq in E23. subst. now rewrite E12.
  - now rewrite (value_cmp_lt_trans _ _ _ E12 E23).
Qed.

(** What is not above [k1] is below whatever is above [k1]. *)
Lemma key_lt_below k1 k2 k3 :
  Sql.key_lt k1 k2 = false -> Sql.key_lt k1 k3 = true -> Sql.key_lt k2 k3 = true.
Proof.
  intros H12 H13. unfold Sql.key_lt in H12.
  destruct (Sql.key_cmp k1 k2) eqn:E; try discriminate.
  - apply key_cmp_eq in E. now subst.
  - apply (key_lt_trans k2 k1 k3); [|assumption].
    unfold Sql.key_lt. rewrite key_cmp_antisym, E. reflexivity.
Qed.

End KeyOrder.

(** ** The first row of the descending order *)

Section FirstDesc.

Lemma fold_pick_some rows : forall b w,
  fold_left Sql.pick rows (Some b) = Some w ->
  (w = b /\ forall r, In r rows -> Sql.key_lt (Sql.key b) (Sql.key r) = false)
  \/ (Sql.key_lt (Sql.key b) (Sql.key w) = true /\ first_max rows w).
Proof.
  induction rows as [|r rows IH]; intros b w H; simpl in H.
  - left. split; [congruence|intros ? []].
  - destruct (Sql.key_lt (Sql.key b) (Sql.key r)) eqn:Ebr.
    + right. destruct (IH _ _ H) as [[-> Hub]|(Hrw & l1 & l2 & -> & H1 & H2)].
      * split; [assumption|]. exists [], rows. repeat split; [intros ? []|exact Hub].
      * split; [now apply (key_lt_trans _ _ _ Ebr)|].
        exists (r :: l1), l2. repeat split; [|exact H2].
        intros x [<-|Hx]; [assumption|now apply H1].
    + destruct (IH _ _ H) as [[-> Hub]|(Hbw & l1 & l2 & -> & H1 & H2)].
      * left. split; [reflexivity|]. intros x [<-|Hx]; [assumption|now apply Hub].
      * right. split; [assumption|].
        exists (r :: l1), l2. repeat split; [|exact H2].
        intros x [<-|Hx]; [now apply (key_lt_below _ _ _ Ebr)|now apply H1].
Qed.

Lemma first_desc_first_max rows w :
  Sql.first_desc rows = Some w -> first_max rows w.
Proof.
  unfold Sql.first_desc. destruct rows as [|r rows]; simpl; [discriminate|].
  intros H. destruct (fold_pick_some _ _ _ H) as [[-> Hub]|(Hrw & l1 & l2 & -> & H1 & H2)].
  - exists [], rows. repeat split; [intros ? []|exact Hub].
  - exists (r :: l1), l2. repeat split; [|exact H2].
    intros x [<-|Hx]; [assumption|now apply H1].
Qed.

Lemma fold_pick_keeps l2 : forall w,
  (forall r, In r l2 -> Sql.key_lt (Sql.key w) (Sql.key r) = false) ->
  fold_left Sql.pick l2 (Some w) = Some w.
Proof.
  induction l2 as [|r l2 IH]; intros w H; simpl; [reflexivity|].
  rewrite (H r (or_introl eq_refl)). apply IH. intros x Hx. apply H. now right.
Qed.

Lemma fold_pick_from l1 : forall acc,
  exists b, fold_left Sql.pick l1 acc = b
            /\ (b = acc \/ exists x, In x l1 /\ b = Some x).
Proof.
  induction l1 as [|r l1 IH]; intros acc; simpl; [eauto|].
  destruct (IH (Sql.pick acc r)) as (b & Hb & [->|(x & Hx & ->)]).
  - exists (Sql.pick acc r). split; [assumption|].
    destruct acc as [a|]; simpl; [|right; exists r; auto].
    destruct (Sql.key_lt _ _); [right; exists r; auto|now left].
  - eexists. split; [eassumption|]. right. exists x. auto.
Qed.

Lemma first_max_first_desc rows w :
  first_max rows w -> Sql.first_desc rows = Some w.
Proof.
  intros (l1 & l2 & -> & H1 & H2). unfold Sql.first_desc.
  rewrite fold_left_app. simpl.
  destruct (fold_pick_from l1 None) as (b & -> & [->|(x & Hx & ->)]); simpl.
  - now apply fold_pick_keeps.
  - rewrite (H1 x Hx). now apply fold_pick_keeps.
Qed.

Lemma first_desc_in rows w : Sql.first_desc rows = Some w -> In w rows.
Proof.
  intros H. apply first_desc_first_max in H as (l1 & l2 & -> & _).
  apply in_or_app. right. now left.
Qed.

Lemma first_desc_none rows : Sql.first_desc rows = None -> rows = [].
Proof.
  unfold Sql.first_desc. destruct rows as [|r rows]; [reflexivity|]. simpl.
  destruct (fold_pick_from rows (Some r)) as (b & -> & [->|(x & _ & ->)]);
    discriminate.
Qed.

(** Rows other than the first one can go without changing the first one. *)
Lemma first_desc_filter keep rows w :
  Sql.first_desc rows = Some w -> keep w = true ->
  Sql.first_desc (filter keep rows) = Some w.
Proof.
  intros H Hk. apply first_desc_first_max in H as (l1 & l2 & -> & H1 & H2).
  apply first_max_first_desc. exists (filter keep l1), (filter keep l2).
  rewrite filter_app. simpl. rewrite Hk. repeat split.
  - intros r Hr. apply filter_In in Hr as [Hr _]. now apply H1.
  - intros r Hr. apply filter_In in Hr as [Hr _]. now apply H2.
Qed.

(** A row above all the others, put last, comes first. *)
Lemma first_desc_snoc rows a :
  (forall r, In r rows -> Sql.key_lt (Sql.key r) (Sql.key a) = true) ->
  Sql.first_desc (rows ++ [a])%list = Some a.
Proof.
  intros H. apply first_max_first_desc. exists rows, [].
  repeat split; [assumption|intros ? []].
Qed.

(** A change of the rows that keeps every key commutes with the choice. *)
Lemma first_desc_map g rows :
  (forall r, In r rows -> Sql.key (g r) = Sql.key r) ->
  Sql.first_desc (map g rows) = option_map g (Sql.first_desc rows).
Proof.
  intros Hg. destruct (Sql.first_desc rows) as [w|] eqn:E; simpl.
  - apply first_desc_first_max in E as (l1 & l2 & -> & H1 & H2).
    apply first_max_first_desc. exists (map g l1), (map g l2).
    rewrite map_app. simpl. repeat split.
    + intros r Hr. apply in_map_iff in Hr as (r0 & <- & Hr0).
      rewrite !Hg; [now apply H1| |]; apply in_or_app; [right; now left|now left].
    + intros r Hr. apply in_map_iff in Hr as (r0 & <- & Hr0).
      rewrite !Hg; [now apply H2| |]; apply in_or_app; right; [now right|now left].
  - apply first_desc_none in E. now subst.
Qed.

End FirstDesc.

(** ** The history of an employee under the three table changes *)

Section History.

Lemma NoDup_map_eq {A B} (f : A -> B) (l : list A) x y :
  NoDup (map f l) -> In x l -> In y l -> f x = f y -> x = y.
Proof.
  induction l as [|a l IH]; simpl; intros Hnd Hx Hy Hf; [destruct Hx|].
  inversion Hnd as [|? ? Hnotin Hnd']; subst.
  destruct Hx as [->|Hx], Hy as [->|Hy]; auto.
  - exfalso. apply Hnotin. rewrite Hf. now apply in_map.
  - exfalso. apply Hnotin. rewrite <- Hf. now apply in_map.
Qed.

Lemma filter_comm {A} (f g : A -> bool) (l : list A) :
  filter f (filter g l) = filter g (filter f l).
Proof.
  induction l as [|a l IH]; simpl; [reflexivity|].
  destruct (f a) eqn:Ef, (g a) eqn:Eg; simpl; rewrite ?Ef, ?Eg, IH; reflexivity.
Qed.

Lemma filter_map_in {A} (f : A -> bool) (g : A -> A) (l : list A) :
  (forall x, In x l -> f (g x) = f x) ->
  filter f (map g l) = map g (filter f l).
Proof.
  induction l as [|a l IH]; simpl; intros H; [reflexivity|].
  rewrite (H a (or_introl eq_refl)), IH by (intros; apply H; now right).
  now destruct (f a).
Qed.

Lemma latest_insert_self a db :
  later_than_history (Assignment.numEmp a) (Sql.key a) db ->
  Sql.latest_assignment (Assignment.numEmp a) (inserted a db) = Some a.
Proof.
  intros H. unfold Sql.latest_assignment, inserted. cbn [AFFECTER].
  rewrite filter_app. simpl. rewrite String.eqb_refl.
  apply first_desc_snoc. intros r Hr. apply filter_In in Hr as [Hr Hn].
  apply String.eqb_eq in Hn. now apply H.
Qed.

Lemma latest_insert_other a db n :
  Assignment.numEmp a <> n ->
  Sql.latest_assignment n (inserted a db) = Sql.latest_assignment n db.
Proof.
  intros H. unfold Sql.latest_assignment, inserted. cbn [AFFECTER].
  rewrite filter_app. simpl.
  destruct (String.eqb_spec (Assignment.numEmp a) n); [contradiction|].
  now rewrite app_nil_r.
Qed.

Lemma latest_delete_other db id x n :
  keyed db -> In x (AFFECTER db) -> Assignment.numAffect x = id ->
  Assignment.numEmp x <> n ->
  filter (fun a => String.eqb (Assignment.numEmp a) n)
         (Sql.affecter_delete id (AFFECTER db))
  = filter (fun a => String.eqb (Assignment.numEmp a) n) (AFFECTER db).
Proof.
  intros Hk Hx Hid Hn. unfold Sql.affecter_delete. rewrite filter_comm.
  apply forallb_filter_id, forallb_forall. intros r Hr.
  apply filter_In in Hr as [Hr He]. apply String.eqb_eq in He.
  destruct (String.eqb_spec (Assignment.numAffect r) id) as [E|_]; [|reflexivity].
  exfalso. apply Hn. rewrite <- He. f_equal.
  apply (NoDup_map_eq Assignment.numAffect (AFFECTER db) x r Hk Hx Hr).
  congruence.
Qed.

Lemma latest_delete_kept db id n l :
  Sql.latest_assignment n db = Some l -> Assignment.numAffect l <> id ->
  Sql.first_desc
    (filter (fun a => String.eqb (Assignment.numEmp a) n)
            (Sql.affecter_delete id (AFFECTER db)))
  = Some l.
Proof.
  intros Hl Hid. unfold Sql.affecter_delete. rewrite filter_comm.
  apply first_desc_filter; [exact Hl|].
  now destruct (String.eqb_spec (Assignment.numAffect l) id).
Qed.

Lemma keyed_delete db id :
  keyed db -> NoDup (map Assignment.numAffect (Sql.affecter_delete id (AFFECTER db))).
Proof.
  unfold keyed, Sql.affecter_delete.
  induction (AFFECTER db) as [|r rows IH]; simpl; intros H; [constructor|].
  inversion H as [|? ? Hnotin Hnd]; subst.
  destruct (negb _); [|now apply IH].
  simpl. constructor; [|now apply IH].
  intros Hin. apply Hnotin. apply in_map_iff in Hin as (y & Hy & Hin).
  apply filter_In in Hin as [Hin _]. rewrite <- Hy. now apply in_map.
Qed.

Lemma keyed_insert a db :
  keyed db -> id_in_use (Assignment.numAffect a) db = false ->
  keyed (inserted a db).
Proof.
  unfold keyed, inserted, id_in_use. cbn [AFFECTER]. intros Hk Hid.
  rewrite map_app. simpl.
  apply NoDup_app; [assumption|repeat constructor; intros []|].
  intros i Hi [<-|[]].
  apply in_map_iff in Hi as (r & Hr & Hin).
  assert (E : existsb (fun a' => String.eqb (Assignment.numAffect a')
                                            (Assignment.numAffect a))
                      (AFFECTER db) = true).
  { apply existsb_exists. exists r. split; [assumption|]. now apply String.eqb_eq. }
  congruence.
Qed.

Lemma update_ids a id rows :
  map Assignment.numAffect (Sql.affecter_update a id rows)
  = map Assignment.numAffect rows.
Proof.
  unfold Sql.affecter_update. rewrite map_map. apply map_ext.
  intros r. now destruct (String.eqb _ id).
Qed.

(** Under the primary key the UPDATE changes the one row [x]; when the new
    values keep its employee and dates, every row keeps them and the first
    row of every history is the image of the former first row. *)
Lemma latest_update db id x a n :
  keyed db -> In x (AFFECTER db) -> Assignment.numAffect x = id ->
  Assignment.numEmp a = Assignment.numEmp x -> Sql.key a = Sql.key x ->
  Sql.first_desc
    (filter (fun r => String.eqb (Assignment.numEmp r) n)
            (Sql.affecter_update a id (AFFECTER db)))
  = option_map
      (fun r => if String.eqb (Assignment.numAffect r) id
                then Assignment.mk (Assignment.numAffect r)
                       (Assignment.numEmp a) (Assignment.AncienLieu a)
                       (Assignment.NouveauLieu a) (Assignment.dateAffect a)
                       (Assignment.datePriseService a)
                else r)
      (Sql.latest_assignment n db).
Proof.
  intros Hk Hx Hid Hemp Hkey.
  assert (Hsame : forall r, In r (AFFECTER db) ->
            Assignment.numAffect r = id -> r = x).
  { intros r Hr E.
    apply (NoDup_map_eq Assignment.numAffect (AFFECTER db) r x Hk Hr Hx).
    congruence. }
  unfold Sql.affecter_update, Sql.latest_assignment.
  rewrite filter_map_in.
  - apply first_desc_map. intros r Hr. apply filter_In in Hr as [Hr _].
    destruct (String.eqb_spec (Assignment.numAffect r) id) as [E|_]; [|reflexivity].
    rewrite (Hsame r Hr E), <- Hkey. reflexivity.
  - intros r Hr.
    destruct (String.eqb_spec (Assignment.numAffect r) id) as [E|_]; [|reflexivity].
    cbn [Assignment.numEmp]. now rewrite (Hsame r Hr E), Hemp.
Qed.

Lemma latest_in n db l :
  Sql.latest_assignment n db = Some l ->
  In l (AFFECTER db) /\ Assignment.numEmp l = n.
Proof.
  intros H. apply first_desc_in, filter_In in H as [Hin He].
  split; [assumption|now apply String.eqb_eq].
Qed.

Lemma latest_some n db x :
  In x (AFFECTER db) -> Assignment.numEmp x = n ->
  exists l, Sql.latest_assignment n db = Some l.
Proof.
  intros Hx Hn. destruct (Sql.latest_assignment n db) as [l|] eqn:E; [eauto|].
  apply first_desc_none in E.
  assert (H : In x (filter (fun a => String.eqb (Assignment.numEmp a) n)
                           (AFFECTER db))).
  { apply filter_In. split; [assumption|now apply String.eqb_eq]. }
  rewrite E in H. destruct H.
Qed.

(** The row that the ORDER BY query returns first belongs to the employee
    and no row of the employee has a greater key. *)
Lemma latest_is_maximum n db l :
  Sql.latest_assignment n db = Some l ->
  In l (AFFECTER db) /\ Assignment.numEmp l = n
  /\ forall r, In r (AFFECTER db) -> Assignment.numEmp r = n ->
       Sql.key_lt (Sql.key l) (Sql.key r) = false.
Proof.
  intros H. destruct (latest_in _ _ _ H) as [Hin Hn].
  split; [assumption|]. split; [assumption|].
  intros r Hr Hrn.
  apply first_desc_first_max in H as (l1 & l2 & E & H1 & H2).
  assert (Hf : In r (filter (fun a => String.eqb (Assignment.numEmp a) n)
                            (AFFECTER db))).
  { apply filter_In. split; [assumption|now apply String.eqb_eq]. }
  rewrite E in Hf. apply in_app_or in Hf as [Hf|[<-|Hf]].
  - specialize (H1 r Hf).
    destruct (Sql.key_lt (Sql.key l) (Sql.key r)) eqn:E2; [|reflexivity].
    pose proof (key_lt_trans _ _ _ H1 E2) as Hrr.
    unfold Sql.key_lt, Sql.key_cmp in Hrr.
    rewrite !value_cmp_refl in Hrr. discriminate.
  - unfold Sql.key_lt, Sql.key_cmp. now rewrite !value_cmp_refl.
  - now apply H2.
Qed.

Lemma employe_set_idlieu_in v n rows e :
  In e (Sql.employe_set_idlieu v n rows) ->
  exists e0, In e0 rows
    /\ Employee.numEmp e = Employee.numEmp e0
    /\ ((Employee.numEmp e0 = n /\ Employee.idlieu e = v)
        \/ (Employee.numEmp e0 <> n /\ e = e0)).
Proof.
  unfold Sql.employe_set_idlieu. intros H.
  apply in_map_iff in H as (e0 & He & Hin). exists e0. split; [assumption|].
  destruct (String.eqb_spec (Employee.numEmp e0) n) as [E|E]; subst e;
    (split; [reflexivity|]); [left|right]; auto.
Qed.

(** Insert and propagate, for a row dated after the history of its
    employee. *)
Lemma synced_inserted T a db :
  keyed db -> synced T db ->
  id_in_use (Assignment.numAffect a) db = false ->
  later_than_history (Assignment.numEmp a) (Sql.key a) db ->
  keyed (inserted a db) /\ synced T (inserted a db).
Proof.
  intros Hk Hs Hid Hlater. split; [now apply keyed_insert|].
  intros e He Hcond. unfold inserted in He. cbn [EMPLOYE] in He.
  apply employe_set_idlieu_in in He
    as (e0 & He0 & Hn & [[Heq Hv]|[Hne ->]]).
  - unfold in_sync. rewrite Hn, Heq, latest_insert_self by assumption.
    exact Hv.
  - unfold in_sync in *.
    rewrite latest_insert_other in * by congruence.
    now apply Hs.
Qed.

(** Delete and recompute. *)
Lemma synced_deleted T id x db :
  keyed db -> synced T db ->
  In x (AFFECTER db) -> Assignment.numAffect x = id ->
  keyed (deleted id (Assignment.numEmp x) db)
  /\ synced T (deleted id (Assignment.numEmp x) db).
Proof.
  intros Hk Hs Hx Hid.
  assert (Hother : forall n, Assignment.numEmp x <> n ->
            forall es, Sql.latest_assignment n
                         (mkDB (LIEU db) es (Sql.affecter_delete id (AFFECTER db)))
                       = Sql.latest_assignment n db).
  { intros n Hn es. unfold Sql.latest_assignment. cbn [AFFECTER].
    now rewrite (latest_delete_other db id x n). }
  unfold deleted, is_latest.
  destruct (latest_some (Assignment.numEmp x) db x Hx eq_refl) as [l Hl].
  rewrite Hl.
  destruct (String.eqb_spec (Assignment.numAffect l) id) as [El|El]; cbn [AFFECTER].
  - split; [now apply keyed_delete|].
    intros e He Hcond. cbn [EMPLOYE] in He.
    apply employe_set_idlieu_in in He
      as (e0 & He0 & Hn & [[Heq Hv]|[Hne ->]]).
    + unfold in_sync. rewrite Hn, Heq. exact Hv.
    + unfold in_sync in *. rewrite Hother in * by congruence. now apply Hs.
  - split; [now apply keyed_delete|].
    intros e He Hcond. cbn [EMPLOYE] in He. unfold in_sync in *.
    destruct (string_dec (Assignment.numEmp x) (Employee.numEmp e)) as [E|E].
    + assert (Hafter : Sql.latest_assignment (Employee.numEmp e)
                (mkDB (LIEU db) (EMPLOYE db) (Sql.affecter_delete id (AFFECTER db)))
              = Some l).
      { rewrite <- E. now apply latest_delete_kept. }
      rewrite Hafter. rewrite (Hs e He).
      * now rewrite <- E, Hl.
      * right. rewrite <- E, Hl. discriminate.
    + rewrite Hother in * by assumption. now apply Hs.
Qed.

(** An edit that keeps the employee and the dates keeps the rank. *)
Lemma keeps_dates_keeps_rank db id x a :
  keyed db -> In x (AFFECTER db) -> Assignment.numAffect x = id ->
  Assignment.numEmp a = Assignment.numEmp x -> Sql.key a = Sql.key x ->
  is_latest id (Assignment.numEmp x) (updated id a db)
  = is_latest id (Assignment.numEmp x) db.
Proof.
  intros Hk Hx Hid Hemp Hkey. unfold is_latest, updated.
  unfold Sql.latest_assignment at 1. cbn [AFFECTER].
  rewrite (latest_update db id x a _ Hk Hx Hid Hemp Hkey).
  destruct (Sql.latest_assignment (Assignment.numEmp x) db) as [l|];
    [|reflexivity].
  cbn [option_map].
  destruct (String.eqb (Assignment.numAffect l) id) eqn:E;
    cbn [Assignment.numAffect]; exact E.
Qed.

(** Update and propagate, for an edit that keeps the employee of the row
    and the rank of the row in that employee's history. *)
Lemma synced_updated T id x a db :
  keyed db -> synced T db ->
  In x (AFFECTER db) -> Assignment.numAffect x = id ->
  Assignment.numEmp a = Assignment.numEmp x ->
  is_latest id (Assignment.numEmp x) (updated id a db)
  = is_latest id (Assignment.numEmp x) db ->
  keyed (updated id a db) /\ synced T (updated id a db).
Proof.
  intros Hk Hs Hx Hid Hemp Hrank.
  set (g := fun r => if String.eqb (Assignment.numAffect r) id
                     then Assignment.mk (Assignment.numAffect r)
                            (Assignment.numEmp a) (Assignment.AncienLieu a)
                            (Assignment.NouveauLieu a) (Assignment.dateAffect a)
                            (Assignment.datePriseService a)
                     else r).
  set (n := Assignment.numEmp x) in *.
  assert (Hrows : Sql.affecter_update a id (AFFECTER db) = map g (AFFECTER db))
    by reflexivity.
  assert (Hsame : forall r, In r (AFFECTER db) ->
            Assignment.numAffect r = id -> r = x).
  { intros r Hr E.
    apply (NoDup_map_eq Assignment.numAffect (AFFECTER db) r x Hk Hr Hx).
    congruence. }
  assert (Hgid : forall r, Assignment.numAffect (g r) = Assignment.numAffect r).
  { intros r. unfold g. now destruct (String.eqb _ id). }
  assert (Hgemp : forall r, In r (AFFECTER db) ->
            Assignment.numEmp (g r) = Assignment.numEmp r).
  { intros r Hr. unfold g.
    destruct (String.eqb_spec (Assignment.numAffect r) id) as [E|_]; [|reflexivity].
    cbn [Assignment.numEmp]. now rewrite (Hsame r Hr E), Hemp. }
  assert (Hgnl : forall r, Assignment.numAffect r = id ->
            Assignment.NouveauLieu (g r) = Assignment.NouveauLieu a).
  { intros r E. unfold g. now rewrite E, String.eqb_refl. }
  assert (Hhist : forall m es,
            Sql.latest_assignment m (mkDB (LIEU db) es (map g (AFFECTER db)))
            = Sql.first_desc
                (map g (filter (fun r => String.eqb (Assignment.numEmp r) m)
                               (AFFECTER db)))).
  { intros m es. unfold Sql.latest_assignment. cbn [AFFECTER].
    rewrite filter_map_in; [reflexivity|].
    intros r Hr. now rewrite Hgemp. }
  assert (Hother : forall m es, m <> n ->
            Sql.latest_assignment m (mkDB (LIEU db) es (map g (AFFECTER db)))
            = Sql.latest_assignment m db).
  { intros m es Hm. rewrite Hhist. unfold Sql.latest_assignment. f_equal.
    rewrite <- (map_id (filter _ (AFFECTER db))) at 2.
    apply map_ext_in. intros r Hr. apply filter_In in Hr as [Hr He].
    apply String.eqb_eq in He. unfold g.
    destruct (String.eqb_spec (Assignment.numAffect r) id) as [E|_]; [|reflexivity].
    exfalso. apply Hm. rewrite <- He. now rewrite (Hsame r Hr E). }
  destruct (latest_some n db x Hx eq_refl) as [l Hl].
  destruct (latest_in _ _ _ Hl) as [Hlin Hln].
  assert (Hafter : exists l', forall es,
            Sql.latest_assignment n (mkDB (LIEU db) es (map g (AFFECTER db)))
            = Some l').
  { destruct (Sql.first_desc
                (map g (filter (fun r => String.eqb (Assignment.numEmp r) n)
                               (AFFECTER db)))) as [l'|] eqn:E.
    - exists l'. intros es. now rewrite Hhist.
    - apply first_desc_none in E.
      assert (Hin : In x (filter (fun r => String.eqb (Assignment.numEmp r) n)
                                 (AFFECTER db))).
      { apply filter_In. split; [assumption|apply String.eqb_refl]. }
      apply (in_map g) in Hin. rewrite E in Hin. destruct Hin. }
  destruct Hafter as [l' Hl'].
  assert (Hl'in : exists r, In r (AFFECTER db) /\ l' = g r).
  { specialize (Hl' (EMPLOYE db)). apply latest_in in Hl' as [Hin _].
    cbn [AFFECTER] in Hin. apply in_map_iff in Hin as (r & <- & Hr). eauto. }
  unfold is_latest, updated in Hrank. rewrite Hrows in Hrank.
  rewrite Hl', Hl in Hrank.
  split; [unfold keyed, updated; cbn [AFFECTER]; now rewrite update_ids|].
  unfold updated, update_propagates. rewrite Hrows, Hemp. fold n. rewrite Hl.
  destruct (String.eqb_spec (Assignment.numAffect l) id) as [El|El]; cbn [andb].
  - (* the row was first, and is first after the edit *)
    pose proof (Hsame l Hlin El) as ->.
    apply String.eqb_eq in Hrank.
    assert (Hnl : Assignment.NouveauLieu l' = Assignment.NouveauLieu a).
    { destruct Hl'in as (r & Hr & ->). apply Hgnl. now rewrite <- Hgid. }
    destruct (String.eqb_spec (Assignment.NouveauLieu x) (Assignment.NouveauLieu a))
      as [Enl|Enl]; cbn [negb].
    + intros e He Hcond. cbn [EMPLOYE] in He. unfold in_sync in *.
      destruct (string_dec (Employee.numEmp e) n) as [E|E].
      * rewrite E, Hl'. cbn [option_map]. rewrite Hnl, <- Enl.
        rewrite (Hs e He) by (right; rewrite E, Hl; discriminate).
        now rewrite E, Hl.
      * rewrite Hother in * by assumption. now apply Hs.
    + intros e He Hcond. cbn [EMPLOYE] in He.
      apply employe_set_idlieu_in in He
        as (e0 & He0 & Hn & [[Heq Hv]|[Hne ->]]).
      * unfold in_sync. rewrite Hn, Heq, Hl'. cbn [option_map]. now rewrite Hnl.
      * unfold in_sync in *. rewrite Hother in * by assumption. now apply Hs.
  - (* the row was not first, and is not first after the edit *)
    assert (El' : Assignment.numAffect l' <> id) by now apply String.eqb_neq.
    assert (Heq : l' = l).
    { set (keep := fun r => negb (String.eqb (Assignment.numAffect r) id)).
      assert (Hk1 : Sql.first_desc
                (filter keep (filter (fun r => String.eqb (Assignment.numEmp r) n)
                                     (AFFECTER db))) = Some l).
      { apply first_desc_filter; [exact Hl|]. unfold keep.
        now destruct (String.eqb_spec (Assignment.numAffect l) id). }
      assert (Hk2 : Sql.first_desc
                (filter keep
                   (map g (filter (fun r => String.eqb (Assignment.numEmp r) n)
                                  (AFFECTER db)))) = Some l').
      { apply first_desc_filter.
        - rewrite <- Hhist with (es := EMPLOYE db). apply Hl'.
        - unfold keep.
          now destruct (String.eqb_spec (Assignment.numAffect l') id). }
      assert (Hsub : forall rows,
                filter keep (map g rows) = filter keep rows).
      { induction rows as [|r rows IH]; simpl; [reflexivity|].
        rewrite IH.
        replace (keep (g r)) with (keep r) by (unfold keep; now rewrite Hgid).
        destruct (keep r) eqn:Ek; [|reflexivity].
        f_equal. unfold keep in Ek. unfold g.
        destruct (String.eqb (Assignment.numAffect r) id);
          [discriminate Ek|reflexivity]. }
      rewrite Hsub in Hk2. congruence. }
    subst l'.
    intros e He Hcond. cbn [EMPLOYE] in He. unfold in_sync in *.
    destruct (string_dec (Employee.numEmp e) n) as [E|E].
    + rewrite E, Hl'. rewrite (Hs e He) by (right; rewrite E, Hl; discriminate).
      now rewrite E, Hl.
    + rewrite Hother in * by assumption. now apply Hs.
Qed.

End History.

(** ** Moving a row to another employee *)

(** C3 at its failing input: E1 has the rows A0 (to L1, 2023) and A1 (to
    L2, 2024) and is at L2. The update that gives A1 to E2 succeeds; the
    remaining history of E1 is A0, whose destination is L1, and E1 is still
    at L2, on the controller path and on the path of [Database] alike. *)
Theorem update_moves_row_previous_employee_kept :
  let today := PyDate.mk 2024 6 1 in
  let e1 := Employee.mk "E1" "Mr" "Rabe" "Paul" "paul@example.com" "Analyst"
                        (Some "L2") in
  let a0 := Assignment.mk "A0" "E1" "L3" "L1" "2023-05-01" "2023-05-10" in
  let r := AssignmentController.update today "A1" [("numEmp", "E2")]
             (connect move_db) in
  let r' := Database.update_assignment "A1" "E2" "L1" "L2" "2024-01-10" "2024-01-15"
              (connect move_db) in
  in_sync move_db e1
  /\ (fst r = Ok (true, "Assignment updated successfully!")
      /\ Sql.latest_assignment "E1" (committed (snd r)) = Some a0
      /\ Sql.find_employee "E1" (committed (snd r)) = Some e1
      /\ ~ in_sync (committed (snd r)) e1)
  /\ (fst r' = Ok (true, "Assignment updated successfully!")
      /\ Sql.latest_assignment "E1" (committed (snd r')) = Some a0
      /\ Sql.find_employee "E1" (committed (snd r')) = Some e1
      /\ ~ in_sync (committed (snd r')) e1).
Proof.
  cbv zeta. repeat split; try (unfold in_sync; vm_compute; discriminate).
Qed.

(** ** Connections stay without an open transaction *)

(** The location and employee operations, like those of the assignment
    controller, return with no transaction left open, which is what the
    statements above assume of the connection they start from. *)
Lemma location_delete_closed db location_id :
  exists r db', LocationController.delete location_id (connect db) = (Ok r, connect db').
Proof.
  remember (LocationController.delete location_id (connect db)) as res eqn:Hr.
  unfold LocationController.delete, LocationController.get_by_id, Location_get in Hr.
  run_m.
  destruct (Sql.find_location location_id db) as [l|] eqn:Hl; norm_m;
    [|subst res; eauto].
  destruct (Nat.ltb 0 (Sql.count_employees_at location_id db)); norm_m;
    [subst res; eauto|].
  destruct (Nat.ltb 0 (Sql.count_assignments_at location_id db)); norm_m;
    [subst res; eauto|].
  unfold Sql.delete_lieu in Hr. run_m.
  destruct (Nat.eqb _ 0) eqn:Hc; norm_m; [|subst res; eauto].
  exfalso. apply Nat.eqb_eq in Hc.
  unfold Sql.find_location in Hl. apply find_some in Hl as [Hin Heq].
  pose proof (filter_length_pos
                (fun l' => String.eqb (Location.idlieu l') location_id)
                (LIEU db) l Hin Heq).
  lia.
Qed.

Lemma assign_location_closed db emp dest d1 d2 aid :
  exists r db',
    EmployeeController.assign_location emp dest d1 d2 aid (connect db)
    = (Ok r, connect db').
Proof.
  remember (EmployeeController.assign_location emp dest d1 d2 aid (connect db))
    as res eqn:Hr.
  unfold EmployeeController.assign_location, EmployeeController.get_by_id,
    Location_get, generate_assignment_id, Sql.insert_affecter,
    Sql.update_employe_idlieu in Hr.
  run_m.
  destruct (Sql.find_employee emp db) as [e|]; norm_m; [|subst res; eauto].
  destruct (Sql.find_location dest db) as [l|]; norm_m; [|subst res; eauto].
  destruct (match Employee.idlieu e with
            | Some l0 => String.eqb l0 dest
            | None => false
            end); [subst res; eauto|].
  destruct aid as [v|]; [destruct (Py.truthy v)|]; norm_m;
    match type of Hr with
    | context [existsb ?f ?l] => destruct (existsb f l)
    end; norm_m; subst res; eauto.
Qed.

(** ** The helpers of src/src/utils/helpers.py *)

Section HelperFacts.

Lemma helper_numbers_agree prefix ids :
  flat_map (fun id_str =>
      if Py.startswith id_str prefix
      then match Py.int (Py.drop (String.length prefix) id_str) with
           | Some num => [num]
           | None => []
           end
      else []) ids
  = BaseController.numbers_of prefix ids.
Proof.
  unfold BaseController.numbers_of.
  induction ids as [|id_str ids IH]; [reflexivity|].
  cbn [flat_map]. rewrite IH. f_equal.
  destruct id_str as [|c s]; [|reflexivity].
  cbn [Py.truthy andb]. unfold Py.startswith.
  destruct prefix as [|p ps]; reflexivity.
Qed.

Lemma contains_char_app c s t :
  Py.contains_char c (s ++ t) = Py.contains_char c s || Py.contains_char c t.
Proof.
  induction s as [|d s IH]; [reflexivity|].
  cbn [append Py.contains_char]. rewrite IH. apply orb_assoc.
Qed.

Lemma last_segment_split sep s :
  Py.contains_char sep s = true ->
  exists l d, s = l ++ String sep d
              /\ Py.contains_char sep d = false
              /\ Helpers.last_segment sep s = d.
Proof.
  induction s as [|c s IH]; [discriminate|].
  cbn [Py.contains_char Helpers.last_segment]. intros H.
  destruct (Py.contains_char sep s) eqn:Es.
  - destruct (IH eq_refl) as (l & d & -> & Hd & Hl).
    exists (String c l), d. repeat split; assumption.
  - rewrite orb_false_r in H. rewrite Ascii.eqb_sym in H. rewrite H.
    apply Ascii.eqb_eq in H. subst c.
    exists "", s. repeat split. assumption.
Qed.

Lemma last_segment_app sep l : forall d,
  Py.contains_char sep d = false ->
  Helpers.last_segment sep (l ++ String sep d) = d.
Proof.
  induction l as [|c l IH]; intros d Hd.
  - cbn [append Helpers.last_segment]. rewrite Hd, Ascii.eqb_refl. reflexivity.
  - cbn [append Helpers.last_segment].
    rewrite contains_char_app. cbn [Py.contains_char].
    rewrite Ascii.eqb_refl, orb_true_r. now apply IH.
Qed.

Lemma take_length n : forall s,
  String.length (Py.take n s) = Nat.min n (String.length s).
Proof.
  induction n as [|n IH]; intros [|c s]; cbn [Py.take String.length Nat.min];
    try reflexivity.
  now rewrite IH.
Qed.

Lemma take_prefix n : forall s, String.prefix (Py.take n s) s = true.
Proof.
  induction n as [|n IH]; intros [|c s]; cbn [Py.take String.prefix];
    try reflexivity.
  rewrite IH. destruct (ascii_dec c c); [reflexivity|congruence].
Qed.

Lemma append_length s t :
  String.length (s ++ t) = (String.length s + String.length t)%nat.
Proof. induction s as [|c s IH]; simpl; congruence. Qed.

End HelperFacts.

(** X1. The helper [get_next_id] and the controller method [_get_next_id]
    generate the same identifier for every prefix and every list of
    identifiers: the test for an empty identifier, which only the method
    has, never changes the numbers that are collected. *)
Theorem helpers_get_next_id_agrees (prefix : string) (existing_ids : list string) :
  Helpers.get_next_id prefix existing_ids
  = BaseController._get_next_id prefix existing_ids.
Proof.
  unfold Helpers.get_next_id, BaseController._get_next_id.
  now rewrite helper_numbers_agree.
Qed.

(** X2. [validate_email] accepts exactly the addresses that have an "@"
    whose last occurrence is followed by a text containing a dot. *)
Theorem validate_email_spec (email : string) :
  Helpers.validate_email email = true
  <-> exists local domain,
        email = local ++ String "@" domain
        /\ Py.contains_char "@" domain = false
        /\ Py.contains_char "." domain = true.
Proof.
  unfold Helpers.validate_email. split.
  - intros H. apply andb_prop in H as [_ H]. apply andb_prop in H as [Hat Hdot].
    destruct (last_segment_split "@" email Hat) as (l & d & -> & Hd & Hl).
    exists l, d. rewrite Hl in Hdot. auto.
  - intros (l & d & -> & Hd & Hdot).
    rewrite last_segment_app by assumption.
    rewrite contains_char_app. cbn [Py.contains_char].
    rewrite Ascii.eqb_refl, orb_true_r, Hdot.
    destruct l; reflexivity.
Qed.

(** X3. When the ellipsis is not longer than [max_length],
    [truncate_string] returns a text of at most [max_length] characters: the
    text itself when it is short enough, and otherwise a prefix of the text
    followed by the ellipsis, exactly [max_length] characters long. *)
Theorem truncate_string_length (text : string) (max_length : Z) (ellipsis : string) :
  Z.of_nat (String.length ellipsis) <= max_length ->
  let r := Helpers.truncate_string text max_length ellipsis in
  (Z.of_nat (String.length text) <= max_length -> r = text)
  /\ (max_length < Z.of_nat (String.length text) ->
      Z.of_nat (String.length r) = max_length
      /\ exists kept, r = kept ++ ellipsis /\ String.prefix kept text = true).
Proof.
  intros Hell r. subst r. unfold Helpers.truncate_string. split.
  - intros Hshort. apply Z.leb_le in Hshort. rewrite Hshort.
    now rewrite orb_true_r.
  - intros Hlong.
    assert (Hleb : (Z.of_nat (String.length text) <=? max_length) = false)
      by (apply Z.leb_gt; assumption).
    rewrite Hleb.
    destruct text as [|c text']; [cbn [String.length] in Hlong; lia|].
    cbn [Py.truthy negb orb]. set (text := String c text') in *.
    unfold Py.slice_to.
    assert (Hk : (max_length - Z.of_nat (String.length ellipsis) <? 0) = false)
      by (apply Z.ltb_ge; lia).
    rewrite Hk. split.
    + rewrite append_length, take_length. lia.
    + eexists. split; [reflexivity|apply take_prefix].
Qed.

Lemma truncate_string_length_witness :
  let r := Helpers.truncate_string "Antananarivo" 8 "..." in
  (Z.of_nat (String.length "Antananarivo") <= 8 -> r = "Antananarivo")
  /\ (8 < Z.of_nat (String.length "Antananarivo") ->
      Z.of_nat (String.length r) = 8
      /\ exists kept, r = kept ++ "..." /\ String.prefix kept "Antananarivo" = true).
Proof.
  apply (truncate_string_length "Antananarivo" 8 "..."). simpl. lia.
Defined.

(** ** Dates as the store holds them *)

Section DateFacts.

Lemma dash_match {X} (b n : X) c :
  match c with "-"%char => b | _ => n end = if Ascii.eqb c "-" then b else n.
Proof. destruct c as [[] [] [] [] [] [] [] []]; reflexivity. Qed.

Lemma parse_year_cons a b c d e rest :
  PyDate.parse_year (String a (String b (String c (String d (String e rest)))))
  = if Ascii.eqb e "-"
    then match PyDate.two_digits a b, PyDate.two_digits c d with
         | Some hi, Some lo => Some (100 * hi + lo, rest)
         | _, _ => None
         end
    else None.
Proof. unfold PyDate.parse_year. destruct e as [[] [] [] [] [] [] [] []]; reflexivity. Qed.

Lemma parse_month_cons c1 c2 rest :
  PyDate.parse_month (String c1 (String c2 rest))
  = if Ascii.eqb c2 "-"
    then match PyDate.one_digit c1 with
         | Some m => if 1 <=? m then Some (m, rest) else None
         | None => None
         end
    else match rest with
         | String c3 rest' =>
             if Ascii.eqb c3 "-"
             then match PyDate.two_digits c1 c2 with
                  | Some m => if (1 <=? m) && (m <=? 12) then Some (m, rest') else None
                  | None => None
                  end
             else None
         | EmptyString => None
         end.
Proof.
  unfold PyDate.parse_month.
  destruct c2 as [[] [] [] [] [] [] [] []]; try reflexivity;
    (destruct rest as [|c3 rest']; [reflexivity|];
     cbv beta iota; simpl (Ascii.eqb (Ascii _ _ _ _ _ _ _ _) _); cbv beta iota;
     apply dash_match).
Qed.

Lemma digit_val_range c : Py.is_digit c = true -> 0 <= Py.digit_val c <= 9.
Proof.
  unfold Py.is_digit, Py.digit_val. intros H.
  apply andb_prop in H as [H1 H2].
  apply Nat.leb_le in H1. apply Nat.leb_le in H2. lia.
Qed.

Lemma two_digits_some c1 c2 v :
  PyDate.two_digits c1 c2 = Some v ->
  Py.is_digit c1 = true /\ Py.is_digit c2 = true
  /\ v = 10 * Py.digit_val c1 + Py.digit_val c2.
Proof.
  unfold PyDate.two_digits.
  destruct (Py.is_digit c1), (Py.is_digit c2); cbn [andb]; intros H;
    inversion H; auto.
Qed.

Lemma one_digit_some c v :
  PyDate.one_digit c = Some v -> Py.is_digit c = true /\ v = Py.digit_val c.
Proof.
  unfold PyDate.one_digit. destruct (Py.is_digit c); intros H; inversion H; auto.
Qed.

Lemma parse_year_some s y rest :
  PyDate.parse_year s = Some (y, rest) ->
  exists a b c d,
    s = String a (String b (String c (String d (String "-" rest))))
    /\ Py.is_digit a = true /\ Py.is_digit b = true
    /\ Py.is_digit c = true /\ Py.is_digit d = true
    /\ y = 100 * (10 * Py.digit_val a + Py.digit_val b)
           + (10 * Py.digit_val c + Py.digit_val d).
Proof.
  destruct s as [|a [|b [|c [|d [|e r]]]]]; try discriminate.
  rewrite parse_year_cons.
  destruct (Ascii.eqb_spec e "-") as [->|_]; [|discriminate].
  destruct (PyDate.two_digits a b) as [hi|] eqn:Hhi; [|discriminate].
  destruct (PyDate.two_digits c d) as [lo|] eqn:Hlo; [|discriminate].
  intros E; inversion E; subst.
  apply two_digits_some in Hhi as (? & ? & ->).
  apply two_digits_some in Hlo as (? & ? & ->).
  exists a, b, c, d. auto 10.
Qed.

Lemma parse_month_some s m rest :
  PyDate.parse_month s = Some (m, rest) ->
  (exists c, s = String c (String "-" rest)
             /\ Py.is_digit c = true /\ m = Py.digit_val c /\ 1 <= m)
  \/ (exists c1 c2, s = String c1 (String c2 (String "-" rest))
                    /\ Py.is_digit c1 = true /\ Py.is_digit c2 = true
                    /\ m = 10 * Py.digit_val c1 + Py.digit_val c2
                    /\ 1 <= m <= 12).
Proof.
  destruct s as [|c1 [|c2 r]]; try discriminate.
  rewrite parse_month_cons.
  destruct (Ascii.eqb_spec c2 "-") as [->|_].
  - destruct (PyDate.one_digit c1) as [v|] eqn:Hv; [|discriminate].
    destruct (Z.leb_spec 1 v); [|discriminate].
    intros E; inversion E; subst. apply one_digit_some in Hv as [? ->].
    left. exists c1. auto.
  - destruct r as [|c3 r']; [discriminate|].
    destruct (Ascii.eqb_spec c3 "-") as [->|_]; [|discriminate].
    destruct (PyDate.two_digits c1 c2) as [v|] eqn:Hv; [|discriminate].
    destruct (Z.leb_spec 1 v); [|discriminate].
    destruct (Z.leb_spec v 12); [|discriminate].
    intros E; inversion E; subst. apply two_digits_some in Hv as (? & ? & ->).
    right. exists c1, c2. auto 10.
Qed.

Lemma parse_day_some s d :
  PyDate.parse_day s = Some d ->
  (exists c, (s = String c "" \/ s = String " " (String c ""))
             /\ Py.is_digit c = true /\ d = Py.digit_val c /\ 1 <= d)
  \/ (exists c1 c2, s = String c1 (String c2 "") /\ c1 <> " "%char
                    /\ Py.is_digit c1 = true /\ Py.is_digit c2 = true
                    /\ d = 10 * Py.digit_val c1 + Py.digit_val c2
                    /\ 1 <= d <= 31).
Proof.
  destruct s as [|c1 [|c2 [|c3 r]]]; try discriminate; cbn [PyDate.parse_day].
  - destruct (PyDate.one_digit c1) as [v|] eqn:Hv; [|discriminate].
    destruct (Z.leb_spec 1 v); [|discriminate].
    intros E; inversion E; subst. apply one_digit_some in Hv as [? ->].
    left. exists c1. auto.
  - destruct (Ascii.eqb_spec c1 " ") as [->|Hne].
    + destruct (PyDate.one_digit c2) as [v|] eqn:Hv; [|discriminate].
      destruct (Z.leb_spec 1 v); [|discriminate].
      intros E; inversion E; subst. apply one_digit_some in Hv as [? ->].
      left. exists c2. auto.
    + destruct (PyDate.two_digits c1 c2) as [v|] eqn:Hv; [|discriminate].
      destruct (Z.leb_spec 1 v); [|discriminate].
      destruct (Z.leb_spec v 31); [|discriminate].
      intros E; inversion E; subst. apply two_digits_some in Hv as (? & ? & ->).
      right. exists c1, c2. auto 10.
Qed.

Lemma strptime_some s d :
  PyDate.strptime s = Some d ->
  exists s1 s2,
    PyDate.parse_year s = Some (PyDate.year d, s1)
    /\ PyDate.parse_month s1 = Some (PyDate.month d, s2)
    /\ PyDate.parse_day s2 = Some (PyDate.day d)
    /\ 1 <= PyDate.year d
    /\ PyDate.day d <= PyDate.days_in_month (PyDate.year d) (PyDate.month d).
Proof.
  intros H. unfold PyDate.strptime in H.
  destruct (PyDate.parse_year s) as [[y s1]|] eqn:Hy; [|discriminate].
  destruct (PyDate.parse_month s1) as [[m s2]|] eqn:Hm; [|discriminate].
  destruct (PyDate.parse_day s2) as [dd|] eqn:Hd; [|discriminate].
  destruct (Z.leb_spec 1 y); [|discriminate].
  destruct (Z.leb_spec dd (PyDate.days_in_month y m)); [|discriminate].
  cbn [andb] in H. inversion H. subst. cbn [PyDate.year PyDate.month PyDate.day].
  exists s1, s2. repeat split; assumption.
Qed.

Lemma ascii_compare_digit a b :
  Ascii.compare a b = (Py.digit_val a ?= Py.digit_val b).
Proof.
  unfold Ascii.compare, Py.digit_val, nat_of_ascii.
  rewrite !N_nat_Z.
  destruct (N.compare_spec (N_of_ascii a) (N_of_ascii b)); symmetry;
    [apply Z.compare_eq_iff|apply Z.compare_lt_iff|apply Z.compare_gt_iff]; lia.
Qed.

Lemma padded_shape s d :
  PyDate.strptime s = Some d -> padded s = true ->
  exists y1 y2 y3 y4 m1 m2 e1 e2,
    s = String y1 (String y2 (String y3 (String y4 (String "-"
          (String m1 (String m2 (String "-" (String e1 (String e2 "")))))))))
    /\ (0 <= Py.digit_val y1 <= 9 /\ 0 <= Py.digit_val y2 <= 9
        /\ 0 <= Py.digit_val y3 <= 9 /\ 0 <= Py.digit_val y4 <= 9
        /\ 0 <= Py.digit_val m1 <= 9 /\ 0 <= Py.digit_val m2 <= 9
        /\ 0 <= Py.digit_val e1 <= 9 /\ 0 <= Py.digit_val e2 <= 9)
    /\ d = PyDate.mk (100 * (10 * Py.digit_val y1 + Py.digit_val y2)
                      + (10 * Py.digit_val y3 + Py.digit_val y4))
                     (10 * Py.digit_val m1 + Py.digit_val m2)
                     (10 * Py.digit_val e1 + Py.digit_val e2).
Proof.
  intros H Hp. apply strptime_some in H as (s1 & s2 & Hy & Hm & Hd & _ & _).
  apply parse_year_some in Hy as (y1 & y2 & y3 & y4 & -> & H1 & H2 & H3 & H4 & Hy).
  unfold padded in Hp. apply andb_prop in Hp as [Hlen Hsp].
  apply Nat.eqb_eq in Hlen. apply negb_true_iff in Hsp.
  apply parse_month_some in Hm
    as [(c & -> & _)|(m1 & m2 & -> & H5 & H6 & Hm & _)].
  - exfalso.
    apply parse_day_some in Hd
      as [(e & [->| ->] & _)|(e1 & e2 & -> & _)]; discriminate Hlen.
  - apply parse_day_some in Hd
      as [(e & [->| ->] & _)|(e1 & e2 & -> & _ & H7 & H8 & Hd & _)];
      [discriminate Hlen| |].
    + exfalso. cbn [Py.contains_char] in Hsp.
      rewrite Ascii.eqb_refl in Hsp. cbn [orb] in Hsp.
      repeat rewrite orb_true_r in Hsp. discriminate.
    + exists y1, y2, y3, y4, m1, m2, e1, e2.
      split; [reflexivity|].
      split; [repeat split; now apply digit_val_range|].
      destruct d as [y m dd]. cbn [PyDate.year PyDate.month PyDate.day] in *.
      congruence.
Qed.

Lemma padded_compare s1 s2 d1 d2 :
  PyDate.strptime s1 = Some d1 -> PyDate.strptime s2 = Some d2 ->
  padded s1 = true -> padded s2 = true ->
  String.compare s1 s2
  = match PyDate.year d1 ?= PyDate.year d2 with
    | Eq => match PyDate.month d1 ?= PyDate.month d2 with
            | Eq => PyDate.day d1 ?= PyDate.day d2
            | c => c
            end
    | c => c
    end.
Proof.
  intros H1 H2 P1 P2.
  destruct (padded_shape s1 d1 H1 P1)
    as (a1 & a2 & a3 & a4 & a5 & a6 & a7 & a8 & -> & Ra & ->).
  destruct (padded_shape s2 d2 H2 P2)
    as (b1 & b2 & b3 & b4 & b5 & b6 & b7 & b8 & -> & Rb & ->).
  cbn [String.compare PyDate.year PyDate.month PyDate.day].
  change (Ascii.compare "-" "-") with Eq.
  rewrite !ascii_compare_digit.
  repeat match goal with
         | |- context [?x ?= ?y] => destruct (Z.compare_spec x y)
         end; try reflexivity; exfalso; lia.
Qed.

Lemma date_compare_lt d1 d2 :
  match PyDate.year d1 ?= PyDate.year d2 with
  | Eq => match PyDate.month d1 ?= PyDate.month d2 with
          | Eq => PyDate.day d1 ?= PyDate.day d2
          | c => c
          end
  | c => c
  end = Lt <-> PyDate.ltb d1 d2 = true.
Proof.
  unfold PyDate.ltb.
  rewrite orb_true_iff, andb_true_iff, orb_true_iff, andb_true_iff,
    !Z.ltb_lt, !Z.eqb_eq.
  destruct (Z.compare_spec (PyDate.year d1) (PyDate.year d2));
    destruct (Z.compare_spec (PyDate.month d1) (PyDate.month d2));
    destruct (Z.compare_spec (PyDate.day d1) (PyDate.day d2));
    split; intros; try discriminate; try reflexivity; try lia.
Qed.

Lemma date_compare_eq d1 d2 :
  match PyDate.year d1 ?= PyDate.year d2 with
  | Eq => match PyDate.month d1 ?= PyDate.month d2 with
          | Eq => PyDate.day d1 ?= PyDate.day d2
          | c => c
          end
  | c => c
  end = Eq <-> d1 = d2.
Proof.
  destruct d1 as [y1 m1 e1], d2 as [y2 m2 e2].
  cbn [PyDate.year PyDate.month PyDate.day].
  destruct (Z.compare_spec y1 y2); destruct (Z.compare_spec m1 m2);
    destruct (Z.compare_spec e1 e2);
    split; intros E; try discriminate; try (inversion E; lia); congruence.
Qed.

(** A text that [strptime] accepts starts with four digits and a dash: it
    is no number, and the column stores it as it is. *)
Lemma digit_is_no_mark c :
  Py.is_digit c = true ->
  Sql.is_space c = false /\ Ascii.eqb c "-" = false /\ Ascii.eqb c "+" = false.
Proof.
  destruct c as [[] [] [] [] [] [] [] []]; intros H; vm_compute in H;
    try discriminate H; repeat split; reflexivity.
Qed.

Lemma numeric_year_dash a b c d rest :
  Py.is_digit a = true -> Py.is_digit b = true ->
  Py.is_digit c = true -> Py.is_digit d = true ->
  Sql.numeric (String a (String b (String c (String d (String "-" rest))))) = None.
Proof.
  intros Ha Hb Hc Hd.
  destruct (digit_is_no_mark a Ha) as (Hs & Hm & Hp).
  unfold Sql.numeric. cbn [Py.lstrip_by]. rewrite Hs.
  unfold Sql.read_sign. rewrite Hm, Hp.
  cbn [Sql.read_digits]. rewrite Ha, Hb, Hc, Hd.
  change (Py.is_digit "-") with false. cbv beta iota.
  change (Ascii.eqb "-" ".") with false. cbv beta iota.
  change (Ascii.eqb "-" "e" || Ascii.eqb "-" "E") with false. cbv beta iota.
  cbn [Py.lstrip_by]. change (Sql.is_space "-") with false. cbv beta iota.
  cbn [Py.truthy negb]. now rewrite andb_false_r.
Qed.

Lemma strptime_text s d : PyDate.strptime s = Some d -> Sql.stored s = Sql.Text s.
Proof.
  intros H. apply strptime_some in H as (s1 & s2 & Hy & _).
  apply parse_year_some in Hy as (a & b & c & d0 & -> & Ha & Hb & Hc & Hd & _).
  unfold Sql.stored. now rewrite numeric_year_dash.
Qed.

End DateFacts.

(** X4. Whatever text [strptime] accepts denotes a day of the calendar: a
    year from 1 to 9999, a month from 1 to 12 and a day that the month has
    in that year. *)
Theorem strptime_calendar_date (s : string) (d : PyDate.date) :
  PyDate.strptime s = Some d ->
  1 <= PyDate.year d <= 9999
  /\ 1 <= PyDate.month d <= 12
  /\ 1 <= PyDate.day d <= PyDate.days_in_month (PyDate.year d) (PyDate.month d)
  /\ PyDate.days_in_month (PyDate.year d) (PyDate.month d) <= 31.
Proof.
  intros H. apply strptime_some in H as (s1 & s2 & Hy & Hm & Hd & Hy1 & Hdm).
  apply parse_year_some in Hy as (a & b & c & e & _ & Ha & Hb & Hc & He & Hy).
  apply digit_val_range in Ha, Hb, Hc, He.
  assert (Hmr : 1 <= PyDate.month d <= 12).
  { apply parse_month_some in Hm as [(c1 & _ & H1 & -> & ?)|(c1 & c2 & _ & _ & _ & _ & ?)];
      [apply digit_val_range in H1; lia|assumption]. }
  assert (Hdr : 1 <= PyDate.day d).
  { apply parse_day_some in Hd as [(c1 & _ & _ & _ & ?)|(c1 & c2 & _ & _ & _ & _ & _ & ?)]; lia. }
  repeat split; try lia.
  unfold PyDate.days_in_month.
  repeat match goal with |- context [if ?b then _ else _] => destruct b end; lia.
Qed.

Lemma strptime_calendar_date_witness :
  let d := PyDate.mk 2024 2 29 in
  1 <= PyDate.year d <= 9999
  /\ 1 <= PyDate.month d <= 12
  /\ 1 <= PyDate.day d <= PyDate.days_in_month (PyDate.year d) (PyDate.month d)
  /\ PyDate.days_in_month (PyDate.year d) (PyDate.month d) <= 31.
Proof.
  apply (strptime_calendar_date "2024-02-29" (PyDate.mk 2024 2 29)). reflexivity.
Defined.

(** X5. For rows whose two dates are written with ten characters and no
    blank (YYYY-MM-DD with two digits for month and day), the order that
    ORDER BY uses, which is the order of texts on such dates, is the order
    of the calendar: the key of a row is
    below the key of another exactly when its assignment date is earlier,
    or the assignment dates are the same day and its service date is
    earlier. *)
Theorem padded_dates_sort_chronologically
    (a b : Assignment.t) (da sa da' sa' : PyDate.date) :
  padded (Assignment.dateAffect a) = true ->
  padded (Assignment.datePriseService a) = true ->
  padded (Assignment.dateAffect b) = true ->
  padded (Assignment.datePriseService b) = true ->
  PyDate.strptime (Assignment.dateAffect a) = Some da ->
  PyDate.strptime (Assignment.datePriseService a) = Some sa ->
  PyDate.strptime (Assignment.dateAffect b) = Some da' ->
  PyDate.strptime (Assignment.datePriseService b) = Some sa' ->
  Sql.key_lt (Sql.key a) (Sql.key b) = true
  <-> PyDate.ltb da da' = true \/ (da = da' /\ PyDate.ltb sa sa' = true).
Proof.
  intros P1 P2 P3 P4 H1 H2 H3 H4.
  unfold Sql.key_lt, Sql.key_cmp, Sql.key. cbn [fst snd].
  rewrite (strptime_text _ _ H1), (strptime_text _ _ H2),
    (strptime_text _ _ H3), (strptime_text _ _ H4).
  cbn [Sql.value_cmp].
  rewrite (padded_compare _ _ _ _ H1 H3 P1 P3).
  rewrite (padded_compare _ _ _ _ H2 H4 P2 P4).
  rewrite <- !date_compare_lt, <- date_compare_eq.
  destruct (match PyDate.year da ?= PyDate.year da' with
            | Eq => _ | c => c end);
    destruct (match PyDate.year sa ?= PyDate.year sa' with
              | Eq => _ | c => c end);
    split; intros E; try discriminate; try tauto;
    destruct E as [E|[E1 E2]]; discriminate.
Qed.

Lemma padded_dates_sort_chronologically_witness :
  Sql.key_lt (Sql.key (Assignment.mk "A001" "E001" "L1" "L2" "2023-09-15" "2023-10-01"))
             (Sql.key (Assignment.mk "A002" "E002" "L1" "L3" "2023-10-02" "2023-10-20"))
  = true
  <-> PyDate.ltb (PyDate.mk 2023 9 15) (PyDate.mk 2023 10 2) = true
      \/ (PyDate.mk 2023 9 15 = PyDate.mk 2023 10 2
          /\ PyDate.ltb (PyDate.mk 2023 10 1) (PyDate.mk 2023 10 20) = true).
Proof.
  apply (padded_dates_sort_chronologically
           (Assignment.mk "A001" "E001" "L1" "L2" "2023-09-15" "2023-10-01")
           (Assignment.mk "A002" "E002" "L1" "L3" "2023-10-02" "2023-10-20"));
    reflexivity.
Defined.

(** ** The current location along the history of the calendar *)

Section Chronology.

Lemma same_day_eq d d' : same_day d d' = true <-> d = d'.
Proof.
  unfold same_day. destruct d as [y m x], d' as [y' m' x'].
  cbn [PyDate.year PyDate.month PyDate.day]. split.
  - intros H. apply andb_prop in H as [H H3]. apply andb_prop in H as [H1 H2].
    apply Z.eqb_eq in H1, H2, H3. now subst.
  - intros E. inversion E. now rewrite !Z.eqb_refl.
Qed.

Lemma dated_days a :
  dated a ->
  exists d s,
    PyDate.strptime (Assignment.dateAffect a) = Some d
    /\ PyDate.strptime (Assignment.datePriseService a) = Some s
    /\ days a = Some (d, s).
Proof.
  intros (_ & _ & H). unfold days in *.
  destruct (PyDate.strptime (Assignment.dateAffect a)) as [d|]; [|congruence].
  destruct (PyDate.strptime (Assignment.datePriseService a)) as [s|];
    [|congruence].
  eauto.
Qed.

(** On dated rows the order of ORDER BY is the order of the calendar. *)
Lemma key_lt_earlier a b :
  dated a -> dated b -> Sql.key_lt (Sql.key a) (Sql.key b) = earlier a b.
Proof.
  intros Ha Hb.
  destruct (dated_days a Ha) as (da & sa & H1 & H2 & Da).
  destruct (dated_days b Hb) as (db' & sb & H3 & H4 & Db).
  destruct Ha as (P1 & P2 & _), Hb as (P3 & P4 & _).
  unfold earlier. rewrite Da, Db.
  unfold Sql.key_lt, Sql.key_cmp, Sql.key. cbn [fst snd].
  rewrite (strptime_text _ _ H1), (strptime_text _ _ H2),
    (strptime_text _ _ H3), (strptime_text _ _ H4).
  cbn [Sql.value_cmp].
  rewrite (padded_compare _ _ _ _ H1 H3 P1 P3).
  rewrite (padded_compare _ _ _ _ H2 H4 P2 P4).
  destruct (PyDate.ltb da db') eqn:L1.
  - apply date_compare_lt in L1. now rewrite L1.
  - destruct (same_day da db') eqn:S1; cbn [orb andb].
    + apply same_day_eq in S1 as E. apply date_compare_eq in E. rewrite E.
      destruct (PyDate.ltb sa sb) eqn:L2.
      * apply date_compare_lt in L2. now rewrite L2.
      * destruct (match PyDate.year sa ?= PyDate.year sb with
                  | Eq => _ | c => c end) eqn:C; try reflexivity.
        apply date_compare_lt in C. congruence.
    + destruct (match PyDate.year da ?= PyDate.year db' with
                | Eq => _ | c => c end) eqn:C; try reflexivity.
      * apply date_compare_eq, same_day_eq in C. congruence.
      * apply date_compare_lt in C. congruence.
Qed.

Section OneEmployee.

Variables (n : string) (rows : list Assignment.t).
Hypothesis rows_dated :
  forall r, In r rows -> Assignment.numEmp r = n -> dated r.

Let history := filter (fun a => String.eqb (Assignment.numEmp a) n) rows.

Lemma history_dated r : In r history -> dated r.
Proof.
  intros H. apply filter_In in H as [Hin Hn]. apply String.eqb_eq in Hn.
  now apply rows_dated.
Qed.

Lemma latest_row_first_max w : latest_row n rows w <-> first_max history w.
Proof.
  unfold latest_row, first_max. fold history.
  split; intros (l1 & l2 & E & H1 & H2); exists l1, l2;
    (split; [exact E|]);
    assert (Hw : dated w)
      by (apply history_dated; rewrite E; apply in_or_app; right; now left);
    assert (D1 : forall r, In r l1 -> dated r)
      by (intros r Hr; apply history_dated; rewrite E; apply in_or_app; now left);
    assert (D2 : forall r, In r l2 -> dated r)
      by (intros r Hr; apply history_dated; rewrite E; apply in_or_app;
          right; now right);
    split; intros r Hr.
  - rewrite key_lt_earlier; auto.
  - rewrite key_lt_earlier; auto.
  - rewrite <- key_lt_earlier; auto.
  - rewrite <- key_lt_earlier; auto.
Qed.

Lemma latest_row_first_desc w :
  latest_row n rows w <-> Sql.first_desc history = Some w.
Proof.
  rewrite latest_row_first_max. split.
  - apply first_max_first_desc.
  - apply first_desc_first_max.
Qed.

End OneEmployee.

Lemma latest_row_query n db w :
  (forall r, In r (AFFECTER db) -> Assignment.numEmp r = n -> dated r) ->
  latest_row n (AFFECTER db) w <-> Sql.latest_assignment n db = Some w.
Proof. intros H. now apply latest_row_first_desc. Qed.

Lemma has_history_query n db :
  has_history n db <-> Sql.latest_assignment n db <> None.
Proof.
  split.
  - intros (r & Hin & Hn) E. destruct (latest_some n db r Hin Hn) as [l Hl].
    congruence.
  - intros H. destruct (Sql.latest_assignment n db) as [l|] eqn:E; [|congruence].
    apply latest_in in E as [Hin Hn]. now exists l.
Qed.

(** On dated rows, to follow the history of the calendar is to hold what
    the ORDER BY query of the controllers returns first. *)
Lemma follows_history_in_sync db e :
  (forall r, In r (AFFECTER db) ->
     Assignment.numEmp r = Employee.numEmp e -> dated r) ->
  follows_history db e <-> in_sync db e.
Proof.
  intros Hd. unfold follows_history, in_sync. split.
  - intros [(w & Hw & Hl)|[Hno Hl]].
    + apply (latest_row_query _ _ _ Hd) in Hw. now rewrite Hw.
    + destruct (Sql.latest_assignment (Employee.numEmp e) db) as [l|] eqn:E;
        [|assumption].
      exfalso. apply Hno. apply has_history_query. congruence.
  - intros H.
    destruct (Sql.latest_assignment (Employee.numEmp e) db) as [l|] eqn:E.
    + left. exists l. split; [now apply (latest_row_query _ _ _ Hd)|exact H].
    + right. split; [|exact H]. intros Hh. now apply has_history_query in Hh.
Qed.

Lemma heads_is_latest id n db :
  (forall r, In r (AFFECTER db) -> Assignment.numEmp r = n -> dated r) ->
  heads id n (AFFECTER db) <-> is_latest id n db = true.
Proof.
  intros Hd. unfold heads, is_latest. split.
  - intros (w & Hw & Hid). apply (latest_row_query _ _ _ Hd) in Hw.
    rewrite Hw. now apply String.eqb_eq.
  - destruct (Sql.latest_assignment n db) as [l|] eqn:E; [|discriminate].
    intros H. exists l. split; [now apply (latest_row_query _ _ _ Hd)|].
    now apply String.eqb_eq.
Qed.

Lemma validate_true_days today a m :
  Assignment.validate today a = (true, m) -> days a <> None.
Proof.
  unfold Assignment.validate, days.
  repeat match goal with
         | |- context [if ?b then _ else _] => destruct b
         | |- context [match ?x with Some _ => _ | None => _ end] => destruct x
         end; congruence.
Qed.

Lemma all_dated_inserted a db : all_dated db -> dated a -> all_dated (inserted a db).
Proof.
  intros Hd Ha r Hr. unfold inserted in Hr. cbn [AFFECTER] in Hr.
  apply in_app_or in Hr as [Hr|[<-|[]]]; auto.
Qed.

Lemma all_dated_updated id a db : all_dated db -> dated a -> all_dated (updated id a db).
Proof.
  intros Hd Ha r Hr. unfold updated, Sql.affecter_update in Hr.
  cbn [AFFECTER] in Hr. apply in_map_iff in Hr as (r0 & <- & Hr0).
  destruct (String.eqb (Assignment.numAffect r0) id); [|now apply Hd].
  exact Ha.
Qed.

Lemma all_dated_deleted id n db : all_dated db -> all_dated (deleted id n db).
Proof.
  intros Hd r Hr. unfold deleted in Hr.
  destruct (is_latest id n db); cbn [AFFECTER] in Hr;
    unfold Sql.affecter_delete in Hr; apply filter_In in Hr as [Hr _];
    now apply Hd.
Qed.

Variable T : string -> Prop.

Lemma step_chronological o db :
  keyed db -> all_dated db -> synced T db -> chronological o db ->
  exists db',
    step o (connect db) = connect db'
    /\ keyed db' /\ all_dated db' /\ synced T db'.
Proof.
  intros Hk Hd Hs Hc. destruct o as [today data|today id data|id]; cbn [step].
  - destruct (create_cases today data db)
      as [[msg F]|(v & e & Hval & _ & _ & Hid & S)].
    + exists db. rewrite F. auto.
    + cbv zeta in *.
      set (a := AssignmentController.assignment_of v data) in *.
      destruct Hc as (P1 & P2 & Hafter).
      assert (Ha : dated a).
      { split; [exact P1|]. split; [exact P2|].
        exact (validate_true_days _ _ _ Hval). }
      exists (inserted a db). rewrite S. split; [reflexivity|].
      destruct (synced_inserted T a db Hk Hs Hid) as [Hk' Hs'].
      { intros r Hr Hn. rewrite key_lt_earlier; [|now apply Hd|exact Ha].
        exact (Hafter r Hr Hn). }
      split; [assumption|]. split; [|assumption].
      now apply all_dated_inserted.
  - destruct (update_cases today id data db) as [(o & F & _)|(x & Hx & Hval & S)].
    + exists db. rewrite F. auto.
    + cbv zeta in *.
      set (a := AssignmentController.apply_update x data) in *.
      apply find_assignment_joined_in in Hx as [Hin Hid].
      destruct (Hc x Hin Hid) as (P1 & P2 & Hemp & Hrank). fold a in P1, P2, Hemp, Hrank.
      assert (Ha : dated a).
      { split; [exact P1|]. split; [exact P2|].
        exact (validate_true_days _ _ _ Hval). }
      assert (Hd' : all_dated (updated id a db)) by now apply all_dated_updated.
      exists (updated id a db). rewrite S. split; [reflexivity|].
      destruct (synced_updated T id x a db Hk Hs Hin Hid Hemp) as [Hk' Hs'].
      { pose proof (heads_is_latest id (Assignment.numEmp x) db
                      (fun r Hr _ => Hd r Hr)) as H0.
        pose proof (heads_is_latest id (Assignment.numEmp x) (updated id a db)
                      (fun r Hr _ => Hd' r Hr)) as H1.
        change (AFFECTER (updated id a db))
          with (Sql.affecter_update a id (AFFECTER db)) in H1.
        destruct (is_latest id (Assignment.numEmp x) (updated id a db));
          destruct (is_latest id (Assignment.numEmp x) db); try reflexivity.
        - assert (false = true) by (apply H0, Hrank, H1; reflexivity).
          discriminate.
        - assert (false = true) by (apply H1, Hrank, H0; reflexivity).
          discriminate. }
      auto.
  - destruct (delete_cases id db) as [[msg F]|(x & Hx & S)].
    + exists db. rewrite F. auto.
    + exists (deleted id (Assignment.numEmp x) db).
      rewrite S. split; [reflexivity|].
      apply find_assignment_joined_in in Hx as [Hin Hid].
      destruct (synced_deleted T id x db Hk Hs Hin Hid) as [Hk' Hs'].
      split; [assumption|]. split; [|assumption].
      now apply all_dated_deleted.
Qed.

Lemma run_chronological ops : forall db,
  keyed db -> all_dated db -> synced T db -> chronological_run ops db ->
  exists db',
    run ops (connect db) = connect db'
    /\ keyed db' /\ all_dated db' /\ synced T db'.
Proof.
  induction ops as [|o ops IH]; intros db Hk Hd Hs Hc.
  - exists db. auto.
  - destruct Hc as [Ho Hrest].
    destruct (step_chronological o db Hk Hd Hs Ho) as (db1 & E1 & Hk1 & Hd1 & Hs1).
    rewrite E1 in Hrest. cbn [committed connect] in Hrest.
    destruct (IH db1 Hk1 Hd1 Hs1 Hrest) as (db' & E & H').
    exists db'. unfold run in *. cbn [fold_left]. rewrite E1. auto.
Qed.

End Chronology.

Lemma chronological_run_app done : forall rest db,
  chronological_run (done ++ rest) db -> chronological_run done db.
Proof.
  induction done as [|o done IH]; intros rest db H; simpl in *; [exact I|].
  destruct H as [Ho Hr]. split; [assumption|]. now apply (IH rest).
Qed.

(** C1, as stated, fails after a single create: E1 is at L2, the
    destination of the one row A1 of 2024-01-10. Creating A2, dated
    2023-02-01, from L2 to L1 succeeds and leaves E1 at L1, while the
    latest row of E1, by the calendar and by the ORDER BY of the queries, is
    still A1, whose destination is L2. *)
Lemma create_past_dated_counterexample :
  let today := PyDate.mk 2024 6 1 in
  let r := AssignmentController.create today past_dated_data (connect past_dated_db) in
  let e1 := Employee.mk "E1" "Mr" "Rabe" "Paul" "paul@example.com" "Analyst"
                        (Some "L1") in
  let a1 := Assignment.mk "A1" "E1" "L1" "L2" "2024-01-10" "2024-01-15" in
  (forall e, In e (EMPLOYE past_dated_db) -> follows_history past_dated_db e)
  /\ fst r = Ok (true, "Assignment created successfully!", Some "A2")
  /\ all_dated (committed (snd r))
  /\ In e1 (EMPLOYE (committed (snd r)))
  /\ latest_row "E1" (AFFECTER (committed (snd r))) a1
  /\ Sql.latest_assignment "E1" (committed (snd r)) = Some a1
  /\ ~ follows_history (committed (snd r)) e1.
Proof.
  cbv zeta.
  assert (Hd : all_dated
                 (committed (snd (AssignmentController.create (PyDate.mk 2024 6 1)
                                    past_dated_data (connect past_dated_db))))).
  { intros r Hr. vm_compute in Hr.
    destruct Hr as [<-|[<-|[]]]; repeat split; vm_compute; discriminate. }
  split; [|split; [|split; [|split; [|split; [|split]]]]].
  - intros e [<-|[]]. apply follows_history_in_sync.
    + intros r [<-|[]] _. repeat split; vm_compute; discriminate.
    + reflexivity.
  - reflexivity.
  - exact Hd.
  - simpl. tauto.
  - apply latest_row_query; [intros r Hr _; now apply Hd|reflexivity].
  - reflexivity.
  - intros H. apply follows_history_in_sync in H;
      [|intros r Hr _; now apply Hd].
    unfold in_sync in H. vm_compute in H. discriminate.
Qed.

(** C1 (amended). Take a store whose primary key holds, whose rows all
    carry dates of the calendar written YYYY-MM-DD with ten characters, and
    in which the location of every employee with a row follows the
    history. Take a run of controller operations in which every create is
    so written and is dated after all the rows its employee has at that
    moment, and every update leaves the dates so written, keeps the
    employee of its row and does not change whether that row is the latest
    of the employee. Then after every operation of the run, for every
    employee who had a row at the start or has one now, the current
    location is the destination of the row with the latest (assignment
    day, service day) of the employee's history, and null when no row
    remains. *)
Theorem location_follows_history (ops : list op) (db : DB) :
  keyed db ->
  all_dated db ->
  (forall e, In e (EMPLOYE db) ->
     has_history (Employee.numEmp e) db -> follows_history db e) ->
  chronological_run ops db ->
  forall done rest, ops = (done ++ rest)%list ->
    exists db',
      run done (connect db) = connect db'
      /\ forall e, In e (EMPLOYE db') ->
           has_history (Employee.numEmp e) db
           \/ has_history (Employee.numEmp e) db' ->
           follows_history db' e.
Proof.
  intros Hk Hd Hs Hc done rest ->.
  apply chronological_run_app in Hc.
  destruct (run_chronological (fun n => has_history n db) done db Hk Hd)
    as (db' & E & _ & Hd' & Hs'); [|assumption|].
  - intros e He H. apply follows_history_in_sync; [intros r Hr _; now apply Hd|].
    apply Hs; [assumption|]. destruct H as [H|H]; [assumption|].
    now apply has_history_query.
  - exists db'. split; [assumption|]. intros e He H.
    apply follows_history_in_sync; [intros r Hr _; now apply Hd'|].
    apply Hs'; [assumption|]. destruct H as [H|H]; [now left|right].
    now apply has_history_query.
Qed.

(** E1 goes from L2 to L1, then to L3 by the edit, back to L2 when A2 is
    deleted, and to no location when A1 is deleted as well. *)
Lemma location_follows_history_witness :
  map (fun n => map Employee.idlieu
                    (EMPLOYE (committed (run (firstn n run_ops) (connect run_db)))))
      [1; 2; 3; 4]%nat
  = [[Some "L1"]; [Some "L3"]; [Some "L2"]; [None]]
  /\ exists db',
       run run_ops (connect run_db) = connect db'
       /\ forall e, In e (EMPLOYE db') ->
            has_history (Employee.numEmp e) run_db
            \/ has_history (Employee.numEmp e) db' ->
            follows_history db' e.
Proof.
  split; [reflexivity|].
  apply (location_follows_history run_ops run_db) with (rest := []).
  - repeat constructor. intros [].
  - intros r [<-|[]]. repeat split; vm_compute; discriminate.
  - intros e [<-|[]] _. left.
    exists (Assignment.mk "A1" "E1" "L1" "L2" "2024-01-10" "2024-01-15").
    split; [|reflexivity]. exists [], []. split; [reflexivity|].
    split; intros r [].
  - split; [|split; [|split; [|split]]]; try exact I.
    + split; [reflexivity|]. split; [reflexivity|].
      intros r [<-|[]] _. reflexivity.
    + intros r Hr Hid. vm_compute in Hr.
      destruct Hr as [<-|[<-|[]]]; [discriminate Hid|].
      cbv zeta. split; [reflexivity|]. split; [reflexivity|].
      split; [reflexivity|].
      split; intros _.
      * exists (Assignment.mk "A2" "E1" "L2" "L1" "2024-02-01" "2024-02-05").
        split; [|reflexivity].
        exists [Assignment.mk "A1" "E1" "L1" "L2" "2024-01-10" "2024-01-15"], [].
        split; [reflexivity|].
        split; intros r Hr; [destruct Hr as [<-|[]]; reflexivity|destruct Hr].
      * exists (Assignment.mk "A2" "E1" "L2" "L3" "2024-02-01" "2024-02-05").
        split; [|reflexivity].
        exists [Assignment.mk "A1" "E1" "L1" "L2" "2024-01-10" "2024-01-15"], [].
        split; [reflexivity|].
        split; intros r Hr; [destruct Hr as [<-|[]]; reflexivity|destruct Hr].
  - reflexivity.
Defined.

(** Why the dates have to be written with ten characters. [validate]
    accepts 2024-9-01, which ORDER BY puts above 2024-10-01. E1 is at L2
    by the row A1 of 2024-9-01. The create of A2, dated 2024-10-01 and so
    after the whole history, moves E1 to L3; the delete of A2 then finds A1
    first in the descending order, takes A2 not to be the latest row and
    leaves E1 at L3, while the one row that remains leads to L2. *)
Example unpadded_dates_break_history :
  let today := PyDate.mk 2024 12 1 in
  let a1 := Assignment.mk "A1" "E1" "L1" "L2" "2024-9-01" "2024-9-05" in
  let e1 := Employee.mk "E1" "Mr" "Rabe" "Paul" "paul@example.com" "Analyst"
                        (Some "L3") in
  let r1 := AssignmentController.create today unpadded_data (connect unpadded_db) in
  let r2 := AssignmentController.delete "A2" (snd r1) in
  keyed unpadded_db
  /\ (forall e, In e (EMPLOYE unpadded_db) -> follows_history unpadded_db e)
  /\ (forall r, In r (AFFECTER unpadded_db) ->
        earlier r (AssignmentController.assignment_of "A2" unpadded_data) = true)
  /\ fst r1 = Ok (true, "Assignment created successfully!", Some "A2")
  /\ fst r2 = Ok (true, "Assignment deleted successfully!")
  /\ EMPLOYE (committed (snd r2)) = [e1]
  /\ AFFECTER (committed (snd r2)) = [a1]
  /\ ~ follows_history (committed (snd r2)) e1.
Proof.
  cbv zeta. split; [|split; [|split; [|split; [|split; [|split; [|split]]]]]].
  - repeat constructor. intros [].
  - intros e [<-|[]]. left.
    exists (Assignment.mk "A1" "E1" "L1" "L2" "2024-9-01" "2024-9-05").
    split; [|reflexivity]. exists [], []. split; [reflexivity|].
    split; intros r [].
  - intros r [<-|[]]. reflexivity.
  - reflexivity.
  - reflexivity.
  - reflexivity.
  - reflexivity.
  - intros [(w & (l1 & l2 & E & _) & Hl)|[Hno _]].
    + vm_compute in E, Hl.
      destruct l1 as [|x l1]; [|destruct l1; discriminate E].
      inversion E; subst. discriminate Hl.
    + apply Hno.
      exists (Assignment.mk "A1" "E1" "L1" "L2" "2024-9-01" "2024-9-05").
      split; [left|]; reflexivity.
Qed.

(** ** The operations of the location and employee controllers, case by case *)

Section ControllerCases.

Lemma filter_none_length {A} (f : A -> bool) (l : list A) :
  List.length (filter f l) = 0%nat -> forall x, In x l -> f x = false.
Proof.
  intros H x Hin. destruct (f x) eqn:E; [|reflexivity].
  pose proof (filter_length_pos f l x Hin E). lia.
Qed.

Lemma find_none_existsb {A} (f : A -> bool) (l : list A) :
  find f l = None -> existsb f l = false.
Proof.
  intros H. destruct (existsb f l) eqn:E; [|reflexivity].
  apply existsb_exists in E as (x & Hin & Hf).
  now rewrite (find_none f l H x Hin) in Hf.
Qed.

Lemma location_validate_true_msg l m : Location.validate l = (true, m) -> m = "".
Proof.
  unfold Location.validate.
  repeat match goal with
         | |- context [if ?b then _ else _] => destruct b
         end; congruence.
Qed.

Lemma employee_validate_true_msg e m : Employee.validate e = (true, m) -> m = "".
Proof.
  unfold Employee.validate.
  repeat match goal with
         | |- context [if ?b then _ else _] => destruct b
         end; congruence.
Qed.

(** [LocationController.create] either refuses and leaves the connection as
    it found it, or commits the new row. *)
Lemma location_create_cases data db :
  (exists msg,
     LocationController.create data (connect db) = (Ok (false, msg), connect db))
  \/ (let l := LocationController.location_of data in
      Location.validate l = (true, "")
      /\ Sql.find_location (Location.idlieu l) db = None
      /\ LocationController.create data (connect db)
         = (Ok (true, "Location created successfully!"),
            connect (mkDB (LIEU db ++ [l]) (EMPLOYE db) (AFFECTER db)))).
Proof.
  remember (LocationController.create data (connect db)) as r eqn:Hr.
  unfold LocationController.create in Hr.
  destruct (BaseController._validate_required_fields _ _) as [[|] m1];
    cbn [negb] in Hr; [|left; eexists; exact Hr].
  destruct (Location.validate _) as [[|] m2] eqn:Hval;
    cbn [negb] in Hr; [|left; eexists; exact Hr].
  apply location_validate_true_msg in Hval as Hm. subst m2.
  unfold LocationController.get_by_id, Location_get, Sql.insert_lieu in Hr. run_m.
  destruct (Sql.find_location _ db) as [l0|] eqn:Hl; norm_m;
    [left; eexists; exact Hr|].
  unfold Sql.find_location in Hl. rewrite (find_none_existsb _ _ Hl) in Hr.
  norm_m. right. cbv zeta. repeat split; assumption.
Qed.

(** [LocationController.update] either refuses and leaves the connection as
    it found it, or commits the two columns of the rows with this
    identifier. *)
Lemma location_update_cases id data db :
  (exists msg,
     LocationController.update id data (connect db) = (Ok (false, msg), connect db))
  \/ (exists existing,
        let l := LocationController.apply_update existing data in
        Sql.find_location id db = Some existing
        /\ Location.validate l = (true, "")
        /\ LocationController.update id data (connect db)
           = (Ok (true, "Location updated successfully!"),
              connect (mkDB (Sql.lieu_update (Location.design l)
                               (Location.province l) id (LIEU db))
                            (EMPLOYE db) (AFFECTER db)))).
Proof.
  remember (LocationController.update id data (connect db)) as r eqn:Hr.
  unfold LocationController.update, LocationController.get_by_id, Location_get in Hr.
  run_m.
  destruct (Sql.find_location id db) as [existing|] eqn:Hl; norm_m;
    [|left; eexists; exact Hr].
  destruct (Location.validate _) as [[|] m2] eqn:Hval;
    cbn [negb] in Hr; [|left; eexists; exact Hr].
  apply location_validate_true_msg in Hval as Hm. subst m2.
  unfold Sql.update_lieu in Hr. run_m.
  destruct (Nat.eqb _ 0) eqn:Hc; norm_m.
  - exfalso. apply Nat.eqb_eq in Hc.
    unfold Sql.find_location in Hl. apply find_some in Hl as [Hin Heq].
    pose proof (filter_length_pos
                  (fun l' => String.eqb (Location.idlieu l') id)
                  (LIEU db) existing Hin Heq).
    lia.
  - right. exists existing. cbv zeta. repeat split; assumption.
Qed.

(** [LocationController.delete] either refuses and leaves the connection as
    it found it, or commits the removal of a location that nothing
    references. *)
Lemma location_delete_cases id db :
  (exists msg,
     LocationController.delete id (connect db) = (Ok (false, msg), connect db))
  \/ (Sql.find_location id db <> None
      /\ Sql.count_employees_at id db = 0%nat
      /\ Sql.count_assignments_at id db = 0%nat
      /\ LocationController.delete id (connect db)
         = (Ok (true, "Location deleted successfully!"),
            connect (mkDB (filter (fun l => negb (String.eqb (Location.idlieu l) id))
                                  (LIEU db))
                          (EMPLOYE db) (AFFECTER db)))).
Proof.
  remember (LocationController.delete id (connect db)) as r eqn:Hr.
  unfold LocationController.delete, LocationController.get_by_id, Location_get in Hr.
  run_m.
  destruct (Sql.find_location id db) as [l|] eqn:Hl; norm_m;
    [|left; eexists; exact Hr].
  destruct (Nat.ltb 0 (Sql.count_employees_at id db)) eqn:He; norm_m;
    [left; eexists; exact Hr|].
  destruct (Nat.ltb 0 (Sql.count_assignments_at id db)) eqn:Ha; norm_m;
    [left; eexists; exact Hr|].
  unfold Sql.delete_lieu in Hr. run_m.
  destruct (Nat.eqb _ 0) eqn:Hc; norm_m.
  - exfalso. apply Nat.eqb_eq in Hc.
    unfold Sql.find_location in Hl. apply find_some in Hl as [Hin Heq].
    pose proof (filter_length_pos
                  (fun l' => String.eqb (Location.idlieu l') id)
                  (LIEU db) l Hin Heq).
    lia.
  - apply Nat.ltb_ge in He, Ha.
    right. repeat split; try lia; [congruence|assumption].
Qed.


Lemma count_zero_existsb {A} (f : A -> bool) (l : list A) :
  Nat.ltb 0 (List.length (filter f l)) = false -> existsb f l = false.
Proof.
  intros H. apply Nat.ltb_ge in H.
  destruct (existsb f l) eqn:E; [|reflexivity].
  apply existsb_exists in E as (x & Hin & Hf).
  pose proof (filter_length_pos f l x Hin Hf). lia.
Qed.

Lemma existsb_false_in {A} (f : A -> bool) (l : list A) :
  existsb f l = false -> forall x, In x l -> f x = false.
Proof.
  intros H x Hin. destruct (f x) eqn:E; [|reflexivity].
  rewrite <- H. symmetry. apply existsb_exists. eauto.
Qed.

Lemma employee_validate_civilite e m :
  Employee.validate e = (true, m) ->
  existsb (String.eqb (Employee.civilite e)) Employee.CIVILITE_OPTIONS = true.
Proof.
  unfold Employee.validate.
  destruct (negb (Py.truthy (Employee.numEmp e)) || _); [discriminate|].
  destruct (existsb _ Employee.CIVILITE_OPTIONS); [reflexivity|].
  rewrite orb_true_r. discriminate.
Qed.

Lemma numEmp_of_run data c :
  read_faults c = [] ->
  exists v, EmployeeController.numEmp_of data c = (Ok v, c).
Proof.
  intros Hq. unfold EmployeeController.numEmp_of.
  destruct (dict_get data "numEmp") as [v|];
    [destruct (Py.truthy v)|]; eexists;
    try reflexivity; destruct c; cbn in Hq; subst; reflexivity.
Qed.

Lemma missing_location_run e c :
  read_faults c = [] ->
  exists o,
    EmployeeController.missing_location e c = (Ok o, c)
    /\ (o = None -> location_known e (current c)).
Proof.
  intros Hq. destruct c as [cm cu tx rf wf]. cbn in Hq. subst rf.
  unfold EmployeeController.missing_location, location_known, Location_get.
  destruct (Employee.idlieu e) as [l|]; [|eexists; split; [reflexivity|discriminate]].
  destruct (Py.truthy l) eqn:Ht;
    [|eexists; split; [reflexivity|intros _ l' E; inversion E; congruence]].
  run_m. destruct (Sql.find_location l cu) eqn:Hl.
  - eexists. split; [reflexivity|]. intros _ l' E _. inversion E. congruence.
  - eexists. split; [reflexivity|]. discriminate.
Qed.

(** [EmployeeController.create] either refuses and leaves the connection as
    it found it, or commits the new row. *)
Lemma employee_create_cases data db :
  (exists msg,
     EmployeeController.create data (connect db)
     = (Ok (false, msg, None), connect db))
  \/ (exists numEmp,
        let e := EmployeeController.employee_of numEmp data in
        EmployeeController.numEmp_of data (connect db) = (Ok numEmp, connect db)
        /\ Employee.validate e = (true, "")
        /\ location_known e db
        /\ (forall r, In r (EMPLOYE db) ->
              Employee.numEmp r <> Employee.numEmp e
              /\ Employee.mail r <> Employee.mail e)
        /\ EmployeeController.create data (connect db)
           = (Ok (true, "Employee created successfully!", Some (Employee.numEmp e)),
              connect (mkDB (LIEU db) (EMPLOYE db ++ [e]) (AFFECTER db)))).
Proof.
  remember (EmployeeController.create data (connect db)) as r eqn:Hr.
  unfold EmployeeController.create in Hr.
  destruct (BaseController._validate_required_fields _ _) as [[|] m1];
    cbn [negb] in Hr; [|left; eexists; exact Hr].
  destruct (numEmp_of_run data (connect db) eq_refl) as [v Hv].
  unfold bind at 1 in Hr. rewrite Hv in Hr.
  destruct (Employee.validate _) as [[|] m2] eqn:Hval;
    cbn [negb] in Hr; [|left; eexists; exact Hr].
  apply employee_validate_true_msg in Hval as Hm. subst m2.
  destruct (missing_location_run (EmployeeController.employee_of v data) (connect db)
              eq_refl) as (o & Ho & Hknown).
  unfold bind at 1 in Hr. rewrite Ho in Hr.
  destruct o as [l|]; [left; eexists; exact Hr|].
  specialize (Hknown eq_refl). cbn [connect current] in Hknown.
  unfold Sql.insert_employe, Sql.count_mail in Hr. run_m.
  destruct (Nat.ltb 0 _) eqn:Hmail; norm_m; [left; eexists; exact Hr|].
  rewrite (employee_validate_civilite _ _ Hval) in Hr. cbn [negb] in Hr.
  apply count_zero_existsb in Hmail. rewrite Hmail in Hr.
  destruct (existsb _ (EMPLOYE db)) eqn:Hpk in Hr; norm_m;
    [left; eexists; exact Hr|].
  right. exists v. cbv zeta. repeat split; try assumption.
  - intros E. apply (existsb_false_in _ _ Hpk) in H.
    apply String.eqb_neq in H. contradiction.
  - intros E. apply (existsb_false_in _ _ Hmail) in H.
    apply String.eqb_neq in H. contradiction.
Qed.


(** [EmployeeController.update] either refuses and leaves the connection as
    it found it, or commits the six columns of the one row with this
    identifier. *)
Lemma employee_update_cases id data db :
  (exists msg,
     EmployeeController.update id data (connect db) = (Ok (false, msg), connect db))
  \/ (exists existing,
        let e := EmployeeController.apply_update existing data in
        Sql.find_employee id db = Some existing
        /\ Employee.validate e = (true, "")
        /\ location_known e db
        /\ (forall r, In r (EMPLOYE db) ->
              Employee.numEmp r <> id -> Employee.mail r <> Employee.mail e)
        /\ List.length (filter (fun r => String.eqb (Employee.numEmp r) id)
                               (EMPLOYE db)) = 1%nat
        /\ EmployeeController.update id data (connect db)
           = (Ok (true, "Employee updated successfully!"),
              connect (mkDB (LIEU db) (Sql.employe_update e id (EMPLOYE db))
                            (AFFECTER db)))).
Proof.
  remember (EmployeeController.update id data (connect db)) as r eqn:Hr.
  unfold EmployeeController.update, EmployeeController.get_by_id in Hr. run_m.
  destruct (Sql.find_employee id db) as [existing|] eqn:Hex; norm_m;
    [|left; eexists; exact Hr].
  destruct (Employee.validate _) as [[|] m2] eqn:Hval;
    cbn [negb] in Hr; [|left; eexists; exact Hr].
  apply employee_validate_true_msg in Hval as Hm. subst m2.
  destruct (missing_location_run (EmployeeController.apply_update existing data)
              (connect db) eq_refl) as (o & Ho & Hknown).
  unfold connect in Ho. rewrite Ho in Hr.
  destruct o as [l|]; [left; eexists; exact Hr|].
  specialize (Hknown eq_refl). cbn [connect current] in Hknown.
  unfold Sql.update_employe, Sql.count_mail_except in Hr. run_m.
  destruct (Nat.ltb 0 _) eqn:Hmail; norm_m; [left; eexists; exact Hr|].
  apply count_zero_existsb in Hmail.
  assert (Hpos : (0 < List.length (filter (fun r => String.eqb (Employee.numEmp r) id)
                                          (EMPLOYE db)))%nat).
  { unfold Sql.find_employee in Hex. apply find_some in Hex as [Hin Heq].
    exact (filter_length_pos _ _ existing Hin Heq). }
  destruct (Nat.eqb (List.length _) 0) eqn:Hz in Hr;
    [apply Nat.eqb_eq in Hz; lia|].
  rewrite (employee_validate_civilite _ _ Hval) in Hr. cbn [negb] in Hr.
  destruct (Nat.ltb 1 _) eqn:Hmany in Hr; cbn [orb] in Hr; norm_m;
    [left; eexists; exact Hr|].
  apply Nat.ltb_ge in Hmany.
  destruct (existsb _ (EMPLOYE db)) eqn:Hother in Hr; norm_m.
  - exfalso. apply existsb_exists in Hother as (x & Hin & Hx).
    apply andb_prop in Hx as [Hx1 Hx2].
    apply (existsb_false_in _ _ Hmail) in Hin.
    rewrite Hx2, Hx1 in Hin. discriminate.
  - rewrite Hz in Hr. norm_m.
    right. exists existing. cbv zeta. repeat split; try assumption; [|lia].
    intros x Hin Hne E. apply (existsb_false_in _ _ Hother) in Hin.
    apply String.eqb_neq in Hne. rewrite Hne, E, String.eqb_refl in Hin.
    discriminate.
Qed.

(** [EmployeeController.delete] either refuses and leaves the connection as
    it found it, or commits the removal of an employee who has no row in
    the history. *)
Lemma employee_delete_cases id db :
  (exists msg,
     EmployeeController.delete id (connect db) = (Ok (false, msg), connect db))
  \/ (Sql.find_employee id db <> None
      /\ Sql.count_assignments_of id db = 0%nat
      /\ EmployeeController.delete id (connect db)
         = (Ok (true, "Employee deleted successfully!"),
            connect (mkDB (LIEU db) (Sql.employe_delete id (EMPLOYE db))
                          (AFFECTER db)))).
Proof.
  remember (EmployeeController.delete id (connect db)) as r eqn:Hr.
  unfold EmployeeController.delete, EmployeeController.get_by_id in Hr. run_m.
  destruct (Sql.find_employee id db) as [e|] eqn:He; norm_m;
    [|left; eexists; exact Hr].
  destruct (Nat.ltb 0 (Sql.count_assignments_of id db)) eqn:Ha; norm_m;
    [left; eexists; exact Hr|].
  unfold Sql.delete_employe in Hr. run_m.
  destruct (Nat.eqb _ 0) eqn:Hc; norm_m.
  - exfalso. apply Nat.eqb_eq in Hc.
    unfold Sql.find_employee in He. apply find_some in He as [Hin Heq].
    pose proof (filter_length_pos
                  (fun r => String.eqb (Employee.numEmp r) id)
                  (EMPLOYE db) e Hin Heq).
    lia.
  - apply Nat.ltb_ge in Ha.
    right. repeat split; try lia; [congruence|assumption].
Qed.

End ControllerCases.

(** ** Keys and references of the tables *)

Section TableFacts.

Context {A : Type} (key : A -> string).

Lemma find_key_in rows x :
  find (fun r => String.eqb (key r) x) rows <> None <-> In x (map key rows).
Proof.
  split.
  - destruct (find _ rows) as [r|] eqn:E; [intros _|congruence].
    apply find_some in E as [Hin Heq]. apply String.eqb_eq in Heq.
    rewrite <- Heq. now apply in_map.
  - intros Hin E. apply in_map_iff in Hin as (r & <- & Hin).
    pose proof (find_none _ _ E r Hin) as Hf. cbv beta in Hf.
    now rewrite String.eqb_refl in Hf.
Qed.

Lemma find_key_none rows x :
  find (fun r => String.eqb (key r) x) rows = None -> ~ In x (map key rows).
Proof. intros E Hin. now apply find_key_in in Hin. Qed.

Lemma NoDup_key_filter p rows :
  NoDup (map key rows) -> NoDup (map key (filter p rows)).
Proof.
  induction rows as [|r rows IH]; simpl; intros H; [constructor|].
  inversion H as [|? ? Hnotin Hnd]; subst.
  destruct (p r); [|now apply IH].
  simpl. constructor; [|now apply IH].
  intros Hin. apply Hnotin. apply in_map_iff in Hin as (y & Hy & Hin).
  apply filter_In in Hin as [Hin _]. rewrite <- Hy. now apply in_map.
Qed.

Lemma NoDup_key_snoc rows r :
  NoDup (map key rows) -> ~ In (key r) (map key rows) ->
  NoDup (map key (rows ++ [r])).
Proof.
  intros Hnd Hnotin. rewrite map_app. simpl.
  apply NoDup_app; [assumption|repeat constructor; intros []|].
  intros i Hi [<-|[]]. contradiction.
Qed.


Lemma map_key_same (g : A -> A) rows :
  (forall r, key (g r) = key r) -> map key (map g rows) = map key rows.
Proof. intros H. rewrite map_map. now apply map_ext. Qed.

End TableFacts.

Section Invariants.

Lemma lieu_update_ids d p id rows :
  map Location.idlieu (Sql.lieu_update d p id rows) = map Location.idlieu rows.
Proof.
  apply map_key_same. intros r. now destruct (String.eqb _ id).
Qed.

Lemma employe_set_idlieu_ids v n rows :
  map Employee.numEmp (Sql.employe_set_idlieu v n rows) = map Employee.numEmp rows.
Proof.
  apply map_key_same. intros r. now destruct (String.eqb _ n).
Qed.

Lemma employe_set_idlieu_mails v n rows :
  map Employee.mail (Sql.employe_set_idlieu v n rows) = map Employee.mail rows.
Proof.
  apply map_key_same. intros r. now destruct (String.eqb _ n).
Qed.

Lemma employe_update_ids e id rows :
  map Employee.numEmp (Sql.employe_update e id rows) = map Employee.numEmp rows.
Proof.
  apply map_key_same. intros r. now destruct (String.eqb _ id).
Qed.








End Invariants.

Section AssignmentInvariants.

(** What a successful [create] has checked. *)
Lemma create_cases_checked today data db :
  (exists msg,
     AssignmentController.create today data (connect db)
     = (Ok (false, msg, None), connect db))
  \/ (exists numAffect e,
        let a := AssignmentController.assignment_of numAffect data in
        Assignment.validate today a = (true, "")
        /\ Sql.find_employee (Assignment.numEmp a) db = Some e
        /\ Employee.idlieu e = Some (Assignment.AncienLieu a)
        /\ Sql.find_location (Assignment.AncienLieu a) db <> None
        /\ Sql.find_location (Assignment.NouveauLieu a) db <> None
        /\ id_in_use (Assignment.numAffect a) db = false
        /\ AssignmentController.create today data (connect db)
           = (Ok (true, "Assignment created successfully!",
                  Some (Assignment.numAffect a)),
              connect (inserted a db))).
Proof.
  remember (AssignmentController.create today data (connect db)) as r eqn:Hr.
  unfold AssignmentController.create in Hr.
  destruct (BaseController._validate_required_fields _ _) as [[|] m1];
    cbn [negb] in Hr; [|left; eexists; exact Hr].
  destruct (numAffect_of_run data (connect db) eq_refl) as [v Hv].
  unfold bind at 1 in Hr. rewrite Hv in Hr.
  destruct (Assignment.validate today _) as [[|] m2] eqn:Hval;
    cbn [negb] in Hr; [|left; eexists; exact Hr].
  apply validate_true_msg in Hval as Hm. subst m2.
  unfold Employee_get, Location_get in Hr. run_m.
  destruct (Sql.find_employee _ db) as [e|] eqn:He; norm_m;
    [|left; eexists; exact Hr].
  destruct (Sql.find_location (Assignment.AncienLieu _) db) as [lo|] eqn:Hlo;
    norm_m; [|left; eexists; exact Hr].
  destruct (Sql.find_location (Assignment.NouveauLieu _) db) as [ln|] eqn:Hln;
    norm_m; [|left; eexists; exact Hr].
  destruct (Employee.idlieu e) as [l|] eqn:Hl;
    [|left; eexists; exact Hr].
  destruct (String.eqb_spec l
              (Assignment.AncienLieu (AssignmentController.assignment_of v data)))
    as [->|Hne]; cbn [negb] in Hr; [|left; eexists; exact Hr].
  unfold Sql.insert_affecter, Sql.update_employe_idlieu in Hr. run_m.
  fold (id_in_use (Assignment.numAffect (AssignmentController.assignment_of v data)) db)
    in Hr.
  destruct (id_in_use _ db) eqn:Hid.
  - left. eexists. exact Hr.
  - right. exists v, e. cbv zeta. repeat split; try assumption; congruence.
Qed.

(** What a successful [update] has checked. *)
Lemma update_cases_checked today id data db :
  (exists o,
     AssignmentController.update today id data (connect db) = (o, connect db)
     /\ forall msg, o <> Ok (true, msg))
  \/ (exists existing,
        let a := AssignmentController.apply_update existing data in
        Sql.find_assignment_joined id db = Some existing
        /\ Assignment.validate today a = (true, "")
        /\ Sql.find_employee (Assignment.numEmp a) db <> None
        /\ Sql.find_location (Assignment.AncienLieu a) db <> None
        /\ Sql.find_location (Assignment.NouveauLieu a) db <> None
        /\ AssignmentController.update today id data (connect db)
           = (Ok (true, "Assignment updated successfully!"),
              connect (updated id a db))).
Proof.
  remember (AssignmentController.update today id data (connect db)) as r eqn:Hr.
  unfold AssignmentController.update, AssignmentController.get_by_id,
    Assignment_get_assignment in Hr. run_m.
  destruct (Sql.find_assignment_joined id db) as [existing|] eqn:Hex; norm_m;
    [|refused_in Hr].
  destruct (AssignmentController.validate_type_error existing data);
    [refused_in Hr|].
  destruct (Assignment.validate today _) as [[|] m2] eqn:Hval;
    cbn [negb] in Hr; [|refused_in Hr].
  apply validate_true_msg in Hval as Hm. subst m2.
  unfold Employee_get, Location_get in Hr. run_m.
  destruct (Sql.find_employee _ db) as [e|] eqn:He; norm_m;
    [|refused_in Hr].
  destruct (Sql.find_location (Assignment.AncienLieu _) db) as [lo|] eqn:Hlo;
    norm_m; [|refused_in Hr].
  destruct (Sql.find_location (Assignment.NouveauLieu _) db) as [ln|] eqn:Hln;
    norm_m; [|refused_in Hr].
  unfold Sql.update_affecter, Sql.update_employe_idlieu in Hr. run_m.
  destruct (Nat.eqb _ 0) eqn:Hcount; norm_m; [refused_in Hr|].
  right. exists existing. cbv zeta. split; [reflexivity|]. split; [assumption|].
  repeat (split; [congruence|]).
  rewrite Hr. unfold updated, update_propagates.
  destruct (Sql.latest_assignment _ db) as [latest|]; [|reflexivity].
  destruct (_ && _); reflexivity.
Qed.





End AssignmentInvariants.

Section KeyInvariants.

Lemma employe_update_mails e id rows :
  NoDup (map Employee.mail rows) ->
  (forall r, In r rows -> Employee.numEmp r <> id ->
             Employee.mail r <> Employee.mail e) ->
  (List.length (filter (fun r => String.eqb (Employee.numEmp r) id) rows) <= 1)%nat ->
  NoDup (map Employee.mail (Sql.employe_update e id rows)).
Proof.
  unfold Sql.employe_update.
  induction rows as [|r rows IH]; intros Hnd Hother Hone; [constructor|].
  cbn [map filter] in *. inversion Hnd as [|? ? Hnotin Hnd']; subst.
  destruct (String.eqb_spec (Employee.numEmp r) id) as [Hhit|Hmiss].
  - cbn [List.length] in Hone.
    assert (Hnone : forall r', In r' rows ->
                      String.eqb (Employee.numEmp r') id = false).
    { apply filter_none_length. lia. }
    cbn [Employee.mail].
    assert (Hsame : map (fun r0 =>
                      if String.eqb (Employee.numEmp r0) id
                      then Employee.mk (Employee.numEmp r0) (Employee.civilite e)
                             (Employee.nom e) (Employee.prenom e) (Employee.mail e)
                             (Employee.poste e) (Employee.idlieu e)
                      else r0) rows = rows).
    { rewrite <- (map_id rows) at 2. apply map_ext_in.
      intros r' Hin. now rewrite (Hnone r' Hin). }
    rewrite Hsame. constructor; [|assumption].
    intros Hin. apply in_map_iff in Hin as (r' & Hm & Hin).
    apply (Hother r'); [now right| |assumption].
    apply String.eqb_neq. now apply Hnone.
  - constructor.
    + intros Hin. apply in_map_iff in Hin as (x & Hm & Hin).
      apply in_map_iff in Hin as (r0 & <- & Hin).
      destruct (String.eqb (Employee.numEmp r0) id).
      * cbn [Employee.mail] in Hm. apply (Hother r); [now left|assumption|].
        now symmetry.
      * apply Hnotin. rewrite <- Hm. now apply in_map.
    + apply IH; [assumption| |assumption].
      intros r' Hin. apply Hother. now right.
Qed.

Lemma keyed_location_created l db :
  Sql.find_location (Location.idlieu l) db = None ->
  tables_keyed db ->
  tables_keyed (mkDB (LIEU db ++ [l]) (EMPLOYE db) (AFFECTER db)).
Proof.
  unfold tables_keyed, keyed. cbn [LIEU EMPLOYE AFFECTER].
  intros Hl (H1 & H2 & H3 & H4). repeat split; try assumption.
  apply NoDup_key_snoc; [assumption|]. now apply find_key_none.
Qed.

Lemma keyed_location_updated d p id db :
  tables_keyed db ->
  tables_keyed (mkDB (Sql.lieu_update d p id (LIEU db)) (EMPLOYE db) (AFFECTER db)).
Proof.
  unfold tables_keyed, keyed. cbn [LIEU EMPLOYE AFFECTER].
  now rewrite lieu_update_ids.
Qed.

Lemma keyed_location_deleted id db :
  tables_keyed db ->
  tables_keyed
    (mkDB (filter (fun l => negb (String.eqb (Location.idlieu l) id)) (LIEU db))
          (EMPLOYE db) (AFFECTER db)).
Proof.
  unfold tables_keyed, keyed. cbn [LIEU EMPLOYE AFFECTER].
  intros (H1 & H2 & H3 & H4). repeat split; try assumption.
  now apply NoDup_key_filter.
Qed.

Lemma keyed_employee_created e db :
  (forall r, In r (EMPLOYE db) ->
     Employee.numEmp r <> Employee.numEmp e
     /\ Employee.mail r <> Employee.mail e) ->
  tables_keyed db ->
  tables_keyed (mkDB (LIEU db) (EMPLOYE db ++ [e]) (AFFECTER db)).
Proof.
  unfold tables_keyed, keyed. cbn [LIEU EMPLOYE AFFECTER].
  intros Hnew (H1 & H2 & H3 & H4). repeat split; try assumption.
  - apply NoDup_key_snoc; [assumption|].
    intros Hin. apply in_map_iff in Hin as (r & Hr & Hin).
    destruct (Hnew r Hin) as [Hn Hm]. contradiction.
  - apply NoDup_key_snoc; [assumption|].
    intros Hin. apply in_map_iff in Hin as (r & Hr & Hin).
    destruct (Hnew r Hin) as [Hn Hm]. contradiction.
Qed.

Lemma keyed_employee_updated e id db :
  (forall r, In r (EMPLOYE db) -> Employee.numEmp r <> id ->
             Employee.mail r <> Employee.mail e) ->
  List.length (filter (fun r => String.eqb (Employee.numEmp r) id) (EMPLOYE db))
  = 1%nat ->
  tables_keyed db ->
  tables_keyed (mkDB (LIEU db) (Sql.employe_update e id (EMPLOYE db)) (AFFECTER db)).
Proof.
  unfold tables_keyed, keyed. cbn [LIEU EMPLOYE AFFECTER].
  intros Hother Hone (H1 & H2 & H3 & H4). repeat split; try assumption.
  - now rewrite employe_update_ids.
  - apply employe_update_mails; [assumption|assumption|lia].
Qed.

Lemma keyed_employee_deleted id db :
  tables_keyed db ->
  tables_keyed (mkDB (LIEU db) (Sql.employe_delete id (EMPLOYE db)) (AFFECTER db)).
Proof.
  unfold tables_keyed, keyed, Sql.employe_delete. cbn [LIEU EMPLOYE AFFECTER].
  intros (H1 & H2 & H3 & H4). repeat split; try assumption;
    now apply NoDup_key_filter.
Qed.

Lemma keyed_tables_inserted a db :
  id_in_use (Assignment.numAffect a) db = false ->
  tables_keyed db -> tables_keyed (inserted a db).
Proof.
  unfold tables_keyed. intros Hid (H1 & H2 & H3 & H4).
  split; [assumption|]. cbn [inserted EMPLOYE].
  rewrite employe_set_idlieu_ids, employe_set_idlieu_mails.
  repeat split; try assumption. now apply keyed_insert.
Qed.

Lemma keyed_tables_updated id a db :
  tables_keyed db -> tables_keyed (updated id a db).
Proof.
  unfold tables_keyed, keyed, updated. cbn [LIEU EMPLOYE AFFECTER].
  intros (H1 & H2 & H3 & H4). rewrite update_ids.
  destruct (update_propagates id a db);
    rewrite ?employe_set_idlieu_ids, ?employe_set_idlieu_mails; auto.
Qed.

Lemma keyed_tables_deleted id n db :
  tables_keyed db -> tables_keyed (deleted id n db).
Proof.
  unfold tables_keyed, keyed, deleted.
  intros (H1 & H2 & H3 & H4). pose proof (keyed_delete db id H4) as H5.
  destruct (is_latest id n db); cbn [LIEU EMPLOYE AFFECTER];
    rewrite ?employe_set_idlieu_ids, ?employe_set_idlieu_mails; auto.
Qed.

End KeyInvariants.

(** ** Any run of requests *)

Section Serving.

Variable P : DB -> Prop.

Hypothesis P_location_created : forall l db,
  P db -> Sql.find_location (Location.idlieu l) db = None ->
  P (mkDB (LIEU db ++ [l]) (EMPLOYE db) (AFFECTER db)).

Hypothesis P_location_updated : forall d p id db,
  P db -> P (mkDB (Sql.lieu_update d p id (LIEU db)) (EMPLOYE db) (AFFECTER db)).

Hypothesis P_location_deleted : forall id db,
  P db -> Sql.count_employees_at id db = 0%nat ->
  Sql.count_assignments_at id db = 0%nat ->
  P (mkDB (filter (fun l => negb (String.eqb (Location.idlieu l) id)) (LIEU db))
          (EMPLOYE db) (AFFECTER db)).

Hypothesis P_employee_created : forall e db,
  P db -> location_known e db ->
  (forall r, In r (EMPLOYE db) ->
     Employee.numEmp r <> Employee.numEmp e
     /\ Employee.mail r <> Employee.mail e) ->
  P (mkDB (LIEU db) (EMPLOYE db ++ [e]) (AFFECTER db)).

Hypothesis P_employee_updated : forall e id db,
  P db -> location_known e db ->
  (forall r, In r (EMPLOYE db) -> Employee.numEmp r <> id ->
             Employee.mail r <> Employee.mail e) ->
  List.length (filter (fun r => String.eqb (Employee.numEmp r) id) (EMPLOYE db))
  = 1%nat ->
  P (mkDB (LIEU db) (Sql.employe_update e id (EMPLOYE db)) (AFFECTER db)).

Hypothesis P_employee_deleted : forall id db,
  P db -> Sql.count_assignments_of id db = 0%nat ->
  P (mkDB (LIEU db) (Sql.employe_delete id (EMPLOYE db)) (AFFECTER db)).

Hypothesis P_inserted : forall a db,
  P db ->
  Sql.find_employee (Assignment.numEmp a) db <> None ->
  Sql.find_location (Assignment.AncienLieu a) db <> None ->
  Sql.find_location (Assignment.NouveauLieu a) db <> None ->
  id_in_use (Assignment.numAffect a) db = false ->
  P (inserted a db).

Hypothesis P_updated : forall id a db,
  P db ->
  Sql.find_employee (Assignment.numEmp a) db <> None ->
  Sql.find_location (Assignment.AncienLieu a) db <> None ->
  Sql.find_location (Assignment.NouveauLieu a) db <> None ->
  P (updated id a db).

Hypothesis P_deleted : forall id n db, P db -> P (deleted id n db).

(** A property of the store that the nine committed changes keep is kept
    by every request, and no request leaves a transaction open. *)
Lemma serve_preserves r db :
  P db -> exists db', serve r (connect db) = connect db' /\ P db'.
Proof.
  intros HP. destruct r as [data|id data|id|data|id data|id|o]; cbn [serve].
  - destruct (location_create_cases data db) as [[msg F]|(_ & Hl & S)].
    + exists db. rewrite F. auto.
    + eexists. rewrite S. split; [reflexivity|]. now apply P_location_created.
  - destruct (location_update_cases id data db) as [[msg F]|(x & _ & _ & S)].
    + exists db. rewrite F. auto.
    + eexists. rewrite S. split; [reflexivity|]. now apply P_location_updated.
  - destruct (location_delete_cases id db) as [[msg F]|(_ & He & Ha & S)].
    + exists db. rewrite F. auto.
    + eexists. rewrite S. split; [reflexivity|]. now apply P_location_deleted.
  - destruct (employee_create_cases data db)
      as [[msg F]|(v & _ & _ & Hk & Hnew & S)].
    + exists db. rewrite F. auto.
    + eexists. rewrite S. split; [reflexivity|]. now apply P_employee_created.
  - destruct (employee_update_cases id data db)
      as [[msg F]|(x & _ & _ & Hk & Hother & Hone & S)].
    + exists db. rewrite F. auto.
    + eexists. rewrite S. split; [reflexivity|]. now apply P_employee_updated.
  - destruct (employee_delete_cases id db) as [[msg F]|(_ & Ha & S)].
    + exists db. rewrite F. auto.
    + eexists. rewrite S. split; [reflexivity|]. now apply P_employee_deleted.
  - destruct o as [today data|today id data|id]; cbn [step].
    + destruct (create_cases_checked today data db)
        as [[msg F]|(v & e & _ & He & _ & Ho & Hn & Hid & S)].
      * exists db. rewrite F. auto.
      * eexists. rewrite S. split; [reflexivity|].
        apply P_inserted; try assumption. congruence.
    + destruct (update_cases_checked today id data db)
        as [(o & F & _)|(x & _ & _ & He & Ho & Hn & S)].
      * exists db. rewrite F. auto.
      * eexists. rewrite S. split; [reflexivity|]. now apply P_updated.
    + destruct (delete_cases id db) as [[msg F]|(x & _ & S)].
      * exists db. rewrite F. auto.
      * eexists. rewrite S. split; [reflexivity|]. now apply P_deleted.
Qed.

Lemma serve_all_preserves rs : forall db,
  P db -> exists db', serve_all rs (connect db) = connect db' /\ P db'.
Proof.
  induction rs as [|r rs IH]; intros db HP.
  - exists db. auto.
  - destruct (serve_preserves r db HP) as (db1 & E1 & HP1).
    destruct (IH db1 HP1) as (db' & E & HP').
    exists db'. unfold serve_all in *. cbn [fold_left]. rewrite E1. auto.
Qed.

End Serving.

(** ** Stripped texts *)

Section StripFacts.

Variable sp : ascii -> bool.

Lemma rstrip_by_cons c t :
  Py.rstrip_by sp (String c t)
  = match Py.rstrip_by sp t with
    | EmptyString => if sp c then EmptyString else String c EmptyString
    | r => String c r
    end.
Proof. reflexivity. Qed.

Lemma rstrip_by_idem s : Py.rstrip_by sp (Py.rstrip_by sp s) = Py.rstrip_by sp s.
Proof.
  induction s as [|c s IH]; [reflexivity|].
  rewrite rstrip_by_cons. destruct (Py.rstrip_by sp s) as [|d r] eqn:E.
  - destruct (sp c) eqn:Ec; [reflexivity|]. cbn [Py.rstrip_by]. now rewrite Ec.
  - rewrite rstrip_by_cons, IH. reflexivity.
Qed.

Lemma lstrip_by_head s :
  Py.lstrip_by sp s = ""
  \/ exists c t, Py.lstrip_by sp s = String c t /\ sp c = false.
Proof.
  induction s as [|c s IH]; [now left|].
  cbn [Py.lstrip_by]. destruct (sp c) eqn:Ec; [assumption|].
  right. eauto.
Qed.

Lemma rstrip_by_head c t :
  sp c = false -> exists u, Py.rstrip_by sp (String c t) = String c u.
Proof.
  intros Ec. cbn [Py.rstrip_by].
  destruct (Py.rstrip_by sp t); [rewrite Ec|]; eauto.
Qed.

End StripFacts.

Lemma strip_idempotent s : Py.strip (Py.strip s) = Py.strip s.
Proof.
  unfold Py.strip.
  destruct (lstrip_by_head Py.is_space s) as [E|(c & t & E & Ec)]; rewrite E.
  - reflexivity.
  - destruct (rstrip_by_head Py.is_space c t Ec) as [u Eu]. rewrite Eu.
    cbn [Py.lstrip_by]. rewrite Ec. rewrite <- Eu. apply rstrip_by_idem.
Qed.

Lemma strip_truthy s : Py.truthy (Py.strip s) = true -> Py.truthy s = true.
Proof. now destruct s. Qed.

Section ControllerFacts.

Lemma find_app_none {A} (f : A -> bool) l l' :
  find f l = None -> find f (l ++ l') = find f l'.
Proof.
  induction l as [|x l IH]; [reflexivity|]. cbn [find app].
  destruct (f x); [discriminate|assumption].
Qed.

Lemma filter_all {A} (f : A -> bool) l :
  (forall x, In x l -> f x = true) -> filter f l = l.
Proof.
  induction l as [|x l IH]; intros H; [reflexivity|]. cbn [filter].
  rewrite (H x (or_introl eq_refl)). f_equal. apply IH.
  intros y Hy. apply H. now right.
Qed.

Lemma find_filter_other {A} (f g : A -> bool) l :
  (forall x, f x = true -> g x = true) ->
  find f (filter g l) = find f l.
Proof.
  intros H. induction l as [|x l IH]; [reflexivity|]. cbn [filter find].
  destruct (g x) eqn:Eg; cbn [find]; destruct (f x) eqn:Ef; auto.
  rewrite (H x Ef) in Eg. discriminate.
Qed.

Lemma existsb_none {A} (f : A -> bool) l :
  (forall x, In x l -> f x = false) -> existsb f l = false.
Proof.
  intros H. destruct (existsb f l) eqn:E; [|reflexivity].
  apply existsb_exists in E as (x & Hin & Hf). now rewrite (H x Hin) in Hf.
Qed.

Lemma find_map_key {A} (key : A -> string) (g : A -> A) rows x :
  (forall r, key (g r) = key r) ->
  find (fun r => String.eqb (key r) x) (map g rows)
  = option_map g (find (fun r => String.eqb (key r) x) rows).
Proof.
  intros H. induction rows as [|r rows IH]; [reflexivity|].
  cbn [map find]. rewrite H. destruct (String.eqb (key r) x); [reflexivity|exact IH].
Qed.

Lemma location_validate_stripped i d p :
  Py.truthy (Py.strip i) = true -> Py.truthy (Py.strip d) = true ->
  Py.truthy (Py.strip p) = true ->
  Location.validate (Location.mk (Py.strip i) (Py.strip d) (Py.strip p)) = (true, "").
Proof.
  intros Hi Hd Hp. unfold Location.validate.
  cbn [Location.idlieu Location.design Location.province].
  now rewrite !strip_idempotent, Hi, Hd, Hp.
Qed.

End ControllerFacts.

(** X6. A location form whose three fields are present and not blank, under
    an identifier that no location has yet, is created: the row with the
    three stripped texts is appended to LIEU and committed, and
    [get_by_id] of the stripped identifier returns it. [Database.add_location]
    called with the three stripped texts leaves the same connection. *)
Theorem location_create_then_get (db : DB) (data : dict) (i d p : string) :
  dict_get data "idlieu" = Some i ->
  dict_get data "design" = Some d ->
  dict_get data "province" = Some p ->
  Py.truthy (Py.strip i) = true ->
  Py.truthy (Py.strip d) = true ->
  Py.truthy (Py.strip p) = true ->
  Sql.find_location (Py.strip i) db = None ->
  let l := Location.mk (Py.strip i) (Py.strip d) (Py.strip p) in
  let c' := connect (mkDB (LIEU db ++ [l]) (EMPLOYE db) (AFFECTER db)) in
  LocationController.create data (connect db)
  = (Ok (true, "Location created successfully!"), c')
  /\ LocationController.get_by_id (Py.strip i) c' = (Ok (Some l), c')
  /\ Database.add_location (Py.strip i) (Py.strip d) (Py.strip p) (connect db)
     = (Ok (true, "Location added successfully!"), c').
Proof.
  intros Hi Hd Hp Ti Td Tp Hnew l c'.
  assert (Hloc : LocationController.location_of data = l).
  { unfold LocationController.location_of, dict_item. now rewrite Hi, Hd, Hp. }
  split; [|split].
  - unfold LocationController.create.
    unfold BaseController._validate_required_fields, BaseController.missing_fields,
      LocationController.required_fields.
    cbn [filter]. rewrite Hi, Hd, Hp.
    rewrite (strip_truthy _ Ti), (strip_truthy _ Td), (strip_truthy _ Tp).
    cbn [negb]. rewrite Hloc.
    unfold l at 1. rewrite (location_validate_stripped i d p Ti Td Tp).
    cbn [negb]. unfold LocationController.get_by_id, Location_get, Sql.insert_lieu.
    run_m. cbn [Location.idlieu l]. rewrite Hnew. norm_m.
    unfold Sql.find_location in Hnew. rewrite (find_none_existsb _ _ Hnew).
    reflexivity.
  - unfold LocationController.get_by_id, Location_get, c'. run_m.
    unfold Sql.find_location in *. cbn [LIEU].
    rewrite (find_app_none _ _ _ Hnew). cbn [find l Location.idlieu].
    now rewrite String.eqb_refl.
  - unfold Database.add_location, Sql.insert_lieu. run_m. cbn [Location.idlieu].
    unfold Sql.find_location in Hnew. rewrite (find_none_existsb _ _ Hnew).
    reflexivity.
Qed.

Lemma location_create_then_get_witness :
  let data := [("idlieu", " L11 "); ("design", "Nosy Be "); ("province", "Antsiranana")] in
  let db := mkDB Database.sample_locations [] [] in
  let l := Location.mk "L11" "Nosy Be" "Antsiranana" in
  let c' := connect (mkDB (LIEU db ++ [l]) (EMPLOYE db) (AFFECTER db)) in
  LocationController.create data (connect db)
  = (Ok (true, "Location created successfully!"), c')
  /\ LocationController.get_by_id "L11" c' = (Ok (Some l), c')
  /\ Database.add_location "L11" "Nosy Be" "Antsiranana" (connect db)
     = (Ok (true, "Location added successfully!"), c').
Proof.
  apply (location_create_then_get (mkDB Database.sample_locations [] [])
           [("idlieu", " L11 "); ("design", "Nosy Be "); ("province", "Antsiranana")]
           " L11 " "Nosy Be " "Antsiranana"); reflexivity.
Defined.

(** X7. [LocationController.create] never replaces a location: when a row
    of LIEU has the stripped identifier of the form, the call is refused
    and the store is what it was. *)
Theorem location_create_existing_refused (db : DB) (data : dict) :
  Sql.find_location (Py.strip (dict_item data "idlieu")) db <> None ->
  exists msg,
    LocationController.create data (connect db) = (Ok (false, msg), connect db).
Proof.
  intros Hex.
  destruct (location_create_cases data db) as [F|(_ & Hnone & _)]; [assumption|].
  now cbn [LocationController.location_of Location.idlieu] in Hnone.
Qed.

Lemma location_create_existing_refused_witness :
  exists msg,
    LocationController.create
      [("idlieu", "L3"); ("design", "Ambositra"); ("province", "Fianarantsoa")]
      (connect (mkDB Database.sample_locations [] []))
    = (Ok (false, msg), connect (mkDB Database.sample_locations [] [])).
Proof.
  apply (location_create_existing_refused (mkDB Database.sample_locations [] [])
           [("idlieu", "L3"); ("design", "Ambositra"); ("province", "Fianarantsoa")]).
  vm_compute. discriminate.
Defined.

(** X8. Deleting a location that exists and that no employee and no
    assignment row names succeeds: its rows leave LIEU, every other
    location is found as before, and EMPLOYE and AFFECTER are untouched. *)
Theorem location_delete_unreferenced (db : DB) (location_id : string) :
  Sql.find_location location_id db <> None ->
  (forall e, In e (EMPLOYE db) -> Employee.idlieu e <> Some location_id) ->
  (forall a, In a (AFFECTER db) ->
     Assignment.AncienLieu a <> location_id
     /\ Assignment.NouveauLieu a <> location_id) ->
  exists db',
    LocationController.delete location_id (connect db)
    = (Ok (true, "Location deleted successfully!"), connect db')
    /\ Sql.find_location location_id db' = None
    /\ (forall x, x <> location_id ->
          Sql.find_location x db' = Sql.find_location x db)
    /\ EMPLOYE db' = EMPLOYE db /\ AFFECTER db' = AFFECTER db.
Proof.
  intros Hex Hemp Haff.
  destruct (location_delete_cases location_id db) as [[msg F]|(_ & _ & _ & S)].
  - exfalso.
    unfold LocationController.delete, LocationController.get_by_id, Location_get in F.
    run_m.
    destruct (Sql.find_location location_id db) as [l|] eqn:Hl; [|congruence].
    norm_m.
    assert (He : Sql.count_employees_at location_id db = 0%nat).
    { unfold Sql.count_employees_at. rewrite (proj2 (List.length_zero_iff_nil _)); [reflexivity|].
      destruct (filter _ (EMPLOYE db)) as [|e es] eqn:Ef; [reflexivity|].
      assert (Hin : In e (filter (fun e =>
                 match Employee.idlieu e with
                 | Some l => String.eqb l location_id
                 | None => false
                 end) (EMPLOYE db))) by (rewrite Ef; now left).
      apply filter_In in Hin as [Hin Hb].
      specialize (Hemp e Hin). destruct (Employee.idlieu e) as [x|]; [|discriminate].
      apply String.eqb_eq in Hb. congruence. }
    assert (Ha : Sql.count_assignments_at location_id db = 0%nat).
    { unfold Sql.count_assignments_at. rewrite (proj2 (List.length_zero_iff_nil _)); [reflexivity|].
      destruct (filter _ (AFFECTER db)) as [|a rs] eqn:Ef; [reflexivity|].
      assert (Hin : In a (filter (fun a =>
                 String.eqb (Assignment.AncienLieu a) location_id
                 || String.eqb (Assignment.NouveauLieu a) location_id)
                 (AFFECTER db))) by (rewrite Ef; now left).
      apply filter_In in Hin as [Hin Hb].
      destruct (Haff a Hin) as [H1 H2].
      apply String.eqb_neq in H1, H2. rewrite H1, H2 in Hb. discriminate. }
    rewrite He in F. change (Nat.ltb 0 0) with false in F. norm_m.
    rewrite Ha in F. change (Nat.ltb 0 0) with false in F. norm_m.
    unfold Sql.delete_lieu in F. run_m.
    destruct (Nat.eqb _ 0); norm_m; inversion F.
  - eexists. split; [exact S|]. cbn [LIEU EMPLOYE AFFECTER].
    unfold Sql.find_location. cbn [LIEU]. repeat split.
    + destruct (find _ (filter _ (LIEU db))) as [l|] eqn:E; [|reflexivity].
      apply find_some in E as [Hin Heq]. apply filter_In in Hin as [_ Hb].
      rewrite Heq in Hb. discriminate.
    + intros x Hx. apply find_filter_other.
      intros l Hl. apply String.eqb_eq in Hl. apply negb_true_iff.
      apply String.eqb_neq. congruence.
Qed.

Lemma location_delete_unreferenced_witness :
  exists db',
    LocationController.delete "L3" (connect origin_check_db)
    = (Ok (true, "Location deleted successfully!"), connect db')
    /\ Sql.find_location "L3" db' = None
    /\ (forall x, x <> "L3" ->
          Sql.find_location x db' = Sql.find_location x origin_check_db)
    /\ EMPLOYE db' = EMPLOYE origin_check_db
    /\ AFFECTER db' = AFFECTER origin_check_db.
Proof.
  apply (location_delete_unreferenced origin_check_db "L3").
  - vm_compute. discriminate.
  - intros e [<-|[]]. discriminate.
  - intros a [].
Defined.

(** X9. Deleting an employee who has at least one assignment row is refused
    for the history the employee has, and the store is what it was. *)
Theorem employee_delete_with_history (db : DB) (employee_id : string) :
  Sql.find_employee employee_id db <> None ->
  (exists a, In a (AFFECTER db) /\ Assignment.numEmp a = employee_id) ->
  EmployeeController.delete employee_id (connect db)
  = (Ok (false, "Cannot delete employee: Employee has assignment history."),
     connect db).
Proof.
  intros Hex (a & Ha & Hn).
  unfold EmployeeController.delete, EmployeeController.get_by_id. run_m.
  destruct (Sql.find_employee employee_id db) as [e|]; [|congruence]. norm_m.
  assert (Hpos : Nat.ltb 0 (Sql.count_assignments_of employee_id db) = true).
  { apply Nat.ltb_lt. unfold Sql.count_assignments_of.
    apply (filter_length_pos _ _ a Ha). now apply String.eqb_eq. }
  now rewrite Hpos.
Qed.

Lemma employee_delete_with_history_witness :
  EmployeeController.delete "E2" (connect unassigned_db)
  = (Ok (false, "Cannot delete employee: Employee has assignment history."),
     connect unassigned_db).
Proof.
  apply (employee_delete_with_history unassigned_db "E2").
  - vm_compute. discriminate.
  - exists (Assignment.mk "A001" "E2" "L1" "L2" "2024-01-10" "2024-01-15").
    split; [simpl; tauto|reflexivity].
Defined.

(** X10. Deleting an employee who exists and has no assignment row
    succeeds: [get_by_id] no longer finds the identifier, every other
    employee is found as before, and LIEU and AFFECTER are untouched. *)
Theorem employee_delete_without_history (db : DB) (employee_id : string) :
  Sql.find_employee employee_id db <> None ->
  (forall a, In a (AFFECTER db) -> Assignment.numEmp a <> employee_id) ->
  exists db',
    EmployeeController.delete employee_id (connect db)
    = (Ok (true, "Employee deleted successfully!"), connect db')
    /\ EmployeeController.get_by_id employee_id (connect db')
       = (Ok None, connect db')
    /\ (forall x, x <> employee_id ->
          Sql.find_employee x db' = Sql.find_employee x db)
    /\ LIEU db' = LIEU db /\ AFFECTER db' = AFFECTER db.
Proof.
  intros Hex Hnone.
  assert (Hc : Sql.count_assignments_of employee_id db = 0%nat).
  { unfold Sql.count_assignments_of. rewrite (proj2 (List.length_zero_iff_nil _)); [reflexivity|].
    destruct (filter _ (AFFECTER db)) as [|a rs] eqn:Ef; [reflexivity|].
    assert (Hin : In a (filter (fun a => String.eqb (Assignment.numEmp a) employee_id)
                               (AFFECTER db))) by (rewrite Ef; now left).
    apply filter_In in Hin as [Hin Hb]. apply String.eqb_eq in Hb.
    now destruct (Hnone a Hin). }
  destruct (employee_delete_cases employee_id db) as [[msg F]|(_ & _ & S)].
  - exfalso.
    unfold EmployeeController.delete, EmployeeController.get_by_id in F. run_m.
    destruct (Sql.find_employee employee_id db) as [e|] eqn:He; [|congruence].
    norm_m. rewrite Hc in F. change (Nat.ltb 0 0) with false in F. norm_m.
    unfold Sql.delete_employe in F. run_m.
    destruct (Nat.eqb _ 0); norm_m; inversion F.
  - eexists. split; [exact S|]. cbn [LIEU EMPLOYE AFFECTER].
    unfold EmployeeController.get_by_id. run_m.
    unfold Sql.find_employee, Sql.employe_delete. cbn [EMPLOYE].
    assert (Hgone : find (fun e => String.eqb (Employee.numEmp e) employee_id)
                      (filter (fun r => negb (String.eqb (Employee.numEmp r) employee_id))
                              (EMPLOYE db)) = None).
    { destruct (find _ (filter _ (EMPLOYE db))) as [l|] eqn:E; [|reflexivity].
      apply find_some in E as [Hin Heq]. apply filter_In in Hin as [_ Hb].
      rewrite Heq in Hb. discriminate. }
    rewrite Hgone. repeat split.
    intros x Hx. apply find_filter_other.
    intros l Hl. apply String.eqb_eq in Hl. apply negb_true_iff.
    apply String.eqb_neq. congruence.
Qed.

Lemma employee_delete_without_history_witness :
  exists db',
    EmployeeController.delete "E1" (connect unassigned_db)
    = (Ok (true, "Employee deleted successfully!"), connect db')
    /\ EmployeeController.get_by_id "E1" (connect db') = (Ok None, connect db')
    /\ (forall x, x <> "E1" ->
          Sql.find_employee x db' = Sql.find_employee x unassigned_db)
    /\ LIEU db' = LIEU unassigned_db /\ AFFECTER db' = AFFECTER unassigned_db.
Proof.
  apply (employee_delete_without_history unassigned_db "E1").
  - vm_compute. discriminate.
  - intros a [<-|[]]. discriminate.
Defined.

(** X11. [EmployeeController.create] never stores a second employee under
    an address or an identifier that a row of EMPLOYE has: when the
    stripped lower-case address of the form, or its stripped non-empty
    identifier, is that of a stored employee, the call is refused and the
    store is what it was. *)
Theorem employee_create_duplicate_refused (db : DB) (data : dict) (r : Employee.t) :
  In r (EMPLOYE db) ->
  Employee.mail r = Py.lower (Py.strip (dict_item data "mail"))
  \/ (Py.truthy (dict_item data "numEmp") = true
      /\ Employee.numEmp r = Py.strip (dict_item data "numEmp")) ->
  exists msg,
    EmployeeController.create data (connect db) = (Ok (false, msg, None), connect db).
Proof.
  intros Hin Hdup.
  destruct (employee_create_cases data db) as [F|(v & Hv & _ & _ & Hnew & _)];
    [assumption|].
  exfalso. destruct (Hnew r Hin) as [Hid Hmail].
  destruct Hdup as [Hm|[Ht Hn]].
  - apply Hmail. exact Hm.
  - apply Hid. rewrite Hn. cbn [EmployeeController.employee_of Employee.numEmp].
    unfold EmployeeController.numEmp_of, dict_item in *.
    destruct (dict_get data "numEmp") as [w|]; [|discriminate].
    rewrite Ht in Hv. unfold ret in Hv. congruence.
Qed.

Lemma employee_create_duplicate_refused_witness :
  exists msg,
    EmployeeController.create
      [("civilite", "Mme"); ("nom", "Rasoa"); ("prenom", "Lala");
       ("mail", " Marie@Example.com "); ("poste", "Analyst")]
      (connect unassigned_db)
    = (Ok (false, msg, None), connect unassigned_db).
Proof.
  apply (employee_create_duplicate_refused unassigned_db
           [("civilite", "Mme"); ("nom", "Rasoa"); ("prenom", "Lala");
            ("mail", " Marie@Example.com "); ("poste", "Analyst")]
           (Employee.mk "E2" "Mme" "Rasoa" "Marie" "marie@example.com" "Manager"
                        (Some "L2"))).
  - simpl. tauto.
  - left. reflexivity.
Defined.

(** X12. What [EmployeeController.create] reports as created is what
    [get_by_id] returns for the reported identifier: the row appended to
    EMPLOYE, with the stripped texts of the form, the address in lower
    case, a title among Mr, Mme and Mlle, and the location of the form.
    [Database.add_employee] called with the values of that row leaves the
    same connection. *)
Theorem employee_create_then_get
    (db : DB) (data : dict) (msg id : string) (c' : Conn) :
  EmployeeController.create data (connect db) = (Ok (true, msg, Some id), c') ->
  exists e,
    EmployeeController.get_by_id id c' = (Ok (Some e), c')
    /\ c' = connect (mkDB (LIEU db) (EMPLOYE db ++ [e]) (AFFECTER db))
    /\ Employee.numEmp e = id
    /\ Employee.civilite e = Py.strip (dict_item data "civilite")
    /\ In (Employee.civilite e) Employee.CIVILITE_OPTIONS
    /\ Employee.nom e = Py.strip (dict_item data "nom")
    /\ Employee.prenom e = Py.strip (dict_item data "prenom")
    /\ Employee.mail e = Py.lower (Py.strip (dict_item data "mail"))
    /\ Employee.poste e = Py.strip (dict_item data "poste")
    /\ Employee.idlieu e = dict_get data "idlieu"
    /\ Database.add_employee id (Employee.civilite e) (Employee.nom e)
         (Employee.prenom e) (Employee.mail e) (Employee.poste e)
         (Employee.idlieu e) (connect db)
       = (Ok (true, "Employee added successfully!"), c').
Proof.
  intros H.
  destruct (employee_create_cases data db)
    as [[m F]|(v & _ & Hval & _ & Hnew & S)]; [congruence|].
  cbv zeta in *. rewrite S in H. inversion H. subst.
  exists (EmployeeController.employee_of v data).
  split; [|split; [reflexivity|]].
  - unfold EmployeeController.get_by_id. run_m.
    unfold Sql.find_employee. cbn [EMPLOYE].
    rewrite find_app_none.
    + cbn [find]. now rewrite String.eqb_refl.
    + destruct (find _ (EMPLOYE db)) as [r|] eqn:E; [|reflexivity].
      apply find_some in E as [Hin Heq]. apply String.eqb_eq in Heq.
      now destruct (Hnew r Hin).
  - pose proof (employee_validate_civilite _ _ Hval) as Hciv.
    repeat split.
    + apply existsb_exists in Hciv as (x & Hx & Heq).
      apply String.eqb_eq in Heq.
      cbn [EmployeeController.employee_of Employee.civilite] in *. congruence.
    + unfold Database.add_employee, Sql.insert_employe. run_m.
      cbn [EmployeeController.employee_of Employee.civilite Employee.numEmp
           Employee.mail] in *.
      rewrite Hciv. cbn [negb].
      rewrite !existsb_none; [reflexivity| |]; intros r Hin;
        apply String.eqb_neq; now destruct (Hnew r Hin).
Qed.

Lemma employee_create_then_get_witness :
  let data := [("civilite", "Mlle"); ("nom", " Rabe"); ("prenom", "Soa ");
               ("mail", "Soa.Rabe@Example.COM"); ("poste", "Designer");
               ("idlieu", "L1")] in
  let created := Employee.mk "E003" "Mlle" "Rabe" "Soa" "soa.rabe@example.com"
                             "Designer" (Some "L1") in
  let c' := connect (mkDB (LIEU unassigned_db) (EMPLOYE unassigned_db ++ [created])
                          (AFFECTER unassigned_db)) in
  exists e,
    EmployeeController.get_by_id "E003" c' = (Ok (Some e), c')
    /\ c' = connect (mkDB (LIEU unassigned_db) (EMPLOYE unassigned_db ++ [e])
                          (AFFECTER unassigned_db))
    /\ Employee.numEmp e = "E003"
    /\ Employee.civilite e = Py.strip (dict_item data "civilite")
    /\ In (Employee.civilite e) Employee.CIVILITE_OPTIONS
    /\ Employee.nom e = Py.strip (dict_item data "nom")
    /\ Employee.prenom e = Py.strip (dict_item data "prenom")
    /\ Employee.mail e = Py.lower (Py.strip (dict_item data "mail"))
    /\ Employee.poste e = Py.strip (dict_item data "poste")
    /\ Employee.idlieu e = dict_get data "idlieu"
    /\ Database.add_employee "E003" (Employee.civilite e) (Employee.nom e)
         (Employee.prenom e) (Employee.mail e) (Employee.poste e)
         (Employee.idlieu e) (connect unassigned_db)
       = (Ok (true, "Employee added successfully!"), c').
Proof.
  apply (employee_create_then_get unassigned_db
           [("civilite", "Mlle"); ("nom", " Rabe"); ("prenom", "Soa ");
            ("mail", "Soa.Rabe@Example.COM"); ("poste", "Designer");
            ("idlieu", "L1")]
           "Employee created successfully!" "E003").
  reflexivity.
Defined.



(** X14. The primary keys and the unique address are kept as well: from a
    store in which no two locations, employees or assignment rows share an
    identifier and no two employees share an address, any sequence of
    requests to the three controllers ends with no transaction open and in
    a store with the same property. *)
Theorem controllers_keep_keys (rs : list request) (db : DB) :
  tables_keyed db ->
  exists db', serve_all rs (connect db) = connect db' /\ tables_keyed db'.
Proof.
  apply (serve_all_preserves tables_keyed).
  - intros l d H Hl. now apply keyed_location_created.
  - intros d p id d0 H. now apply keyed_location_updated.
  - intros id d H _ _. now apply keyed_location_deleted.
  - intros e d H _ Hnew. now apply keyed_employee_created.
  - intros e id d H _ Hother Hone. now apply keyed_employee_updated.
  - intros id d H _. now apply keyed_employee_deleted.
  - intros a d H _ _ _ Hid. now apply keyed_tables_inserted.
  - intros id a d H _ _ _. now apply keyed_tables_updated.
  - intros id n d H. now apply keyed_tables_deleted.
Qed.

Lemma controllers_keep_keys_witness :
  exists db',
    serve_all mixed_requests (connect origin_check_db) = connect db'
    /\ tables_keyed db'.
Proof.
  apply (controllers_keep_keys mixed_requests origin_check_db).
  unfold tables_keyed, keyed. simpl.
  repeat split; repeat constructor; simpl; intuition discriminate.
Defined.

Example mixed_requests_run :
  let db' := committed (serve_all mixed_requests (connect origin_check_db)) in
  map Location.idlieu (LIEU db') = ["L1"; "L2"; "L4"]
  /\ EMPLOYE db'
     = [Employee.mk "E1" "Mr" "Rabe" "Paul" "paul@example.com" "Analyst" None]
  /\ AFFECTER db' = [].
Proof. repeat split; reflexivity. Qed.

(** ** The Database layer *)

Section DatabaseFacts.



Lemma db_eta db : mkDB (LIEU db) (EMPLOYE db) (AFFECTER db) = db.
Proof. now destruct db. Qed.

Lemma filter_none_same {A} (f : A -> bool) l :
  List.length (filter f l) = 0%nat -> filter (fun x => negb (f x)) l = l.
Proof.
  intros H. apply filter_all. intros x Hin.
  now rewrite (filter_none_length f l H x Hin).
Qed.

End DatabaseFacts.



(** On dates that read as numbers the ORDER BY of the delete compares
    numbers: of the remaining rows 9 and 10 of E1 the second is the first
    of the descending order, where the order of texts would put the
    first. *)
Example delete_assignment_orders_numbers :
  let r := Database.delete_assignment "A3" (connect numeric_dates_db) in
  fst r = Ok (true, "Assignment deleted and employee location updated!")
  /\ map Employee.idlieu (EMPLOYE (committed (snd r))) = [Some "L3"]
  /\ String.compare "9" "10" = Gt
  /\ Sql.value_cmp (Sql.stored "9") (Sql.stored "10") = Lt.
Proof. cbv zeta. repeat split; vm_compute; reflexivity. Qed.

(** X16. [Database.add_location] catches the IntegrityError of a duplicate
    identifier without a rollback: the store is unchanged, but the
    transaction that the INSERT opened stays open. On that connection the
    next [Database.add_assignment] is refused, whatever its arguments,
    because its BEGIN TRANSACTION fails, and its handler rolls back. The
    next [AssignmentController.create] writes nothing either: one of its
    checks refuses it and the transaction stays open, or its BEGIN
    TRANSACTION fails and its handler rolls back, which closes the
    transaction. So a create that the store admits is refused once, and
    succeeds when it is sent again. *)
Theorem add_location_duplicate_leaves_transaction_open
    (db : DB) (idlieu design province : string) :
  Sql.find_location idlieu db <> None ->
  let r := Database.add_location idlieu design province (connect db) in
  let begin_failed :=
    "Error creating assignment: cannot start a transaction within a transaction" in
  r = (Ok (false, "Error adding location: UNIQUE constraint failed: LIEU.idlieu"),
       mkConn db db true [] [])
  /\ (forall numAffect numEmp ancien nouveau d1 d2,
        Database.add_assignment numAffect numEmp ancien nouveau d1 d2 (snd r)
        = (Ok (false,
               "An error occurred: cannot start a transaction within a transaction"),
           connect db))
  /\ (forall today data,
        (exists msg,
           AssignmentController.create today data (snd r)
           = (Ok (false, msg, None), snd r))
        \/ AssignmentController.create today data (snd r)
           = (Ok (false, begin_failed, None), connect db))
  /\ (forall today data msg i c',
        AssignmentController.create today data (connect db)
        = (Ok (true, msg, i), c') ->
        let r1 := AssignmentController.create today data (snd r) in
        r1 = (Ok (false, begin_failed, None), connect db)
        /\ AssignmentController.create today data (snd r1)
           = (Ok (true, msg, i), c')).
Proof.
  intros Hex r begin_failed.
  assert (Hr : r = (Ok (false, "Error adding location: UNIQUE constraint failed: LIEU.idlieu"),
                    mkConn db db true [] [])).
  { subst r. unfold Database.add_location, Sql.insert_lieu. run_m.
    cbn [Location.idlieu].
    destruct (existsb _ (LIEU db)) eqn:E; [reflexivity|].
    exfalso. apply Hex. unfold Sql.find_location.
    destruct (find _ (LIEU db)) as [l|] eqn:F; [|reflexivity].
    apply find_some in F as [Hin Heq].
    rewrite (existsb_false_in _ _ E l Hin) in Heq. discriminate. }
  rewrite Hr. cbn [snd]. split; [reflexivity|]. split; [intros; reflexivity|].
  split.
  - intros today data.
    remember (AssignmentController.create today data (mkConn db db true [] []))
      as res eqn:Hres.
    unfold AssignmentController.create in Hres.
    destruct (BaseController._validate_required_fields _ _) as [[|] m1];
      cbn [negb] in Hres; [|left; eexists; exact Hres].
    unfold AssignmentController.numAffect_of, generate_assignment_id,
      Employee_get, Location_get, Sql.insert_affecter,
      Sql.update_employe_idlieu in Hres.
    run_m.
    repeat branch Hres;
      first [left; eexists; exact Hres|right; exact Hres].
  - intros today data msg i c' Hok. cbv zeta.
    assert (Hfirst : AssignmentController.create today data (mkConn db db true [] [])
                     = (Ok (false, begin_failed, None), connect db)).
    { remember (AssignmentController.create today data (mkConn db db true [] []))
        as res eqn:Hres.
      unfold AssignmentController.create in Hres, Hok.
      destruct (BaseController._validate_required_fields _ _) as [[|] m1];
        cbn [negb] in Hres, Hok; [|discriminate Hok].
      unfold AssignmentController.numAffect_of, generate_assignment_id,
        Employee_get, Location_get, Sql.insert_affecter,
        Sql.update_employe_idlieu in Hres, Hok.
      run_m.
      repeat (branch Hres; cbn [negb] in Hok; norm_m);
        first [discriminate Hok|exact Hres]. }
    rewrite Hfirst. cbn [snd]. split; [reflexivity|exact Hok].
Qed.

Lemma add_location_duplicate_leaves_transaction_open_witness :
  let db := origin_check_db in
  let r := Database.add_location "L2" "Branch" "South" (connect db) in
  let begin_failed :=
    "Error creating assignment: cannot start a transaction within a transaction" in
  r = (Ok (false, "Error adding location: UNIQUE constraint failed: LIEU.idlieu"),
       mkConn db db true [] [])
  /\ (forall numAffect numEmp ancien nouveau d1 d2,
        Database.add_assignment numAffect numEmp ancien nouveau d1 d2 (snd r)
        = (Ok (false,
               "An error occurred: cannot start a transaction within a transaction"),
           connect db))
  /\ (forall today data,
        (exists msg,
           AssignmentController.create today data (snd r)
           = (Ok (false, msg, None), snd r))
        \/ AssignmentController.create today data (snd r)
           = (Ok (false, begin_failed, None), connect db))
  /\ (forall today data msg i c',
        AssignmentController.create today data (connect db)
        = (Ok (true, msg, i), c') ->
        let r1 := AssignmentController.create today data (snd r) in
        r1 = (Ok (false, begin_failed, None), connect db)
        /\ AssignmentController.create today data (snd r1)
           = (Ok (true, msg, i), c')).
Proof.
  apply (add_location_duplicate_leaves_transaction_open origin_check_db
           "L2" "Branch" "South").
  vm_compute. discriminate.
Defined.

(** X17. The delete methods of [Database] and of the controllers agree:
    for a location, and for an employee, both paths report the same
    success or failure and leave the same committed store, with no
    transaction open. *)
Theorem delete_paths_agree (db : DB) (id : string) :
  (exists ok m1 m2 db',
     Database.delete_location id (connect db) = (Ok (ok, m1), connect db')
     /\ LocationController.delete id (connect db) = (Ok (ok, m2), connect db'))
  /\ (exists ok m1 m2 db',
        Database.delete_employee id (connect db) = (Ok (ok, m1), connect db')
        /\ EmployeeController.delete id (connect db) = (Ok (ok, m2), connect db')).
Proof.
  split.
  - remember (Database.delete_location id (connect db)) as r1 eqn:H1.
    remember (LocationController.delete id (connect db)) as r2 eqn:H2.
    unfold Database.delete_location in H1.
    unfold LocationController.delete, LocationController.get_by_id, Location_get in H2.
    unfold Sql.delete_lieu in *. run_m.
    destruct (Sql.find_location id db) as [l|] eqn:Hl; norm_m.
    + destruct (Nat.ltb 0 (Sql.count_employees_at id db)); norm_m;
        [subst; do 4 eexists; split; reflexivity|].
      destruct (Nat.ltb 0 (Sql.count_assignments_at id db)); norm_m;
        [subst; do 4 eexists; split; reflexivity|].
      unfold Sql.find_location in Hl. apply find_some in Hl as [Hin Heq].
      pose proof (filter_length_pos
                    (fun l => String.eqb (Location.idlieu l) id)
                    (LIEU db) l Hin Heq) as Hpos.
      assert (Hlt : Nat.ltb 0 (List.length
                      (filter (fun l => String.eqb (Location.idlieu l) id)
                              (LIEU db))) = true) by now apply Nat.ltb_lt.
      assert (Hnz : Nat.eqb (List.length
                      (filter (fun l => String.eqb (Location.idlieu l) id)
                              (LIEU db))) 0 = false) by (apply Nat.eqb_neq; lia).
      rewrite Hlt in H1. rewrite Hnz in H2. norm_m.
      subst. do 4 eexists. split; reflexivity.
    + assert (Hz : List.length (filter (fun l => String.eqb (Location.idlieu l) id)
                                       (LIEU db)) = 0%nat).
      { apply List.length_zero_iff_nil.
        destruct (filter _ (LIEU db)) as [|l ls] eqn:Ef; [reflexivity|].
        assert (Hin : In l (filter (fun l => String.eqb (Location.idlieu l) id)
                                   (LIEU db))) by (rewrite Ef; now left).
        apply filter_In in Hin as [Hin Hb].
        unfold Sql.find_location in Hl.
        rewrite (find_none _ _ Hl l Hin) in Hb. discriminate. }
      destruct (Nat.ltb 0 (Sql.count_employees_at id db)); norm_m;
        [subst; do 4 eexists; split; reflexivity|].
      destruct (Nat.ltb 0 (Sql.count_assignments_at id db)); norm_m;
        [subst; do 4 eexists; split; reflexivity|].
      rewrite Hz in H1. rewrite (filter_none_same _ _ Hz), db_eta in H1.
      subst; do 4 eexists; split; reflexivity.
  - remember (Database.delete_employee id (connect db)) as r1 eqn:H1.
    remember (EmployeeController.delete id (connect db)) as r2 eqn:H2.
    unfold Database.delete_employee in H1.
    unfold EmployeeController.delete, EmployeeController.get_by_id in H2.
    unfold Sql.delete_employe, Sql.employe_delete in *. run_m.
    destruct (Sql.find_employee id db) as [e|] eqn:He; norm_m.
    + destruct (Nat.ltb 0 (Sql.count_assignments_of id db)); norm_m;
        [subst; do 4 eexists; split; reflexivity|].
      unfold Sql.find_employee in He. apply find_some in He as [Hin Heq].
      pose proof (filter_length_pos
                    (fun r => String.eqb (Employee.numEmp r) id)
                    (EMPLOYE db) e Hin Heq) as Hpos.
      assert (Hlt : Nat.ltb 0 (List.length
                      (filter (fun r => String.eqb (Employee.numEmp r) id)
                              (EMPLOYE db))) = true) by now apply Nat.ltb_lt.
      assert (Hnz : Nat.eqb (List.length
                      (filter (fun r => String.eqb (Employee.numEmp r) id)
                              (EMPLOYE db))) 0 = false) by (apply Nat.eqb_neq; lia).
      rewrite Hlt in H1. rewrite Hnz in H2. norm_m.
      subst. do 4 eexists. split; reflexivity.
    + assert (Hz : List.length (filter (fun r => String.eqb (Employee.numEmp r) id)
                                       (EMPLOYE db)) = 0%nat).
      { apply List.length_zero_iff_nil.
        destruct (filter _ (EMPLOYE db)) as [|l ls] eqn:Ef; [reflexivity|].
        assert (Hin : In l (filter (fun r => String.eqb (Employee.numEmp r) id)
                                   (EMPLOYE db))) by (rewrite Ef; now left).
        apply filter_In in Hin as [Hin Hb].
        unfold Sql.find_employee in He.
        rewrite (find_none _ _ He l Hin) in Hb. discriminate. }
      destruct (Nat.ltb 0 (Sql.count_assignments_of id db)); norm_m;
        [subst; do 4 eexists; split; reflexivity|].
      rewrite Hz in H1. rewrite (filter_none_same _ _ Hz), db_eta in H1.
      subst; do 4 eexists; split; reflexivity.
Qed.

(** ** Undoing a create *)

Section CreateDelete.

Lemma delete_found id db x :
  Sql.find_assignment_joined id db = Some x ->
  AssignmentController.delete id (connect db)
  = (Ok (true, "Assignment deleted successfully!"),
     connect (deleted id (Assignment.numEmp x) db)).
Proof.
  intros Hx.
  destruct (delete_cases id db) as [[msg F]|(y & Hy & S)].
  - exfalso.
    unfold AssignmentController.delete, AssignmentController.get_by_id,
      Assignment_get_assignment in F. run_m. rewrite Hx in F. norm_m.
    unfold Sql.delete_affecter, Sql.update_employe_idlieu in F. run_m.
    apply find_assignment_joined_in in Hx as [Hin Hid].
    assert (Hpos : (0 < List.length
                      (filter (fun r => String.eqb (Assignment.numAffect r) id)
                              (AFFECTER db)))%nat).
    { apply (filter_length_pos _ _ x Hin). now apply String.eqb_eq. }
    destruct (Nat.eqb _ 0) eqn:Hz in F; [apply Nat.eqb_eq in Hz; lia|].
    norm_m. destruct (match Sql.latest_assignment _ db with
                      | Some latest => _ | None => false end);
      norm_m; inversion F.
  - rewrite Hx in Hy. inversion Hy. subst y. exact S.
Qed.

Lemma existsb_key_in {A} (key : A -> string) rows x :
  In x (map key rows) -> existsb (fun r => String.eqb (key r) x) rows = true.
Proof.
  intros Hin. apply in_map_iff in Hin as (r & <- & Hin).
  apply existsb_exists. exists r. split; [assumption|apply String.eqb_refl].
Qed.

Lemma set_idlieu_twice v v' n rows :
  Sql.employe_set_idlieu v n (Sql.employe_set_idlieu v' n rows)
  = Sql.employe_set_idlieu v n rows.
Proof.
  unfold Sql.employe_set_idlieu. rewrite map_map. apply map_ext.
  intros e. destruct (String.eqb (Employee.numEmp e) n) eqn:E.
  - cbn [Employee.set_idlieu Employee.numEmp]. now rewrite E.
  - now rewrite E.
Qed.

Lemma set_idlieu_same v n rows :
  (forall e, In e rows -> Employee.numEmp e = n -> Employee.idlieu e = v) ->
  Sql.employe_set_idlieu v n rows = rows.
Proof.
  intros H. unfold Sql.employe_set_idlieu.
  rewrite <- (map_id rows) at 2. apply map_ext_in.
  intros e Hin. destruct (String.eqb_spec (Employee.numEmp e) n) as [Hn|_];
    [|reflexivity].
  rewrite <- (H e Hin Hn). now destruct e.
Qed.

Lemma affecter_delete_snoc a rows :
  existsb (fun a' => String.eqb (Assignment.numAffect a') (Assignment.numAffect a))
          rows = false ->
  Sql.affecter_delete (Assignment.numAffect a) (rows ++ [a]) = rows.
Proof.
  intros H. unfold Sql.affecter_delete. rewrite filter_app. cbn [filter].
  rewrite String.eqb_refl. cbn [negb]. rewrite app_nil_r.
  apply filter_all. intros r Hin.
  now rewrite (existsb_false_in _ _ H r Hin).
Qed.

End CreateDelete.

(** X18. Deleting the row that a create has just added undoes the create.
    Take a store in which the rows of the employee carry dates of the
    calendar written YYYY-MM-DD with ten characters and the employee's
    location follows that history, and a form whose dates are written the
    same way and fall after the whole history of the employee. When the
    create succeeds, the delete of the returned identifier succeeds and the
    store is again exactly what it was before the create. *)
Theorem create_then_delete_restores
    (today : PyDate.date) (data : dict) (db : DB) (msg id : string) (c1 : Conn) :
  AssignmentController.create today data (connect db) = (Ok (true, msg, Some id), c1) ->
  (forall r, In r (AFFECTER db) ->
     Assignment.numEmp r = Py.strip (dict_item data "numEmp") -> dated r) ->
  dated_after_history data db ->
  (forall e, In e (EMPLOYE db) ->
     Employee.numEmp e = Py.strip (dict_item data "numEmp") ->
     follows_history db e) ->
  AssignmentController.delete id c1
  = (Ok (true, "Assignment deleted successfully!"), connect db).
Proof.
  intros Hc Hdated Hafter Hfollow.
  destruct (create_cases_checked today data db)
    as [[m F]|(v & e & Hval & He & _ & Ho & Hn & Hid & S)]; [congruence|].
  cbv zeta in *. set (a := AssignmentController.assignment_of v data) in *.
  rewrite S in Hc.
  assert (Hid' : Assignment.numAffect a = id) by congruence.
  assert (Hc1 : connect (inserted a db) = c1) by congruence.
  subst id c1. clear Hc.
  assert (Hemp : Assignment.numEmp a = Py.strip (dict_item data "numEmp"))
    by reflexivity.
  destruct Hafter as (P1 & P2 & Hafter).
  assert (Ha : dated a).
  { split; [exact P1|]. split; [exact P2|].
    exact (validate_true_days _ _ _ Hval). }
  assert (Hlater : later_than_history (Assignment.numEmp a) (Sql.key a) db).
  { intros r Hr Hr'. rewrite key_lt_earlier; [|now apply Hdated|exact Ha].
    exact (Hafter r Hr Hr'). }
  assert (Hsync : forall e, In e (EMPLOYE db) ->
            Employee.numEmp e = Py.strip (dict_item data "numEmp") -> in_sync db e).
  { intros e0 Hin0 Hn0. apply follows_history_in_sync; [|now apply Hfollow].
    intros r Hr Hr'. apply Hdated; congruence. }
  assert (Hjoined : Sql.find_assignment_joined (Assignment.numAffect a) (inserted a db)
                    = Some a).
  { unfold Sql.find_assignment_joined, inserted. cbn [LIEU EMPLOYE AFFECTER].
    unfold id_in_use in Hid.
    rewrite find_app_none.
    - cbn [find]. rewrite String.eqb_refl.
      rewrite (existsb_key_in Employee.numEmp), !(existsb_key_in Location.idlieu);
        [reflexivity| | |].
      + apply (find_key_in Location.idlieu). exact Hn.
      + apply (find_key_in Location.idlieu). exact Ho.
      + rewrite employe_set_idlieu_ids. apply (find_key_in Employee.numEmp).
        unfold Sql.find_employee in He. congruence.
    - destruct (find _ (AFFECTER db)) as [r|] eqn:E; [|reflexivity].
      apply find_some in E as [Hin Hb].
      apply andb_prop in Hb as [Hb _]. apply andb_prop in Hb as [Hb _].
      apply andb_prop in Hb as [Hb _].
      rewrite (existsb_false_in _ _ Hid r Hin) in Hb. discriminate. }
  rewrite (delete_found _ _ _ Hjoined). f_equal. f_equal.
  unfold deleted, is_latest.
  rewrite (latest_insert_self a db Hlater), String.eqb_refl.
  unfold inserted. cbn [LIEU EMPLOYE AFFECTER].
  rewrite (affecter_delete_snoc a (AFFECTER db) Hid).
  assert (Hlatest : forall ls es,
            Sql.latest_assignment (Assignment.numEmp a) (mkDB ls es (AFFECTER db))
            = Sql.latest_assignment (Assignment.numEmp a) db) by reflexivity.
  rewrite Hlatest, set_idlieu_twice, set_idlieu_same; [apply db_eta|].
  intros e0 Hin0 Hn0. rewrite <- Hn0. apply (Hsync e0 Hin0). congruence.
Qed.

Lemma create_then_delete_restores_witness :
  AssignmentController.delete "A2"
    (connect (inserted (Assignment.mk "A2" "E1" "L2" "L1" "2024-02-01" "2024-02-05")
                       run_db))
  = (Ok (true, "Assignment deleted successfully!"), connect run_db).
Proof.
  apply (create_then_delete_restores (PyDate.mk 2024 6 1)
           [("numAffect", "A2"); ("numEmp", "E1"); ("AncienLieu", "L2");
            ("NouveauLieu", "L1"); ("dateAffect", "2024-02-01");
            ("datePriseService", "2024-02-05")]
           run_db "Assignment created successfully!" "A2").
  - reflexivity.
  - intros r [<-|[]] _. repeat split; vm_compute; discriminate.
  - split; [reflexivity|]. split; [reflexivity|].
    intros r [<-|[]] _. reflexivity.
  - intros e [<-|[]] _. left.
    exists (Assignment.mk "A1" "E1" "L1" "L2" "2024-01-10" "2024-01-15").
    split; [|reflexivity]. exists [], []. split; [reflexivity|].
    split; intros r [].
Defined.

(** ** What validation lets into the history *)

Section Validation.

(** What [Assignment.validate] has checked when it accepts. *)
Lemma validate_accepts today a m :
  Assignment.validate today a = (true, m) ->
  well_formed a
  /\ exists d, PyDate.strptime (Assignment.dateAffect a) = Some d
               /\ PyDate.ltb today d = false.
Proof.
  unfold Assignment.validate, well_formed.
  destruct (negb _ || _); [discriminate|].
  destruct (negb _ || _); [discriminate|].
  destruct (negb _ || _); [discriminate|].
  destruct (negb _ || _); [discriminate|].
  destruct (String.eqb_spec (Assignment.AncienLieu a) (Assignment.NouveauLieu a));
    [discriminate|].
  destruct (PyDate.strptime (Assignment.dateAffect a)) as [d|]; [|discriminate].
  destruct (PyDate.strptime (Assignment.datePriseService a)) as [s|]; [|discriminate].
  destruct (PyDate.ltb s d) eqn:E1; [discriminate|].
  destruct (PyDate.ltb today d) eqn:E2; [discriminate|].
  intros _. split; [|eauto]. split; [assumption|]. eauto.
Qed.

Lemma well_formed_fields a b :
  Assignment.AncienLieu a = Assignment.AncienLieu b ->
  Assignment.NouveauLieu a = Assignment.NouveauLieu b ->
  Assignment.dateAffect a = Assignment.dateAffect b ->
  Assignment.datePriseService a = Assignment.datePriseService b ->
  well_formed a -> well_formed b.
Proof. unfold well_formed. intros -> -> -> ->. auto. Qed.

Lemma step_well_formed o db :
  (forall a, In a (AFFECTER db) -> well_formed a) ->
  exists db', step o (connect db) = connect db'
              /\ forall a, In a (AFFECTER db') -> well_formed a.
Proof.
  intros H. destruct o as [today data|today id data|id]; cbn [step].
  - destruct (create_cases today data db)
      as [[msg F]|(v & e & Hval & _ & _ & _ & S)].
    + exists db. rewrite F. auto.
    + eexists. rewrite S. split; [reflexivity|].
      unfold inserted. cbn [AFFECTER]. intros a Hin.
      apply in_app_or in Hin as [Hin|[<-|[]]]; [auto|].
      now apply validate_accepts in Hval.
  - destruct (update_cases today id data db) as [(o & F & _)|(x & _ & Hval & S)].
    + exists db. rewrite F. auto.
    + eexists. rewrite S. split; [reflexivity|].
      unfold updated, Sql.affecter_update. cbn [AFFECTER]. intros a Hin.
      apply in_map_iff in Hin as (r & <- & Hin).
      destruct (String.eqb (Assignment.numAffect r) id); [|auto].
      apply validate_accepts in Hval as [Hwf _].
      now apply (well_formed_fields _ _ eq_refl eq_refl eq_refl eq_refl Hwf).
  - destruct (delete_cases id db) as [[msg F]|(x & _ & S)].
    + exists db. rewrite F. auto.
    + eexists. rewrite S. split; [reflexivity|].
      assert (Hrows : AFFECTER (deleted id (Assignment.numEmp x) db)
                      = Sql.affecter_delete id (AFFECTER db)).
      { unfold deleted. now destruct (is_latest _ _ db). }
      rewrite Hrows. intros a Hin. apply filter_In in Hin as [Hin _]. auto.
Qed.

End Validation.

(** X19. The assignment controller lets no malformed row into the history:
    if every stored row has an origin different from its destination and
    two dates that parse, the service date not before the assignment date,
    then the same holds after any sequence of controller creates, updates
    and deletes. *)
Theorem controller_rows_well_formed (ops : list op) (db : DB) :
  (forall a, In a (AFFECTER db) -> well_formed a) ->
  exists db',
    run ops (connect db) = connect db'
    /\ forall a, In a (AFFECTER db') -> well_formed a.
Proof.
  revert db. induction ops as [|o ops IH]; intros db H.
  - exists db. auto.
  - destruct (step_well_formed o db H) as (db1 & E1 & H1).
    destruct (IH db1 H1) as (db' & E & H').
    exists db'. unfold run in *. cbn [fold_left]. rewrite E1. auto.
Qed.

Lemma controller_rows_well_formed_witness :
  exists db',
    run run_ops (connect run_db) = connect db'
    /\ forall a, In a (AFFECTER db') -> well_formed a.
Proof.
  apply (controller_rows_well_formed run_ops run_db).
  intros a [<-|[]]. split; [discriminate|].
  exists (PyDate.mk 2024 1 10), (PyDate.mk 2024 1 15). repeat split.
Defined.

(** X20. An assignment whose service date is before its assignment date, or
    whose assignment date is after today, is never created: [create]
    refuses it and the store is what it was. *)
Theorem create_rejects_misordered_dates
    (today : PyDate.date) (data : dict) (db : DB) (d s : PyDate.date) :
  PyDate.strptime (dict_item data "dateAffect") = Some d ->
  PyDate.strptime (dict_item data "datePriseService") = Some s ->
  PyDate.ltb s d = true \/ PyDate.ltb today d = true ->
  exists msg,
    AssignmentController.create today data (connect db)
    = (Ok (false, msg, None), connect db).
Proof.
  intros Hd Hs Hbad.
  destruct (create_cases today data db) as [F|(v & e & Hval & _)]; [assumption|].
  exfalso. cbv zeta in Hval.
  apply validate_accepts in Hval as [[_ (d' & s' & Hd' & Hs' & Hle)] (d'' & Hd'' & Hnow)].
  cbn [AssignmentController.assignment_of Assignment.dateAffect
       Assignment.datePriseService] in *.
  rewrite Hd in Hd', Hd''. rewrite Hs in Hs'.
  inversion Hd'. inversion Hd''. inversion Hs'. subst.
  destruct Hbad; congruence.
Qed.

Lemma create_rejects_misordered_dates_witness :
  exists msg,
    AssignmentController.create (PyDate.mk 2024 6 1)
      [("numEmp", "E1"); ("AncienLieu", "L2"); ("NouveauLieu", "L1");
       ("dateAffect", "2024-03-10"); ("datePriseService", "2024-03-01")]
      (connect run_db)
    = (Ok (false, msg, None), connect run_db).
Proof.
  apply (create_rejects_misordered_dates (PyDate.mk 2024 6 1)
           [("numEmp", "E1"); ("AncienLieu", "L2"); ("NouveauLieu", "L1");
            ("dateAffect", "2024-03-10"); ("datePriseService", "2024-03-01")]
           run_db (PyDate.mk 2024 3 10) (PyDate.mk 2024 3 1)).
  - reflexivity.
  - reflexivity.
  - left. reflexivity.
Defined.

(** X21. The controller writes what the Database layer writes: when
    [AssignmentController.create] succeeds, [Database.add_assignment] called
    on the same store with the returned identifier, the stripped
    identifiers of the form and its two dates succeeds as well and leaves
    the same connection. *)
Theorem create_agrees_with_add_assignment
    (today : PyDate.date) (data : dict) (db : DB) (msg id : string) (c1 : Conn) :
  AssignmentController.create today data (connect db) = (Ok (true, msg, Some id), c1) ->
  Database.add_assignment id
    (Py.strip (dict_item data "numEmp"))
    (Py.strip (dict_item data "AncienLieu"))
    (Py.strip (dict_item data "NouveauLieu"))
    (dict_item data "dateAffect") (dict_item data "datePriseService") (connect db)
  = (Ok (true, "Assignment added and employee location updated successfully!"), c1).
Proof.
  intros Hc.
  destruct (create_cases today data db)
    as [[m F]|(v & e & _ & _ & _ & Hid & S)]; [congruence|].
  cbv zeta in *. set (a := AssignmentController.assignment_of v data) in *.
  rewrite S in Hc.
  assert (Hid' : Assignment.numAffect a = id) by congruence.
  assert (Hc1 : connect (inserted a db) = c1) by congruence.
  subst id c1.
  now rewrite add_assignment_run.
Qed.

Lemma create_agrees_with_add_assignment_witness :
  Database.add_assignment "A2" "E1" "L2" "L1" "2024-02-01" "2024-02-05"
    (connect run_db)
  = (Ok (true, "Assignment added and employee location updated successfully!"),
     connect (inserted (Assignment.mk "A2" "E1" "L2" "L1" "2024-02-01" "2024-02-05")
                       run_db)).
Proof.
  apply (create_agrees_with_add_assignment (PyDate.mk 2024 6 1)
           [("numAffect", " A2"); ("numEmp", "E1 "); ("AncienLieu", "L2");
            ("NouveauLieu", "L1"); ("dateAffect", "2024-02-01");
            ("datePriseService", "2024-02-05")]
           run_db "Assignment created successfully!" "A2").
  reflexivity.
Defined.

(** ** Updates of locations and employees *)

Lemma find_map_other {A} (key : A -> string) (g : A -> A) rows id x :
  (forall r, key (g r) = key r) ->
  (forall r, key r <> id -> g r = r) ->
  x <> id ->
  find (fun r => String.eqb (key r) x) (map g rows)
  = find (fun r => String.eqb (key r) x) rows.
Proof.
  intros Hkey Hother Hx. induction rows as [|r rows IH]; [reflexivity|].
  cbn [map find]. rewrite Hkey.
  destruct (String.eqb_spec (key r) x) as [Hr|Hr]; [|exact IH].
  rewrite Hother; [reflexivity|congruence].
Qed.

(** X22. A successful [LocationController.update] changes the name and the
    province of the identified location and nothing else: [get_by_id]
    returns the location with the edited texts stripped, every other
    location is found as before, EMPLOYE and AFFECTER are untouched, and
    [Database.update_location] called with the same texts leaves the same
    connection. *)
Theorem location_update_then_get
    (db : DB) (location_id : string) (data : dict) (msg : string) (c1 : Conn) :
  LocationController.update location_id data (connect db) = (Ok (true, msg), c1) ->
  exists l db',
    Sql.find_location location_id db = Some l
    /\ c1 = connect db'
    /\ LocationController.get_by_id location_id c1
       = (Ok (Some (LocationController.apply_update l data)), c1)
    /\ (forall x, x <> location_id ->
          Sql.find_location x db' = Sql.find_location x db)
    /\ EMPLOYE db' = EMPLOYE db /\ AFFECTER db' = AFFECTER db
    /\ Database.update_location location_id
         (Location.design (LocationController.apply_update l data))
         (Location.province (LocationController.apply_update l data)) (connect db)
       = (Ok (true, "Location updated successfully!"), c1).
Proof.
  intros H.
  destruct (location_update_cases location_id data db)
    as [[m F]|(l & Hl & _ & S)]; [congruence|].
  cbv zeta in S. rewrite S in H.
  assert (Hc1 : connect (mkDB (Sql.lieu_update
                                 (Location.design (LocationController.apply_update l data))
                                 (Location.province (LocationController.apply_update l data))
                                 location_id (LIEU db))
                              (EMPLOYE db) (AFFECTER db)) = c1) by congruence.
  subst c1. clear H.
  exists l. eexists. split; [exact Hl|]. split; [reflexivity|].
  cbn [LIEU EMPLOYE AFFECTER].
  unfold LocationController.get_by_id, Location_get. run_m.
  unfold Sql.find_location, Sql.lieu_update in *. cbn [LIEU].
  split; [|split; [|split; [reflexivity|split; [reflexivity|]]]].
  - rewrite (find_map_key Location.idlieu);
      [|intros r; now destruct (String.eqb (Location.idlieu r) location_id)].
    rewrite Hl. cbn [option_map].
    apply find_some in Hl as [_ Heq]. rewrite Heq. reflexivity.
  - intros x Hx.
    apply (find_map_other Location.idlieu) with (id := location_id);
      [| |exact Hx]; intros r;
      destruct (String.eqb_spec (Location.idlieu r) location_id);
      cbn [Location.idlieu]; congruence.
  - unfold Database.update_location, Sql.update_lieu. run_m.
    apply find_some in Hl as [Hin Heq].
    pose proof (filter_length_pos
                  (fun l' => String.eqb (Location.idlieu l') location_id)
                  (LIEU db) l Hin Heq) as Hpos.
    apply Nat.ltb_lt in Hpos. unfold Sql.lieu_update. now rewrite Hpos.
Qed.

Lemma location_update_then_get_witness :
  let data := [("design", " Annexe Est ")] in
  let c1 := connect (mkDB [Location.mk "L1" "HQ" "North";
                           Location.mk "L2" "Branch" "South";
                           Location.mk "L3" "Annexe Est" "East"]
                          (EMPLOYE origin_check_db) (AFFECTER origin_check_db)) in
  exists l db',
    Sql.find_location "L3" origin_check_db = Some l
    /\ c1 = connect db'
    /\ LocationController.get_by_id "L3" c1
       = (Ok (Some (LocationController.apply_update l data)), c1)
    /\ (forall x, x <> "L3" ->
          Sql.find_location x db' = Sql.find_location x origin_check_db)
    /\ EMPLOYE db' = EMPLOYE origin_check_db
    /\ AFFECTER db' = AFFECTER origin_check_db
    /\ Database.update_location "L3"
         (Location.design (LocationController.apply_update l data))
         (Location.province (LocationController.apply_update l data))
         (connect origin_check_db)
       = (Ok (true, "Location updated successfully!"), c1).
Proof.
  apply (location_update_then_get origin_check_db "L3" [("design", " Annexe Est ")]
           "Location updated successfully!").
  reflexivity.
Defined.

(** X23. A successful [EmployeeController.update] rewrites the one row of
    the employee and keeps its identifier: [get_by_id] returns the row
    with the edited fields, no other employee holds the new address, every
    other employee is found as before, LIEU and AFFECTER are untouched, and
    [Database.update_employee] called with the values of the new row leaves
    the same connection. *)
Theorem employee_update_then_get
    (db : DB) (employee_id : string) (data : dict) (msg : string) (c1 : Conn) :
  EmployeeController.update employee_id data (connect db) = (Ok (true, msg), c1) ->
  exists e0 db',
    let e := EmployeeController.apply_update e0 data in
    Sql.find_employee employee_id db = Some e0
    /\ c1 = connect db'
    /\ EmployeeController.get_by_id employee_id c1 = (Ok (Some e), c1)
    /\ Employee.numEmp e = employee_id
    /\ (forall r, In r (EMPLOYE db') ->
          Employee.mail r = Employee.mail e -> Employee.numEmp r = employee_id)
    /\ (forall x, x <> employee_id ->
          Sql.find_employee x db' = Sql.find_employee x db)
    /\ LIEU db' = LIEU db /\ AFFECTER db' = AFFECTER db
    /\ Database.update_employee employee_id (Employee.civilite e) (Employee.nom e)
         (Employee.prenom e) (Employee.mail e) (Employee.poste e)
         (Employee.idlieu e) (connect db)
       = (Ok (true, "Employee updated successfully!"), c1).
Proof.
  intros H.
  destruct (employee_update_cases employee_id data db)
    as [[m F]|(e0 & He0 & Hval & _ & Hother & Hone & S)]; [congruence|].
  cbv zeta in *. set (e := EmployeeController.apply_update e0 data) in *.
  rewrite S in H.
  assert (Hc1 : connect (mkDB (LIEU db) (Sql.employe_update e employee_id (EMPLOYE db))
                              (AFFECTER db)) = c1) by congruence.
  subst c1. clear H.
  exists e0. eexists. split; [exact He0|]. split; [reflexivity|].
  cbn [LIEU EMPLOYE AFFECTER].
  unfold EmployeeController.get_by_id. run_m.
  unfold Sql.find_employee, Sql.employe_update in *. cbn [EMPLOYE].
  assert (Hid : Employee.numEmp e0 = employee_id).
  { apply find_some in He0 as [_ Heq]. now apply String.eqb_eq. }
  split; [|split; [|split; [|split; [|split; [reflexivity|split; [reflexivity|]]]]]].
  - rewrite (find_map_key Employee.numEmp);
      [|intros r; now destruct (String.eqb (Employee.numEmp r) employee_id)].
    rewrite He0. cbn [option_map]. rewrite Hid, String.eqb_refl.
    subst e. unfold EmployeeController.apply_update.
    cbn [Employee.civilite Employee.nom Employee.prenom Employee.mail
         Employee.poste Employee.idlieu]. now rewrite Hid.
  - exact Hid.
  - intros r Hin Hmail. apply in_map_iff in Hin as (r0 & <- & Hin).
    destruct (String.eqb_spec (Employee.numEmp r0) employee_id) as [Hr|Hr];
      [exact Hr|].
    exfalso. exact (Hother r0 Hin Hr Hmail).
  - intros x Hx.
    apply (find_map_other Employee.numEmp) with (id := employee_id);
      [| |exact Hx]; intros r;
      destruct (String.eqb_spec (Employee.numEmp r) employee_id);
      cbn [Employee.numEmp]; congruence.
  - subst e. unfold Database.update_employee, Sql.update_employe. run_m.
    cbn [Employee.civilite Employee.mail].
    rewrite Hone. cbn [Nat.eqb Nat.ltb Nat.leb orb].
    rewrite (employee_validate_civilite _ _ Hval). cbn [negb].
    rewrite existsb_none.
    + unfold Sql.employe_update.
      cbn [Employee.civilite Employee.nom Employee.prenom Employee.mail
           Employee.poste Employee.idlieu]. reflexivity.
    + intros r Hin. destruct (String.eqb_spec (Employee.numEmp r) employee_id) as [Hr|Hr];
        [reflexivity|].
      cbn [negb andb]. apply String.eqb_neq. now apply Hother.
Qed.

Lemma employee_update_then_get_witness :
  let data := [("mail", " Paul.Rabe@Example.com"); ("idlieu", "L2")] in
  let c1 := connect (mkDB (LIEU unassigned_db)
                          [Employee.mk "E1" "Mr" "Rabe" "Paul" "paul.rabe@example.com"
                                       "Analyst" (Some "L2");
                           Employee.mk "E2" "Mme" "Rasoa" "Marie" "marie@example.com"
                                       "Manager" (Some "L2")]
                          (AFFECTER unassigned_db)) in
  exists e0 db',
    let e := EmployeeController.apply_update e0 data in
    Sql.find_employee "E1" unassigned_db = Some e0
    /\ c1 = connect db'
    /\ EmployeeController.get_by_id "E1" c1 = (Ok (Some e), c1)
    /\ Employee.numEmp e = "E1"
    /\ (forall r, In r (EMPLOYE db') ->
          Employee.mail r = Employee.mail e -> Employee.numEmp r = "E1")
    /\ (forall x, x <> "E1" ->
          Sql.find_employee x db' = Sql.find_employee x unassigned_db)
    /\ LIEU db' = LIEU unassigned_db /\ AFFECTER db' = AFFECTER unassigned_db
    /\ Database.update_employee "E1" (Employee.civilite e) (Employee.nom e)
         (Employee.prenom e) (Employee.mail e) (Employee.poste e)
         (Employee.idlieu e) (connect unassigned_db)
       = (Ok (true, "Employee updated successfully!"), c1).
Proof.
  apply (employee_update_then_get unassigned_db "E1"
           [("mail", " Paul.Rabe@Example.com"); ("idlieu", "L2")]
           "Employee updated successfully!").
  reflexivity.
Defined.
